(** * Connection lifecycle and state synchronisation of the dashboard

    A shallow embedding of the browser dashboard's core: the MQTT
    context reducer, the authentication context and service, the S3
    context, the discovery cache and the MQTT service state machine.

    Conventions of the embedding:
    - a JavaScript [number] holding a count or a millisecond instant is
      a [Z], a counter that is only reset to zero and incremented is a
      [nat]; a [Date] is its [getTime()] value;
    - [T | null] and optional fields are [option T];
    - a reducer is a pure function of state and action, as in the source;
    - a class with mutable fields is a record threaded through its
      methods; what a method hands to the outside world (transport
      calls, timers, status notifications) is recorded in the state;
    - a promise that may reject is an explicit outcome argument. *)

From Stdlib Require Import ZArith List Bool Lia.
From stdpp Require Import gmap strings.
Import ListNotations.

Local Open Scope Z_scope.

(** [Array.prototype.slice(b, e)] for indices inside [0 .. 2^53). *)
Definition slice {A : Type} (b e : nat) (l : list A) : list A :=
  firstn (e - b) (skipn b l).

(** ** Exceptions and promises *)

(** A thrown value: an [Error] with its name and message, or anything
    that is not an instance of [Error]. *)
Inductive Thrown : Type :=
| ThrownError (name message : string)
| ThrownOther.

(** How an awaited service call ends. *)
Inductive Settled (A : Type) : Type :=
| Resolved (value : A)
| Rejected (error : Thrown).
Arguments Resolved {A} value.
Arguments Rejected {A} error.

(** [error instanceof Error ? error.message : fallback] *)
Definition messageOr (error : Thrown) (fallback : string) : string :=
  match error with
  | ThrownError _ m => m
  | ThrownOther => fallback
  end.

(** [error instanceof Error ? error : undefined] *)
Definition asError (error : Thrown) : option Thrown :=
  match error with
  | ThrownError _ _ => Some error
  | ThrownOther => None
  end.

(** ** Shared types (types/mqtt.ts) *)

Inductive ConnectionStatus : Type :=
| DISCONNECTED
| CONNECTING
| CONNECTED
| RECONNECTING
| ERROR.

Definition ConnectionStatus_eqb (a b : ConnectionStatus) : bool :=
  match a, b with
  | DISCONNECTED, DISCONNECTED
  | CONNECTING, CONNECTING
  | CONNECTED, CONNECTED
  | RECONNECTING, RECONNECTING
  | ERROR, ERROR => true
  | _, _ => false
  end.

Record MqttMessage : Type := mkMqttMessage {
  topic : string;
  payload : string;
  timestamp : Z;
  qos : Z
}.

(** ** The MQTT context: reducer and actions (contexts/MqttContext) *)

Module MqttContext.

Record MqttState : Type := mkMqttState {
  connected : bool;
  messages : list MqttMessage;
  error : option string;
  connectionStatus : ConnectionStatus;
  lastMessage : option MqttMessage;
  messageCount : Z
}.

Inductive MqttAction : Type :=
| SET_CONNECTING
| SET_CONNECTED
| SET_DISCONNECTED
| SET_RECONNECTING
| SET_ERROR (payload : string)
| ADD_MESSAGE (payload : MqttMessage)
| CLEAR_MESSAGES
| SET_STATUS (payload : ConnectionStatus)
| RESET_STATE.

Definition initialState : MqttState :=
  {| connected := false;
     messages := [];
     error := None;
     connectionStatus := DISCONNECTED;
     lastMessage := None;
     messageCount := 0 |}.

Definition mqttReducer (state : MqttState) (action : MqttAction) : MqttState :=
  match action with
  | SET_CONNECTING =>
      {| connected := false;
         messages := messages state;
         error := None;
         connectionStatus := CONNECTING;
         lastMessage := lastMessage state;
         messageCount := messageCount state |}
  | SET_CONNECTED =>
      {| connected := true;
         messages := messages state;
         error := None;
         connectionStatus := CONNECTED;
         lastMessage := lastMessage state;
         messageCount := messageCount state |}
  | SET_DISCONNECTED =>
      {| connected := false;
         messages := messages state;
         error := error state;
         connectionStatus := DISCONNECTED;
         lastMessage := lastMessage state;
         messageCount := messageCount state |}
  | SET_RECONNECTING =>
      {| connected := false;
         messages := messages state;
         error := None;
         connectionStatus := RECONNECTING;
         lastMessage := lastMessage state;
         messageCount := messageCount state |}
  | SET_ERROR p =>
      {| connected := false;
         messages := messages state;
         error := Some p;
         connectionStatus := ERROR;
         lastMessage := lastMessage state;
         messageCount := messageCount state |}
  | ADD_MESSAGE p =>
      {| connected := connected state;
         messages := slice 0 100 (p :: messages state);
         error := error state;
         connectionStatus := connectionStatus state;
         lastMessage := Some p;
         messageCount := messageCount state + 1 |}
  | CLEAR_MESSAGES =>
      {| connected := connected state;
         messages := [];
         error := error state;
         connectionStatus := connectionStatus state;
         lastMessage := None;
         messageCount := 0 |}
  | SET_STATUS p =>
      {| connected := ConnectionStatus_eqb p CONNECTED;
         messages := messages state;
         error := error state;
         connectionStatus := p;
         lastMessage := lastMessage state;
         messageCount := messageCount state |}
  | RESET_STATE => initialState
  end.

(** [useReducer]: the state after a sequence of dispatched actions. *)
Definition dispatchAll (state : MqttState) (actions : list MqttAction) : MqttState :=
  fold_left mqttReducer actions state.

(** The action functions of the provider that only dispatch. *)
Definition clearMessages (state : MqttState) : MqttState :=
  mqttReducer state CLEAR_MESSAGES.

Definition clearError (state : MqttState) : MqttState :=
  mqttReducer state (SET_ERROR "").

Definition reset (state : MqttState) : MqttState :=
  mqttReducer state RESET_STATE.

Definition handleMessage (state : MqttState) (message : MqttMessage) : MqttState :=
  mqttReducer state (ADD_MESSAGE message).

Definition handleStatusChange (state : MqttState) (status : ConnectionStatus) : MqttState :=
  mqttReducer state (SET_STATUS status).

(** Specification-side bookkeeping: every message received since the
    feed was last emptied, most recent first, with no bound. *)
Fixpoint received (hist : list MqttMessage) (actions : list MqttAction)
  : list MqttMessage :=
  match actions with
  | [] => hist
  | ADD_MESSAGE p :: rest => received (p :: hist) rest
  | CLEAR_MESSAGES :: rest => received [] rest
  | RESET_STATE :: rest => received [] rest
  | _ :: rest => received hist rest
  end.

(** The status handler of the provider run on every status the service
    has announced. *)
Definition replayStatuses (statuses : list ConnectionStatus) (state : MqttState)
  : MqttState :=
  fold_left handleStatusChange statuses state.

(** One message arriving at the service while [callbacks] are
    registered: every registration of the provider's [handleMessage]
    (the callback [handle]) dispatches [ADD_MESSAGE]. *)
Definition deliver (handle : nat) (callbacks : list nat)
    (message : MqttMessage) (state : MqttState) : MqttState :=
  fold_left (fun st c => if Nat.eqb c handle then handleMessage st message
                         else st)
            callbacks state.

End MqttContext.

(** ** The MQTT service (services/mqttService.ts) *)

Module MqttService.

(** [String.prototype.includes]. *)
Fixpoint includes (hay needle : string) : bool :=
  if String.prefix needle hay then true
  else match hay with
       | EmptyString => false
       | String _ rest => includes rest needle
       end.

(** The resolved value of [this.credentials]. *)
Record Credentials : Type := mkCredentials {
  accessKeyId : string;
  secretAccessKey : string;
  sessionToken : string
}.

(** An error object raised by the transport. *)
Record TransportError : Type := mkTransportError {
  code : option string;
  name : option string;
  message : option string
}.

(** Callbacks handed to [setTimeout]; each records the [topic] its
    closure captured. *)
Inductive TimerTask : Type :=
| ReconnectTask (topic : string)
| GraceTask (topic : string)
| WatchdogTask (topic : string)
| SubscribeTask (topic : string)
| WelcomeTask (topic : string).

Record Timer : Type := mkTimer {
  timer_id : nat;
  timer_delay : Z;
  timer_task : TimerTask
}.

(** What the service asks of its collaborators, in call order. *)
Inductive Effect : Type :=
| StatusNotified (status : ConnectionStatus)
| TransportConnect (conn : nat)
| Subscribe (conn : nat) (topic : string)
| Unsubscribe (conn : nat) (topic : string)
| TransportDisconnect (conn : nat)
| WelcomeMessage (topic : string).

Record MqttService : Type := mkMqttService {
  client : option nat;
  connection : option nat;
  credentials : option Credentials;
  connectionStatus : ConnectionStatus;
  reconnectAttempts : nat;
  currentTopic : string;
  reconnectTimeout : option nat;
  isConnecting : bool;
  manualDisconnect : bool;
  (* the event loop and the outside world *)
  pendingTimers : list Timer;
  nextId : nat;
  effects : list Effect
}.

Definition maxReconnectAttempts : nat := 3.
Definition reconnectDelay : Z := 5000.

(** [new MqttService()] followed by [initialize(credentials, ...)]. *)
Definition initialize (creds : option Credentials) : MqttService :=
  {| client := None; connection := None; credentials := creds;
     connectionStatus := DISCONNECTED; reconnectAttempts := 0;
     currentTopic := ""; reconnectTimeout := None;
     isConnecting := false; manualDisconnect := false;
     pendingTimers := []; nextId := 1; effects := [] |}.

(** Field assignments. *)
Definition set_connection (c : option nat) (s : MqttService) : MqttService :=
  {| client := c; connection := c; credentials := credentials s;
     connectionStatus := connectionStatus s;
     reconnectAttempts := reconnectAttempts s;
     currentTopic := currentTopic s; reconnectTimeout := reconnectTimeout s;
     isConnecting := isConnecting s; manualDisconnect := manualDisconnect s;
     pendingTimers := pendingTimers s; nextId := nextId s;
     effects := effects s |}.

Definition set_status (st : ConnectionStatus) (s : MqttService) : MqttService :=
  {| client := client s; connection := connection s;
     credentials := credentials s; connectionStatus := st;
     reconnectAttempts := reconnectAttempts s;
     currentTopic := currentTopic s; reconnectTimeout := reconnectTimeout s;
     isConnecting := isConnecting s; manualDisconnect := manualDisconnect s;
     pendingTimers := pendingTimers s; nextId := nextId s;
     effects := effects s |}.

Definition set_reconnectAttempts (n : nat) (s : MqttService) : MqttService :=
  {| client := client s; connection := connection s;
     credentials := credentials s; connectionStatus := connectionStatus s;
     reconnectAttempts := n;
     currentTopic := currentTopic s; reconnectTimeout := reconnectTimeout s;
     isConnecting := isConnecting s; manualDisconnect := manualDisconnect s;
     pendingTimers := pendingTimers s; nextId := nextId s;
     effects := effects s |}.

Definition set_currentTopic (t : string) (s : MqttService) : MqttService :=
  {| client := client s; connection := connection s;
     credentials := credentials s; connectionStatus := connectionStatus s;
     reconnectAttempts := reconnectAttempts s;
     currentTopic := t; reconnectTimeout := reconnectTimeout s;
     isConnecting := isConnecting s; manualDisconnect := manualDisconnect s;
     pendingTimers := pendingTimers s; nextId := nextId s;
     effects := effects s |}.

Definition set_reconnectTimeout (t : option nat) (s : MqttService) : MqttService :=
  {| client := client s; connection := connection s;
     credentials := credentials s; connectionStatus := connectionStatus s;
     reconnectAttempts := reconnectAttempts s;
     currentTopic := currentTopic s; reconnectTimeout := t;
     isConnecting := isConnecting s; manualDisconnect := manualDisconnect s;
     pendingTimers := pendingTimers s; nextId := nextId s;
     effects := effects s |}.

Definition set_isConnecting (b : bool) (s : MqttService) : MqttService :=
  {| client := client s; connection := connection s;
     credentials := credentials s; connectionStatus := connectionStatus s;
     reconnectAttempts := reconnectAttempts s;
     currentTopic := currentTopic s; reconnectTimeout := reconnectTimeout s;
     isConnecting := b; manualDisconnect := manualDisconnect s;
     pendingTimers := pendingTimers s; nextId := nextId s;
     effects := effects s |}.

Definition set_manualDisconnect (b : bool) (s : MqttService) : MqttService :=
  {| client := client s; connection := connection s;
     credentials := credentials s; connectionStatus := connectionStatus s;
     reconnectAttempts := reconnectAttempts s;
     currentTopic := currentTopic s; reconnectTimeout := reconnectTimeout s;
     isConnecting := isConnecting s; manualDisconnect := b;
     pendingTimers := pendingTimers s; nextId := nextId s;
     effects := effects s |}.

Definition set_pendingTimers (l : list Timer) (s : MqttService) : MqttService :=
  {| client := client s; connection := connection s;
     credentials := credentials s; connectionStatus := connectionStatus s;
     reconnectAttempts := reconnectAttempts s;
     currentTopic := currentTopic s; reconnectTimeout := reconnectTimeout s;
     isConnecting := isConnecting s; manualDisconnect := manualDisconnect s;
     pendingTimers := l; nextId := nextId s;
     effects := effects s |}.

Definition set_nextId (n : nat) (s : MqttService) : MqttService :=
  {| client := client s; connection := connection s;
     credentials := credentials s; connectionStatus := connectionStatus s;
     reconnectAttempts := reconnectAttempts s;
     currentTopic := currentTopic s; reconnectTimeout := reconnectTimeout s;
     isConnecting := isConnecting s; manualDisconnect := manualDisconnect s;
     pendingTimers := pendingTimers s; nextId := n;
     effects := effects s |}.

Definition emit (e : Effect) (s : MqttService) : MqttService :=
  {| client := client s; connection := connection s;
     credentials := credentials s; connectionStatus := connectionStatus s;
     reconnectAttempts := reconnectAttempts s;
     currentTopic := currentTopic s; reconnectTimeout := reconnectTimeout s;
     isConnecting := isConnecting s; manualDisconnect := manualDisconnect s;
     pendingTimers := pendingTimers s; nextId := nextId s;
     effects := effects s ++ [e] |}.

(** [setTimeout(task, delay)]: the timer is queued under a fresh id,
    which is returned with the new state. *)
Definition setTimeout (task : TimerTask) (delay : Z) (s : MqttService)
  : nat * MqttService :=
  let id := nextId s in
  (id, set_nextId (S id)
         (set_pendingTimers (pendingTimers s ++ [mkTimer id delay task]) s)).

(** [clearTimeout(id)]. *)
Definition clearTimeout (id : nat) (s : MqttService) : MqttService :=
  set_pendingTimers
    (List.filter (fun t => negb (Nat.eqb (timer_id t) id)) (pendingTimers s)) s.

(** [if (this.reconnectTimeout) { clearTimeout(...); this.reconnectTimeout = null }] *)
Definition clearReconnectTimeout (s : MqttService) : MqttService :=
  match reconnectTimeout s with
  | Some id => set_reconnectTimeout None (clearTimeout id s)
  | None => s
  end.

(** [setConnectionStatus]: assigns the status and notifies the status
    callbacks, each inside its own try/catch. *)
Definition setConnectionStatus (st : ConnectionStatus) (s : MqttService)
  : MqttService :=
  emit (StatusNotified st) (set_status st s).

(** [resolveCredentials]: [None] when it throws. *)
Definition resolveCredentials (s : MqttService) : option Credentials :=
  match credentials s with
  | Some c =>
      if String.eqb (accessKeyId c) "" || String.eqb (secretAccessKey c) ""
      then None
      else Some c
  | None => None
  end.

Definition nonRetryableErrors : list string :=
  [ "ENOTFOUND"; "ECONNREFUSED"; "UNAUTHORIZED"; "FORBIDDEN";
    "InvalidSignatureException"; "SignatureDoesNotMatchException";
    "TokenRefreshRequiredException"; "AccessDeniedException" ].

(** [a || b || ''] on optional strings: the first truthy one. *)
Definition truthy_or (a : option string) (b : string) : string :=
  match a with
  | Some x => if String.eqb x "" then b else x
  | None => b
  end.

Definition isRetryableError (error : TransportError) : bool :=
  let errorCode := truthy_or (code error) (truthy_or (name error) "") in
  let errorMessage := truthy_or (message error) "" in
  negb (existsb (fun c => includes errorCode c || includes errorMessage c)
                nonRetryableErrors).

(** [subscribeToTopic], up to its await on [connection.subscribe]. *)
Definition subscribeToTopic (topic : string) (s : MqttService) : MqttService :=
  match connection s with
  | None => s
  | Some c => emit (Subscribe c topic) s
  end.

(** [subscribeToTopic] after the await: the welcome timer when the
    subscription resolved, the [catch] block when it rejected. *)
Definition subscribeSettled (topic : string) (ok : bool) (s : MqttService)
  : MqttService :=
  if ok then snd (setTimeout (WelcomeTask topic) 1000 s)
  else setConnectionStatus ERROR s.

Definition simulateWelcomeMessage (s : MqttService) : MqttService :=
  emit (WelcomeMessage (currentTopic s)) s.

(** [scheduleReconnect]. *)
Definition scheduleReconnect (topic : string) (s : MqttService) : MqttService :=
  if (maxReconnectAttempts <=? reconnectAttempts s)%nat
  then setConnectionStatus ERROR s
  else
    let s := clearReconnectTimeout s in
    let s := set_reconnectAttempts (S (reconnectAttempts s)) s in
    let delay := reconnectDelay * 2 ^ Z.of_nat (reconnectAttempts s - 1) in
    let s := setConnectionStatus RECONNECTING s in
    let '(id, s) := setTimeout (ReconnectTask topic) delay s in
    set_reconnectTimeout (Some id) s.

(** [connect], from its entry to the await on [resolveCredentials]:
    [None] when one of the two guards returned early. *)
Definition connect_enter (topic : string) (s : MqttService)
  : option MqttService :=
  if isConnecting s then None
  else if ConnectionStatus_eqb (connectionStatus s) CONNECTED then None
  else
    let s := clearReconnectTimeout s in
    let s := set_isConnecting true s in
    let s := set_manualDisconnect false s in
    let s := setConnectionStatus CONNECTING s in
    Some (set_currentTopic topic s).

(** [connect] after the await: the transport is opened, the handlers
    are registered, the connect call is started and the watchdog is
    armed; or the [catch] block runs when the credentials are missing.
    The boolean tells whether [connect] rejected. *)
Definition connect_resume (topic : string) (s : MqttService)
  : MqttService * bool :=
  match resolveCredentials s with
  | None =>
      (setConnectionStatus ERROR (set_isConnecting false s), true)
  | Some _ =>
      let conn := nextId s in
      let s := set_nextId (S conn) s in
      let s := set_connection (Some conn) s in
      let s := emit (TransportConnect conn) s in
      (snd (setTimeout (WatchdogTask topic) 3000 s), false)
  end.

(** [connect] as one step: the await on the credentials settles before
    any other input is taken. A [disconnect] that runs during that
    await is not an input sequence of [step]; what it leads to is
    stated with [connect_enter] and [connect_resume] themselves. *)
Definition connect (topic : string) (s : MqttService) : MqttService * bool :=
  match connect_enter topic s with
  | None => (s, false)
  | Some s1 => connect_resume topic s1
  end.

(** The handlers registered on the connection by [connect(topic)]. *)
Definition onConnect (topic : string) (s : MqttService) : MqttService :=
  let s := setConnectionStatus CONNECTED s in
  let s := set_reconnectAttempts 0 s in
  let s := set_isConnecting false s in
  subscribeToTopic topic s.

Definition onInterrupt (s : MqttService) : MqttService :=
  setConnectionStatus DISCONNECTED s.

Definition onResume (s : MqttService) : MqttService :=
  setConnectionStatus CONNECTED s.

Definition onDisconnect (topic : string) (s : MqttService) : MqttService :=
  let s := set_isConnecting false s in
  if negb (manualDisconnect s) then
    let s := setConnectionStatus DISCONNECTED s in
    if Nat.eqb (reconnectAttempts s) 0
    then snd (setTimeout (GraceTask topic) 2000 s)
    else scheduleReconnect topic s
  else s.

Definition onError (topic : string) (error : TransportError) (s : MqttService)
  : MqttService :=
  let s := set_isConnecting false s in
  let s := setConnectionStatus ERROR s in
  if negb (manualDisconnect s) && isRetryableError error
  then scheduleReconnect topic s
  else s.

(** The two continuations of [this.connection.connect()]. *)
Definition onConnectResolved (topic : string) (s : MqttService) : MqttService :=
  if negb (ConnectionStatus_eqb (connectionStatus s) CONNECTED) then
    let s := setConnectionStatus CONNECTED s in
    let s := set_reconnectAttempts 0 s in
    let s := set_isConnecting false s in
    subscribeToTopic topic s
  else s.

Definition onConnectRejected (s : MqttService) : MqttService :=
  setConnectionStatus ERROR (set_isConnecting false s).

(** The body of each timer callback. *)
Definition runTask (task : TimerTask) (s : MqttService) : MqttService :=
  match task with
  | ReconnectTask topic =>
      fst (connect topic (set_reconnectTimeout None s))
  | GraceTask topic =>
      if negb (manualDisconnect s)
         && ConnectionStatus_eqb (connectionStatus s) DISCONNECTED
      then scheduleReconnect topic s
      else s
  | WatchdogTask topic =>
      if ConnectionStatus_eqb (connectionStatus s) CONNECTING then
        let s := setConnectionStatus CONNECTED s in
        let s := set_reconnectAttempts 0 s in
        let s := set_isConnecting false s in
        snd (setTimeout (SubscribeTask topic) 500 s)
      else s
  | SubscribeTask topic => subscribeToTopic topic s
  | WelcomeTask _ => simulateWelcomeMessage s
  end.

(** The event loop runs the callback of a pending timer and forgets it;
    an id that is not pending (cancelled or already run) does nothing. *)
Definition fireTimer (id : nat) (s : MqttService) : MqttService :=
  match List.find (fun t => Nat.eqb (timer_id t) id) (pendingTimers s) with
  | Some t => runTask (timer_task t) (clearTimeout id s)
  | None => s
  end.

(** [disconnect], as one step. The two arguments tell whether
    [connection.unsubscribe] and [connection.disconnect] resolve
    ([true]) or throw ([false]); a throw leaves the [try] block for the
    [catch], which only logs. *)
Definition disconnect (unsubscribe_ok disconnect_ok : bool) (s : MqttService)
  : MqttService :=
  let s := set_manualDisconnect true s in
  let s := clearReconnectTimeout s in
  let s := set_reconnectAttempts 0 s in
  let s :=
    match connection s with
    | Some c =>
        (* try *)
        let unsubscribing := negb (String.eqb (currentTopic s) "") in
        let s := if unsubscribing
                 then emit (Unsubscribe c (currentTopic s)) s else s in
        if unsubscribing && negb unsubscribe_ok then s (* catch *)
        else
          let s := emit (TransportDisconnect c) s in
          if negb disconnect_ok then s (* catch *)
          else set_connection None s
    | None => s
    end in
  setConnectionStatus DISCONNECTED s.

(** Everything that can re-enter the service: calls from the UI,
    transport events, promise continuations and timers. *)
Inductive Input : Type :=
| CallConnect (topic : string)
| CallDisconnect (unsubscribe_ok disconnect_ok : bool)
| ConnectEvent (topic : string)
| InterruptEvent
| ResumeEvent
| DisconnectEvent (topic : string)
| ErrorEvent (topic : string) (error : TransportError)
| ConnectResolved (topic : string)
| ConnectRejected
| SubscribeSettled (topic : string) (ok : bool)
| TimerFired (id : nat).

Definition step (s : MqttService) (i : Input) : MqttService :=
  match i with
  | CallConnect topic => fst (connect topic s)
  | CallDisconnect u d => disconnect u d s
  | ConnectEvent topic => onConnect topic s
  | InterruptEvent => onInterrupt s
  | ResumeEvent => onResume s
  | DisconnectEvent topic => onDisconnect topic s
  | ErrorEvent topic e => onError topic e s
  | ConnectResolved topic => onConnectResolved topic s
  | ConnectRejected => onConnectRejected s
  | SubscribeSettled topic ok => subscribeSettled topic ok s
  | TimerFired id => fireTimer id s
  end.

Definition run (s : MqttService) (inputs : list Input) : MqttService :=
  fold_left step inputs s.

(** Counting what reached the transport. *)
Definition isSubscribe (e : Effect) : bool :=
  match e with Subscribe _ _ => true | _ => false end.

Definition isTransportConnect (e : Effect) : bool :=
  match e with TransportConnect _ => true | _ => false end.

Definition isReconnectTimer (t : Timer) : bool :=
  match timer_task t with ReconnectTask _ => true | _ => false end.

Definition subscribeCount (s : MqttService) : nat :=
  length (List.filter isSubscribe (effects s)).

Definition transportCount (s : MqttService) : nat :=
  length (List.filter isTransportConnect (effects s)).

(** The timer bookkeeping the service relies on: a reconnect timer that
    is still pending is the one [reconnectTimeout] refers to. *)
Definition reconnectTimerTracked (s : MqttService) : Prop :=
  forall t : Timer,
    In t (pendingTimers s) ->
    isReconnectTimer t = true ->
    reconnectTimeout s = Some (timer_id t).

Definition noReconnectTimerPending (s : MqttService) : Prop :=
  forall t : Timer, In t (pendingTimers s) -> isReconnectTimer t = false.

(** While the status is [CONNECTING] the in-progress flag is up and the
    manual-disconnect flag is down. *)
Definition connectingFlagged (s : MqttService) : Prop :=
  connectionStatus s = CONNECTING ->
  isConnecting s = true /\ manualDisconnect s = false.

(** The inputs that are calls to [connect] from the UI. *)
Definition isCallConnect (i : Input) : bool :=
  match i with CallConnect _ => true | _ => false end.

(** The error object [createMqttError] builds. *)
Record MqttError : Type := mkMqttError {
  error_code : string;
  error_message : string;
  error_retryable : bool
}.

Definition createMqttError (error : TransportError) (text : string) : MqttError :=
  {| error_code := truthy_or (name error) (truthy_or (code error) "MqttError");
     error_message :=
       String.append text
         (String.append ": " (truthy_or (message error) "Unknown error"));
     error_retryable := true |}.

(** How [publishMessage] ends: the one transport call it made, or what
    it threw. *)
Inductive Published : Type :=
| PublishSent (conn : nat) (topic message : string)
| PublishNotConnected
| PublishFailed (conn : nat) (error : MqttError).

(** [publishMessage]; [publish] is how [connection.publish] settles. *)
Definition publishMessage (topic message : string)
    (publish : option TransportError) (s : MqttService) : Published :=
  match connection s with
  | Some c =>
      if ConnectionStatus_eqb (connectionStatus s) CONNECTED then
        match publish with
        | None => PublishSent c topic message
        | Some error =>
            PublishFailed c (createMqttError error "Failed to publish message")
        end
      else PublishNotConnected
  | None => PublishNotConnected
  end.

(** The callback arrays. A callback is identified by its function
    object; [indexOf] compares identities. *)
Definition addCallback (callback : nat) (callbacks : list nat) : list nat :=
  callbacks ++ [callback].

(** [indexOf] then [splice(index, 1)]: the first occurrence goes. *)
Fixpoint removeCallback (callback : nat) (callbacks : list nat) : list nat :=
  match callbacks with
  | [] => []
  | c :: rest =>
      if Nat.eqb c callback then rest else c :: removeCallback callback rest
  end.

(** [notifyMessageCallbacks] and [notifyStatusCallbacks]: each callback
    is called inside its own try/catch; the result lists, in order,
    the callbacks called and whether each one's error was logged. *)
Definition notifyCallbacks (throws : nat -> bool) (callbacks : list nat)
  : list (nat * bool) :=
  map (fun c => (c, throws c)) callbacks.

(** The statuses announced to the status callbacks so far, in order. *)
Definition notifiedStatuses (s : MqttService) : list ConnectionStatus :=
  flat_map (fun e => match e with
                     | StatusNotified st => [st]
                     | _ => []
                     end)
           (effects s).

Definition isStatusNotified (e : Effect) : bool :=
  match e with StatusNotified _ => true | _ => false end.

Definition isReconnectTask (task : TimerTask) : bool :=
  match task with ReconnectTask _ => true | _ => false end.

(** [String.prototype.includes], as a specification: the needle occurs
    somewhere in the text. *)
Definition occursIn (needle hay : string) : Prop :=
  exists before after : string,
    hay = String.append before (String.append needle after).

(** Invariants of the service. *)
Definition attemptsBounded (s : MqttService) : Prop :=
  (reconnectAttempts s <= maxReconnectAttempts)%nat.

Definition timersFresh (s : MqttService) : Prop :=
  List.NoDup (map timer_id (pendingTimers s)) /\
  Forall (fun t => (timer_id t < nextId s)%nat) (pendingTimers s).

Definition statusAnnounced (s : MqttService) : Prop :=
  connectionStatus s = List.last (notifiedStatuses s) DISCONNECTED.

(** The delays the backoff can produce. *)
Definition backoffDelays (s : MqttService) : Prop :=
  forall t : Timer,
    In t (pendingTimers s) ->
    isReconnectTimer t = true ->
    In (timer_delay t) [5000; 10000; 20000].

(** The grace timer [g] of a first drop on [topic] is pending, and
    [reconnectTimeout] does not refer to it. *)
Definition graceArmed (g : nat) (topic : string) (s : MqttService) : Prop :=
  In (mkTimer g 2000 (GraceTask topic)) (pendingTimers s) /\
  reconnectTimeout s <> Some g /\
  (g < nextId s)%nat.

(** The reconnect timers among the pending ones. *)
Definition reconnectTimers (s : MqttService) : list Timer :=
  List.filter isReconnectTimer (pendingTimers s).

End MqttService.

(** ** Authentication types (types/auth.ts) *)

Module AuthTypes.

Record CognitoUser : Type := mkCognitoUser {
  username : string;
  email : option string;
  attributes : gmap string string
}.

Record AuthResult : Type := mkAuthResult {
  user : CognitoUser;
  challengeName : option string;
  session : option string;
  accessToken : option string;
  idToken : option string;
  refreshToken : option string
}.

Inductive AuthState : Type :=
| LOADING
| AUTHENTICATED
| UNAUTHENTICATED
| CHALLENGE_REQUIRED.

Definition AuthState_eqb (a b : AuthState) : bool :=
  match a, b with
  | LOADING, LOADING
  | AUTHENTICATED, AUTHENTICATED
  | UNAUTHENTICATED, UNAUTHENTICATED
  | CHALLENGE_REQUIRED, CHALLENGE_REQUIRED => true
  | _, _ => false
  end.

Record AuthError : Type := mkAuthError {
  code : string;
  message : string;
  originalError : option Thrown
}.

End AuthTypes.

(** The stored session of the authentication service. *)
Record AuthSession : Type := mkAuthSession {
  session_accessToken : string;
  session_idToken : string;
  session_refreshToken : string;
  session_user : AuthTypes.CognitoUser;
  session_expiresAt : Z
}.

(** ** Discovery types (types/discovery.ts) *)

Record DiscoveryCache : Type := mkDiscoveryCache {
  iotEndpoint : option string;
  s3Buckets : option (list string);
  cache_timestamp : Z;
  cache_expiresAt : Z
}.

(** [Partial<DiscoveryCache>]: every field may be absent. *)
Record PartialDiscoveryCache : Type := mkPartialDiscoveryCache {
  partial_iotEndpoint : option string;
  partial_s3Buckets : option (list string);
  partial_timestamp : option Z;
  partial_expiresAt : option Z
}.

(** ** Durable storage

    [localStorage] maps keys to text. The text written by
    [JSON.stringify] is represented by the value it encodes, which
    [JSON.parse] gives back unchanged (the values stored here are built
    from strings, integers and arrays of strings); any other text is
    kept raw and read as text that [JSON.parse] rejects, which is
    exact for the texts [notJson] accepts. A text that is JSON of
    another shape has no representation here: the services adopt it
    without validation, and nothing below is stated about it. *)
Inductive Stored : Type :=
| StoredSession (s : AuthSession)
| StoredCache (c : DiscoveryCache)
| StoredText (raw : string).

Definition SESSION_KEY : string := "cognito-auth-session".
Definition CACHE_KEY : string := "aws-service-discovery-cache".

(** [if (!stored) return]: a missing entry or an empty text is falsy. *)
Definition falsy (v : option Stored) : bool :=
  match v with
  | None => true
  | Some (StoredText raw) => String.eqb raw ""
  | Some _ => false
  end.

(** A text on which [JSON.parse] throws for certain: it is empty, or
    its first character is neither white space nor the first
    character of a JSON value (an object, an array, a string, a
    number, [true], [false] or [null]). *)
Definition notJson (raw : string) : bool :=
  match raw with
  | EmptyString => true
  | String a _ =>
      negb (existsb (Nat.eqb (Ascii.nat_of_ascii a))
              [ 9; 10; 13; 32;                        (* white space *)
                123; 91; 34; 45;                      (* { [ quote - *)
                48; 49; 50; 51; 52; 53; 54; 55; 56; 57; (* digits *)
                116; 102; 110 ]%nat)                  (* t f n *)
  end.

(** ** The authentication service (services/authService) *)

Module AuthService.
Import AuthTypes.

Definition TOKEN_REFRESH_THRESHOLD : Z := 5 * 60 * 1000.

Record AuthService : Type := mkAuthService {
  currentSession : option AuthSession;
  (* the delay of the armed refresh timer, if any *)
  refreshTimer : option Z;
  localStorage : gmap string Stored
}.

(** [JSON.parse(stored)] read as an [AuthSession]; [None] when the
    [try] block of [loadStoredSession] throws: at [JSON.parse] for a
    raw text, at [session.user.username] for a discovery cache object,
    which has no [user] (whether or not it was first taken for a
    session, the [catch] block leaves the same state). *)
Definition parseSession (v : Stored) : option AuthSession :=
  match v with
  | StoredSession s => Some s
  | _ => None
  end.

Definition clearStoredSession (st : AuthService) : AuthService :=
  {| currentSession := None;
     refreshTimer := None;
     localStorage := delete SESSION_KEY (localStorage st) |}.

Definition scheduleTokenRefresh (now : Z) (st : AuthService) : AuthService :=
  match currentSession st, refreshTimer st with
  | Some sess, None =>
      let timeUntilRefresh :=
        session_expiresAt sess - now - TOKEN_REFRESH_THRESHOLD in
      if timeUntilRefresh >? 0
      then {| currentSession := currentSession st;
              refreshTimer := Some timeUntilRefresh;
              localStorage := localStorage st |}
      else st
  | _, _ => st
  end.

(** [storeSession]; [setItem_ok] is false when [localStorage.setItem]
    throws, which is caught and logged. *)
Definition storeSession (setItem_ok : bool) (sess : AuthSession)
    (st : AuthService) : AuthService :=
  if setItem_ok
  then {| currentSession := currentSession st;
          refreshTimer := refreshTimer st;
          localStorage := <[SESSION_KEY := StoredSession sess]> (localStorage st) |}
  else st.

Definition loadStoredSession (now : Z) (st : AuthService) : AuthService :=
  let stored := localStorage st !! SESSION_KEY in
  if falsy stored then st
  else match stored with
       | Some v =>
           match parseSession v with
           | Some sess =>
               if now >=? session_expiresAt sess
               then clearStoredSession st
               else scheduleTokenRefresh now
                      {| currentSession := Some sess;
                         refreshTimer := refreshTimer st;
                         localStorage := localStorage st |}
           | None => clearStoredSession st
           end
       | None => st
       end.

(** [new AuthService()] over an existing [localStorage]. *)
Definition construct (now : Z) (storage : gmap string Stored) : AuthService :=
  loadStoredSession now
    {| currentSession := None; refreshTimer := None; localStorage := storage |}.

Definition getCurrentUser (now : Z) (st : AuthService)
  : option CognitoUser * AuthService :=
  match currentSession st with
  | None => (None, st)
  | Some sess =>
      if now >=? session_expiresAt sess
      then (None, clearStoredSession st)
      else (Some (session_user sess), st)
  end.

Definition isAuthenticated (now : Z) (st : AuthService) : bool :=
  match currentSession st with
  | None => false
  | Some sess => now <? session_expiresAt sess
  end.

(** The [catch] block of [signIn]: whatever was thrown inside the [try]
    is replaced by a fresh [Error] with one of six fixed messages. *)
Definition signIn_catch (error : Thrown) : Thrown :=
  ThrownError "Error"
    match error with
    | ThrownError name _ =>
        if String.eqb name "NotAuthorizedException"
        then "Invalid username or password"
        else if String.eqb name "UserNotConfirmedException"
        then "User account not confirmed"
        else if String.eqb name "PasswordResetRequiredException"
        then "Password reset required"
        else if String.eqb name "UserNotFoundException"
        then "User not found"
        else if String.eqb name "TooManyRequestsException"
        then "Too many requests. Please try again later"
        else "Sign-in failed. Please try again"
    | ThrownOther => "Sign-in failed. Please try again"
    end.

(** [value || fallback] on an optional string: the value when it is
    present and not empty. *)
Definition orElse (value : option string) (fallback : string) : string :=
  match value with
  | Some x => if String.eqb x "" then fallback else x
  | None => fallback
  end.

(** The [AuthenticationResult] of an [InitiateAuth] or
    [RespondToAuthChallenge] response. *)
Record AuthenticationResult : Type := mkAuthenticationResult {
  AccessToken : option string;
  IdToken : option string;
  RefreshToken : option string;
  ExpiresIn : option Z
}.

Record InitiateAuthResponse : Type := mkInitiateAuthResponse {
  response_AuthenticationResult : option AuthenticationResult;
  response_ChallengeName : option string;
  response_Session : option string
}.

(** One entry of [UserAttributes] and the [GetUser] response. *)
Record AttributeType : Type := mkAttributeType {
  attr_Name : option string;
  attr_Value : option string
}.

Record GetUserResponse : Type := mkGetUserResponse {
  Username : option string;
  UserAttributes : option (list AttributeType)
}.

(** [(ExpiresIn || 3600) * 1000]: the lifetime in milliseconds. *)
Definition lifetime (ar : AuthenticationResult) : Z :=
  match ExpiresIn ar with
  | Some n => if n =? 0 then 3600 else n
  | None => 3600
  end * 1000.

(** A token that is present and not empty. *)
Definition token (t : option string) : option string :=
  match t with
  | Some x => if String.eqb x "" then None else Some x
  | None => None
  end.

Definition parseUserAttributes (attrs : list AttributeType)
  : gmap string string :=
  fold_left
    (fun parsed attr =>
       match token (attr_Name attr), token (attr_Value attr) with
       | Some n, Some v => <[n := v]> parsed
       | _, _ => parsed
       end)
    attrs ∅.

(** [createCognitoUser], given how [GetUser] settles. *)
Definition createCognitoUser (getUser : Settled GetUserResponse)
  : Settled CognitoUser :=
  match getUser with
  | Resolved userResponse =>
      let attrs :=
        parseUserAttributes
          (match UserAttributes userResponse with
           | Some l => l
           | None => []
           end) in
      Resolved {| username := orElse (Username userResponse) "";
                  email := attrs !! "email";
                  attributes := attrs |}
  | Rejected _ =>
      Rejected (ThrownError "Error" "Failed to retrieve user information")
  end.

(** [refreshTokens], run by the refresh timer at instant [now];
    [response] is how the [REFRESH_TOKEN_AUTH] request settles. The
    timer callback does not reset [refreshTimer]. *)
Definition refreshTokens (now : Z) (response : Settled InitiateAuthResponse)
    (setItem_ok : bool) (st : AuthService) : AuthService :=
  match currentSession st with
  | None => st
  | Some sess =>
      if String.eqb (session_refreshToken sess) "" then st
      else
        match response with
        | Rejected _ => clearStoredSession st
        | Resolved r =>
            match response_AuthenticationResult r with
            | Some ar =>
                match token (AccessToken ar), token (IdToken ar) with
                | Some access, Some id =>
                    let sess' :=
                      {| session_accessToken := access;
                         session_idToken := id;
                         session_refreshToken := session_refreshToken sess;
                         session_user := session_user sess;
                         session_expiresAt := now + lifetime ar |} in
                    scheduleTokenRefresh now
                      (storeSession setItem_ok sess'
                         {| currentSession := Some sess';
                            refreshTimer := refreshTimer st;
                            localStorage := localStorage st |})
                | _, _ => st
                end
            | None => st
            end
        end
  end.

Definition getAccessToken (now : Z) (st : AuthService) : option string :=
  if isAuthenticated now st
  then match currentSession st with
       | Some sess => token (Some (session_accessToken sess))
       | None => None
       end
  else None.

(** [getAWSCredentials]: the identity token the credential provider is
    built from, or the thrown error. *)
Definition getAWSCredentials (now : Z) (st : AuthService) : Settled string :=
  match currentSession st with
  | Some sess =>
      if isAuthenticated now st
         && negb (String.eqb (session_idToken sess) "")
      then Resolved (session_idToken sess)
      else Rejected (ThrownError "Error" "User not authenticated")
  | None => Rejected (ThrownError "Error" "User not authenticated")
  end.

End AuthService.

(** ** The authentication context (contexts/AuthContext) *)

Module AuthContext.
Import AuthTypes.

Inductive AuthAction : Type :=
| SET_LOADING
| SET_AUTHENTICATED (payload : CognitoUser)
| SET_UNAUTHENTICATED
| SET_CHALLENGE_REQUIRED (user : CognitoUser) (session : string)
| SET_ERROR (payload : AuthError)
| CLEAR_ERROR.

Record AuthStateType : Type := mkAuthStateType {
  authState : AuthState;
  user : option CognitoUser;
  error : option AuthError;
  challengeSession : option string
}.

Definition initialState : AuthStateType :=
  {| authState := LOADING; user := None; error := None;
     challengeSession := None |}.

Definition authReducer (state : AuthStateType) (action : AuthAction)
  : AuthStateType :=
  match action with
  | SET_LOADING =>
      {| authState := LOADING; user := user state; error := None;
         challengeSession := challengeSession state |}
  | SET_AUTHENTICATED p =>
      {| authState := AUTHENTICATED; user := Some p; error := None;
         challengeSession := None |}
  | SET_UNAUTHENTICATED =>
      {| authState := UNAUTHENTICATED; user := None; error := None;
         challengeSession := None |}
  | SET_CHALLENGE_REQUIRED u sess =>
      {| authState := CHALLENGE_REQUIRED; user := Some u; error := None;
         challengeSession := Some sess |}
  | SET_ERROR p =>
      {| authState := if AuthState_eqb (authState state) LOADING
                      then UNAUTHENTICATED else authState state;
         user := user state; error := Some p;
         challengeSession := challengeSession state |}
  | CLEAR_ERROR =>
      {| authState := authState state; user := user state; error := None;
         challengeSession := challengeSession state |}
  end.

Definition dispatchAll (state : AuthStateType) (actions : list AuthAction)
  : AuthStateType :=
  fold_left authReducer actions state.

(** The actions [signIn] dispatches, in order, given how
    [authService.signIn] settles. *)
Definition signIn_actions (outcome : Settled AuthResult) : list AuthAction :=
  [SET_LOADING; CLEAR_ERROR] ++
  match outcome with
  | Resolved result =>
      if match AuthTypes.challengeName result with
         | Some n => String.eqb n "NEW_PASSWORD_REQUIRED"
         | None => false
         end
      then [SET_CHALLENGE_REQUIRED (AuthTypes.user result)
              (match AuthTypes.session result with
               | Some x => x
               | None => ""
               end)]
      else [SET_AUTHENTICATED (AuthTypes.user result)]
  | Rejected error =>
      let authError :=
        {| code := "SIGN_IN_ERROR";
           message := messageOr error "Sign-in failed";
           originalError := asError error |} in
      [SET_ERROR authError; SET_UNAUTHENTICATED]
  end.

Definition signIn (outcome : Settled AuthResult) (state : AuthStateType)
  : AuthStateType :=
  dispatchAll state (signIn_actions outcome).

(** The actions [signOut] dispatches. *)
Definition signOut_actions (outcome : Settled unit) : list AuthAction :=
  [SET_LOADING] ++
  match outcome with
  | Resolved _ => [SET_UNAUTHENTICATED]
  | Rejected error =>
      let authError :=
        {| code := "SIGN_OUT_ERROR";
           message := "Sign-out completed with warnings";
           originalError := asError error |} in
      [SET_UNAUTHENTICATED; SET_ERROR authError]
  end.

Definition signOut (outcome : Settled unit) (state : AuthStateType)
  : AuthStateType :=
  dispatchAll state (signOut_actions outcome).

Definition clearError (state : AuthStateType) : AuthStateType :=
  authReducer state CLEAR_ERROR.

(** A sign-in attempt that fails inside [authService.signIn]: the
    service rethrows through its [catch] block and the provider's
    [signIn] receives the rejection. *)
Definition failedSignIn (cause : Thrown) (state : AuthStateType)
  : AuthStateType :=
  signIn (Rejected (AuthService.signIn_catch cause)) state.

(** The actions [completeNewPassword] dispatches. *)
Definition completeNewPassword_actions (outcome : Settled AuthResult)
  : list AuthAction :=
  [SET_LOADING; CLEAR_ERROR] ++
  match outcome with
  | Resolved result => [SET_AUTHENTICATED (AuthTypes.user result)]
  | Rejected error =>
      let authError :=
        {| code := "NEW_PASSWORD_ERROR";
           message := messageOr error "Failed to set new password";
           originalError := asError error |} in
      [SET_ERROR authError]
  end.

Definition completeNewPassword (outcome : Settled AuthResult)
    (state : AuthStateType) : AuthStateType :=
  dispatchAll state (completeNewPassword_actions outcome).

(** The actions [initializeAuth] dispatches, given how
    [authService.getCurrentUser] settles. *)
Definition initializeAuth_actions (current : Settled (option CognitoUser))
  : list AuthAction :=
  [SET_LOADING] ++
  match current with
  | Resolved (Some currentUser) => [SET_AUTHENTICATED currentUser]
  | Resolved None => [SET_UNAUTHENTICATED]
  | Rejected error =>
      let authError :=
        {| code := "INIT_ERROR";
           message := "Failed to initialize authentication";
           originalError := asError error |} in
      [SET_ERROR authError; SET_UNAUTHENTICATED]
  end.

Definition initializeAuth (current : Settled (option CognitoUser))
    (state : AuthStateType) : AuthStateType :=
  dispatchAll state (initializeAuth_actions current).

End AuthContext.

(** ** The discovery service cache (services/discoveryService) *)

Module DiscoveryService.

Definition CACHE_DURATION : Z := 1000 * 60 * 60.

(** [JSON.parse(cached)] read as a [DiscoveryCache]; [None] when the
    [try] block throws. *)
Definition parseCache (v : Stored) : option DiscoveryCache :=
  match v with
  | StoredCache c => Some c
  | _ => None
  end.

(** [getCachedResults]: the cached record (or null) and the storage
    left behind. *)
Definition getCachedResults (now : Z) (localStorage : gmap string Stored)
  : option DiscoveryCache * gmap string Stored :=
  let cached := localStorage !! CACHE_KEY in
  if falsy cached then (None, localStorage)
  else match cached with
       | Some v =>
           match parseCache v with
           | Some parsedCache =>
               if now >? cache_expiresAt parsedCache
               then (None, delete CACHE_KEY localStorage)
               else (Some parsedCache, localStorage)
           | None => (None, delete CACHE_KEY localStorage)
           end
       | None => (None, localStorage)
       end.

(** [{ timestamp, expiresAt: timestamp + CACHE_DURATION, ...cache }]:
    the fields present in [cache] are spread last and win. *)
Definition cacheData (timestamp : Z) (cache : PartialDiscoveryCache)
  : DiscoveryCache :=
  {| iotEndpoint := partial_iotEndpoint cache;
     s3Buckets := partial_s3Buckets cache;
     cache_timestamp :=
       match partial_timestamp cache with
       | Some t => t
       | None => timestamp
       end;
     cache_expiresAt :=
       match partial_expiresAt cache with
       | Some e => e
       | None => timestamp + CACHE_DURATION
       end |}.

(** [setCachedResults]; [setItem_ok] is false when
    [localStorage.setItem] throws, which is caught and logged. *)
Definition setCachedResults (now : Z) (cache : PartialDiscoveryCache)
    (setItem_ok : bool) (localStorage : gmap string Stored)
  : gmap string Stored :=
  if setItem_ok
  then <[CACHE_KEY := StoredCache (cacheData now cache)]> localStorage
  else localStorage.

Definition clearCache (localStorage : gmap string Stored)
  : gmap string Stored :=
  delete CACHE_KEY localStorage.

Definition isCacheValid (now : Z) (localStorage : gmap string Stored) : bool :=
  match fst (getCachedResults now localStorage) with
  | Some _ => true
  | None => false
  end.

(** What [getDefaultConfiguration] hands to [setCachedResults]. *)
Definition discoveryResults (endpoint : string) (buckets : list string)
  : PartialDiscoveryCache :=
  {| partial_iotEndpoint := Some endpoint;
     partial_s3Buckets := Some buckets;
     partial_timestamp := None;
     partial_expiresAt := None |}.

(** The part of [config] the discovery service reads. *)
Record AppConfig : Type := mkAppConfig {
  aws_region : string;
  services_s3BucketName : option string;
  services_mqttTopic : option string
}.

Record ServiceConfiguration : Type := mkServiceConfiguration {
  config_iotEndpoint : string;
  config_s3BucketName : string;
  config_mqttTopic : string;
  config_region : string
}.

(** The two private fields of the service: the credential provider
    (represented by the identity token it was built from) and whether
    the IoT client exists. *)
Record DiscoveryService : Type := mkDiscoveryService {
  credentials : option string;
  iotClient : bool
}.

Definition newDiscoveryService : DiscoveryService :=
  {| credentials := None; iotClient := false |}.

(** [initializeClients]: the error thrown, if any, and the service. *)
Definition initializeClients (now : Z) (auth : AuthService.AuthService)
    (ds : DiscoveryService) : option Thrown * DiscoveryService :=
  match credentials ds with
  | Some _ => (None, {| credentials := credentials ds; iotClient := true |})
  | None =>
      if negb (AuthService.isAuthenticated now auth)
      then (Some (ThrownError "Error"
                    "User must be authenticated to use discovery service"),
            ds)
      else match AuthService.getAWSCredentials now auth with
           | Resolved idToken =>
               (None, {| credentials := Some idToken; iotClient := true |})
           | Rejected e => (Some e, ds)
           end
  end.

Definition discoveryFailed (error : Thrown) : Thrown :=
  ThrownError "Error"
    (String.append "IoT endpoint discovery failed: "
       (messageOr error "Unknown error")).

(** [discoverIoTEndpoint]; [describe] is how [DescribeEndpoint] settles
    (with its [endpointAddress]). The boolean tells whether the request
    was sent. *)
Definition discoverIoTEndpoint (now : Z) (auth : AuthService.AuthService)
    (describe : Settled (option string)) (ds : DiscoveryService)
  : Settled string * DiscoveryService * bool :=
  match initializeClients now auth ds with
  | (Some e, ds') => (Rejected (discoveryFailed e), ds', false)
  | (None, ds') =>
      match describe with
      | Resolved (Some address) =>
          if String.eqb address ""
          then (Rejected (discoveryFailed
                            (ThrownError "Error"
                               "No IoT endpoint address returned")),
                ds', true)
          else (Resolved address, ds', true)
      | Resolved None =>
          (Rejected (discoveryFailed
                       (ThrownError "Error"
                          "No IoT endpoint address returned")),
           ds', true)
      | Rejected e => (Rejected (discoveryFailed e), ds', true)
      end
  end.

(** [discoverS3Buckets]: the configured bucket, if any. *)
Definition discoverS3Buckets (cfg : AppConfig) : list string :=
  match services_s3BucketName cfg with
  | Some b => if String.eqb b "" then [] else [b]
  | None => []
  end.

(** [cached && cached.iotEndpoint && cached.s3Buckets]: the endpoint
    and the bucket list of a usable cache entry. *)
Definition usableCache (cached : option DiscoveryCache)
  : option (string * list string) :=
  match cached with
  | Some c =>
      match iotEndpoint c, s3Buckets c with
      | Some e, Some bs => if String.eqb e "" then None else Some (e, bs)
      | _, _ => None
      end
  | None => None
  end.

(** The tail of [getDefaultConfiguration]: manual overrides, then the
    configuration object. *)
Definition configure (cfg : AppConfig) (endpoint : string)
    (buckets : list string) : ServiceConfiguration :=
  {| config_iotEndpoint := endpoint;
     config_s3BucketName :=
       match services_s3BucketName cfg with
       | Some b => if String.eqb b "" then hd "" buckets else b
       | None => hd "" buckets
       end;
     config_mqttTopic :=
       match services_mqttTopic cfg with
       | Some t => if String.eqb t "" then "dashboard/messages" else t
       | None => "dashboard/messages"
       end;
     config_region := aws_region cfg |}.

(** What a call of [getDefaultConfiguration] leaves behind. *)
Record Discovered : Type := mkDiscovered {
  outcome : Settled ServiceConfiguration;
  service : DiscoveryService;
  storage : gmap string Stored;
  requested : bool
}.

Definition getDefaultConfiguration (now : Z) (cfg : AppConfig)
    (auth : AuthService.AuthService) (describe : Settled (option string))
    (setItem_ok : bool) (ds : DiscoveryService)
    (localStorage : gmap string Stored) : Discovered :=
  let '(cached, localStorage) := getCachedResults now localStorage in
  match usableCache cached with
  | Some (endpoint, buckets) =>
      {| outcome := Resolved (configure cfg endpoint buckets);
         service := ds; storage := localStorage; requested := false |}
  | None =>
      match discoverIoTEndpoint now auth describe ds with
      | (Resolved endpoint, ds', sent) =>
          let buckets := discoverS3Buckets cfg in
          {| outcome := Resolved (configure cfg endpoint buckets);
             service := ds';
             storage := setCachedResults now
                          (discoveryResults endpoint buckets)
                          setItem_ok localStorage;
             requested := sent |}
      | (Rejected error, ds', sent) =>
          {| outcome :=
               Rejected
                 (ThrownError "Error"
                    (String.append "Service discovery failed: "
                       (messageOr error "Unknown error")));
             service := ds'; storage := localStorage; requested := sent |}
      end
  end.

End DiscoveryService.

(** ** Sign-in and sign-out across the two services (services/authService) *)

Module AuthFlows.
Import AuthTypes.

(** The two singletons; [localStorage] is the one held in [auth]. *)
Record Services : Type := mkServices {
  auth : AuthService.AuthService;
  discovery : DiscoveryService.DiscoveryService
}.

(** The session object built from an authentication result. *)
Definition newSession (now : Z) (ar : AuthService.AuthenticationResult)
    (access id : string) (user : CognitoUser) : AuthSession :=
  {| session_accessToken := access;
     session_idToken := id;
     session_refreshToken := AuthService.orElse (AuthService.RefreshToken ar) "";
     session_user := user;
     session_expiresAt := now + AuthService.lifetime ar |}.

(** [this.currentSession = session; this.storeSession(session);
    this.scheduleTokenRefresh()] *)
Definition adopt (now : Z) (setItem_ok : bool) (session : AuthSession)
    (st : AuthService.AuthService) : AuthService.AuthService :=
  AuthService.scheduleTokenRefresh now
    (AuthService.storeSession setItem_ok session
       {| AuthService.currentSession := Some session;
          AuthService.refreshTimer := AuthService.refreshTimer st;
          AuthService.localStorage := AuthService.localStorage st |}).

(** What the best-effort service discovery after a sign-in leaves in
    the two services; its outcome is only logged. *)
Definition warmUp (now : Z) (cfg : DiscoveryService.AppConfig)
    (describe : Settled (option string)) (cacheStored : bool)
    (w : Services) : Services :=
  let d := DiscoveryService.getDefaultConfiguration now cfg (auth w) describe
             cacheStored (discovery w)
             (AuthService.localStorage (auth w)) in
  {| auth := {| AuthService.currentSession :=
                  AuthService.currentSession (auth w);
                AuthService.refreshTimer := AuthService.refreshTimer (auth w);
                AuthService.localStorage := DiscoveryService.storage d |};
     discovery := DiscoveryService.service d |}.

(** [signIn]. [response] and [getUser] are how the two Cognito requests
    settle, [describe] how the endpoint lookup of the discovery warm-up
    does. The IoT policy attachment that follows the warm-up is wrapped
    in its own try/catch, changes neither service and not the result;
    it is left out. *)
Definition signIn (now : Z) (username : string)
    (response : Settled AuthService.InitiateAuthResponse)
    (getUser : Settled AuthService.GetUserResponse)
    (sessionStored : bool)
    (cfg : DiscoveryService.AppConfig)
    (describe : Settled (option string)) (cacheStored : bool)
    (w : Services) : Settled AuthResult * Services :=
  match response with
  | Rejected e => (Rejected (AuthService.signIn_catch e), w)
  | Resolved r =>
      match AuthService.response_AuthenticationResult r with
      | Some ar =>
          match AuthService.token (AuthService.AccessToken ar),
                AuthService.token (AuthService.IdToken ar) with
          | Some access, Some id =>
              match AuthService.createCognitoUser getUser with
              | Rejected e => (Rejected (AuthService.signIn_catch e), w)
              | Resolved user =>
                  let session := newSession now ar access id user in
                  let w1 := {| auth := adopt now sessionStored session (auth w);
                               discovery := discovery w |} in
                  (Resolved {| user := user;
                               challengeName := None;
                               session := None;
                               accessToken := Some access;
                               idToken := Some id;
                               refreshToken := AuthService.RefreshToken ar |},
                   warmUp now cfg describe cacheStored w1)
              end
          | _, _ =>
              (Rejected (AuthService.signIn_catch
                           (ThrownError "Error" "Missing authentication tokens")),
               w)
          end
      | None =>
          match AuthService.token (AuthService.response_ChallengeName r) with
          | Some challenge =>
              (Resolved {| user := {| username := username; email := None;
                                      attributes := ∅ |};
                           challengeName := Some challenge;
                           session := AuthService.response_Session r;
                           accessToken := None;
                           idToken := None;
                           refreshToken := None |},
               w)
          | None =>
              (Rejected (AuthService.signIn_catch
                           (ThrownError "Error"
                              "Unexpected authentication response")),
               w)
          end
      end
  end.

(** [completeNewPassword]; [response] is how the
    [RespondToAuthChallenge] request settles (its response has the
    fields of [InitiateAuthResponse]), [getUser] how [GetUser] does.
    Every failure leaves through the one [catch] block. No discovery
    follows; the IoT policy attachment is left out as in [signIn]. *)
Definition completeNewPassword (now : Z)
    (response : Settled AuthService.InitiateAuthResponse)
    (getUser : Settled AuthService.GetUserResponse)
    (sessionStored : bool)
    (w : Services) : Settled AuthResult * Services :=
  let failed : Settled AuthResult :=
    Rejected (ThrownError "Error"
                "Failed to set new password. Please try again") in
  match response with
  | Rejected _ => (failed, w)
  | Resolved r =>
      match AuthService.response_AuthenticationResult r with
      | Some ar =>
          match AuthService.token (AuthService.AccessToken ar),
                AuthService.token (AuthService.IdToken ar) with
          | Some access, Some id =>
              match AuthService.createCognitoUser getUser with
              | Rejected _ => (failed, w)
              | Resolved user =>
                  let authSession := newSession now ar access id user in
                  (Resolved {| user := user;
                               challengeName := None;
                               session := None;
                               accessToken := Some access;
                               idToken := Some id;
                               refreshToken := AuthService.RefreshToken ar |},
                   {| auth := adopt now sessionStored authSession (auth w);
                      discovery := discovery w |})
              end
          | _, _ => (failed, w)
          end
      | None => (failed, w)
      end
  end.

(** [signOut]; [remote] is how [GlobalSignOut] settles when it is
    sent. The boolean tells whether it was sent. *)
Definition signOut (remote : Settled unit) (w : Services) : bool * Services :=
  let sent :=
    match AuthService.currentSession (auth w) with
    | Some sess => negb (String.eqb (session_accessToken sess) "")
    | None => false
    end in
  let cleared := AuthService.clearStoredSession (auth w) in
  (sent,
   {| auth := {| AuthService.currentSession :=
                   AuthService.currentSession cleared;
                 AuthService.refreshTimer := AuthService.refreshTimer cleared;
                 AuthService.localStorage :=
                   DiscoveryService.clearCache
                     (AuthService.localStorage cleared) |};
      discovery := discovery w |}).

End AuthFlows.

(** ** The S3 context (contexts/S3Context) *)

Module S3Context.

Record S3Object : Type := mkS3Object {
  key : string;
  lastModified : Z;
  size : Z;
  url : string;
  etag : option string
}.

Record S3State : Type := mkS3State {
  images : list S3Object;
  loading : bool;
  error : option string;
  lastUpdated : option Z;
  selectedBucket : option string;
  availableBuckets : list string;
  hasMore : bool;
  refreshing : bool;
  lastRefreshTime : option Z;
  lastImageEtag : option string
}.

Inductive S3Action : Type :=
| SET_LOADING (payload : bool)
| SET_REFRESHING (payload : bool)
| SET_ERROR (payload : option string)
| SET_IMAGES (images : list S3Object) (hasMore : bool)
| SET_BUCKETS (payload : list string)
| SET_SELECTED_BUCKET (payload : option string)
| UPDATE_LAST_UPDATED
| RESET_STATE.

Definition initialState : S3State :=
  {| images := []; loading := false; error := None; lastUpdated := None;
     selectedBucket := None; availableBuckets := []; hasMore := false;
     refreshing := false; lastRefreshTime := None; lastImageEtag := None |}.

(** [images[0]?.etag || null] *)
Definition firstEtag (imgs : list S3Object) : option string :=
  match imgs with
  | o :: _ =>
      match etag o with
      | Some e => if String.eqb e "" then None else Some e
      | None => None
      end
  | [] => None
  end.

(** The reducer; [now] is what [new Date()] returns when it runs. *)
Definition s3Reducer (now : Z) (state : S3State) (action : S3Action) : S3State :=
  match action with
  | SET_LOADING p =>
      {| images := images state; loading := p; error := error state;
         lastUpdated := lastUpdated state;
         selectedBucket := selectedBucket state;
         availableBuckets := availableBuckets state;
         hasMore := hasMore state; refreshing := refreshing state;
         lastRefreshTime := lastRefreshTime state;
         lastImageEtag := lastImageEtag state |}
  | SET_REFRESHING p =>
      {| images := images state; loading := loading state;
         error := error state; lastUpdated := lastUpdated state;
         selectedBucket := selectedBucket state;
         availableBuckets := availableBuckets state;
         hasMore := hasMore state; refreshing := p;
         lastRefreshTime := lastRefreshTime state;
         lastImageEtag := lastImageEtag state |}
  | SET_ERROR p =>
      {| images := images state; loading := false; error := p;
         lastUpdated := lastUpdated state;
         selectedBucket := selectedBucket state;
         availableBuckets := availableBuckets state;
         hasMore := hasMore state; refreshing := false;
         lastRefreshTime := lastRefreshTime state;
         lastImageEtag := lastImageEtag state |}
  | SET_IMAGES imgs more =>
      {| images := imgs; loading := false; error := None;
         lastUpdated := lastUpdated state;
         selectedBucket := selectedBucket state;
         availableBuckets := availableBuckets state;
         hasMore := more; refreshing := false;
         lastRefreshTime := lastRefreshTime state;
         lastImageEtag := firstEtag imgs |}
  | SET_BUCKETS p =>
      {| images := images state; loading := loading state;
         error := error state; lastUpdated := lastUpdated state;
         selectedBucket := selectedBucket state;
         availableBuckets := p;
         hasMore := hasMore state; refreshing := refreshing state;
         lastRefreshTime := lastRefreshTime state;
         lastImageEtag := lastImageEtag state |}
  | SET_SELECTED_BUCKET p =>
      {| images := images state; loading := loading state;
         error := error state; lastUpdated := lastUpdated state;
         selectedBucket := p;
         availableBuckets := availableBuckets state;
         hasMore := hasMore state; refreshing := refreshing state;
         lastRefreshTime := lastRefreshTime state;
         lastImageEtag := lastImageEtag state |}
  | UPDATE_LAST_UPDATED =>
      {| images := images state; loading := loading state;
         error := error state; lastUpdated := Some now;
         selectedBucket := selectedBucket state;
         availableBuckets := availableBuckets state;
         hasMore := hasMore state; refreshing := refreshing state;
         lastRefreshTime := lastRefreshTime state;
         lastImageEtag := lastImageEtag state |}
  | RESET_STATE => initialState
  end.

Definition dispatchAll (now : Z) (state : S3State) (actions : list S3Action)
  : S3State :=
  fold_left (s3Reducer now) actions state.

(** What [useAuthenticatedAWS] provides to the provider. *)
Record AwsAuth : Type := mkAwsAuth {
  isAuthenticated : bool;
  hasCredentials : bool
}.

(** The result of [realS3Service.listImages]. *)
Record S3ListResult : Type := mkS3ListResult {
  objects : list S3Object;
  isTruncated : bool;
  totalCount : Z
}.

(** A truthy string: present and not empty. *)
Definition truthy (s : option string) : option string :=
  match s with
  | Some x => if String.eqb x "" then None else Some x
  | None => None
  end.

(** What a provider action did: the actions it dispatched, in order,
    and the buckets on which it called [listImages]. *)
Record Run : Type := mkRun {
  dispatched : list S3Action;
  fetched : list string
}.

(** [loadImages(bucketName, showLoading)] with the state its closure
    captured; [listing] is how [listImages] settles. *)
Definition loadImages (auth : AwsAuth) (state : S3State)
    (bucketName : option string) (showLoading : bool)
    (listing : Settled S3ListResult) : Run :=
  let targetBucket :=
    match truthy bucketName with
    | Some b => Some b
    | None => truthy (selectedBucket state)
    end in
  match targetBucket with
  | None =>
      {| dispatched := [SET_ERROR (Some "No bucket selected")];
         fetched := [] |}
  | Some bucket =>
      if negb (isAuthenticated auth) || negb (hasCredentials auth)
      then {| dispatched := [SET_ERROR (Some "Authentication required")];
              fetched := [] |}
      else
        let before :=
          [ if showLoading then SET_LOADING true else SET_REFRESHING true;
            SET_ERROR None ] in
        match listing with
        | Resolved result =>
            {| dispatched :=
                 before ++ [SET_IMAGES (objects result) (isTruncated result);
                            UPDATE_LAST_UPDATED];
               fetched := [bucket] |}
        | Rejected error =>
            {| dispatched :=
                 before ++
                 [SET_ERROR
                    (Some (messageOr error "Failed to load images"))];
               fetched := [bucket] |}
        end
  end.

(** [refreshImages] called at instant [now]. *)
Definition refreshImages (now : Z) (auth : AwsAuth) (state : S3State)
    (listing : Settled S3ListResult) : Run :=
  let minRefreshInterval := 5000 in
  let throttled :=
    match lastRefreshTime state with
    | Some t => now - t <? minRefreshInterval
    | None => false
    end in
  if throttled then {| dispatched := []; fetched := [] |}
  else
    let r := loadImages auth state None false listing in
    {| dispatched := UPDATE_LAST_UPDATED :: dispatched r;
       fetched := fetched r |}.

(** The state once every dispatched action has been reduced. *)
Definition settle (now : Z) (state : S3State) (r : Run) : S3State :=
  dispatchAll now state (dispatched r).

(** What [realS3Service.getLatestImageMetadata] returns. *)
Record ImageMetadata : Type := mkImageMetadata {
  meta_lastModified : Z;
  meta_etag : string
}.

(** [metadata.etag !== state.lastImageEtag] *)
Definition etagChanged (metadata : ImageMetadata) (state : S3State) : bool :=
  match lastImageEtag state with
  | Some e => negb (String.eqb (meta_etag metadata) e)
  | None => true
  end.

(** Whether the polling effect installs its interval. *)
Definition polling (auth : AwsAuth) (state : S3State) : bool :=
  match truthy (selectedBucket state) with
  | Some _ => isAuthenticated auth && hasCredentials auth
  | None => false
  end.

(** One tick of the 5000 ms metadata poll, with the state its closure
    captured; [metadata] is how [getLatestImageMetadata] settles. A
    rejection is caught and logged. *)
Definition pollTick (auth : AwsAuth) (state : S3State)
    (metadata : Settled (option ImageMetadata))
    (listing : Settled S3ListResult) : Run :=
  if polling auth state then
    match metadata with
    | Resolved (Some m) =>
        if etagChanged m state
        then loadImages auth state None false listing
        else {| dispatched := []; fetched := [] |}
    | Resolved None => {| dispatched := []; fetched := [] |}
    | Rejected _ => {| dispatched := []; fetched := [] |}
    end
  else {| dispatched := []; fetched := [] |}.

Definition pollInterval : Z := 5000.

End S3Context.

(** ** The S3 service (services/realS3Service) *)

Module RealS3Service.

(** What the service reads of a thrown value: whether it is an
    instance of [Error], and the fields [createS3Error] looks at. *)
Record ErrorObject : Type := mkErrorObject {
  isError : bool;
  name : option string;
  Code : option string;
  message : option string;
  httpStatusCode : option Z;
  throttling : option bool
}.

Inductive Result (A : Type) : Type :=
| Returned (value : A)
| Raised (error : ErrorObject).
Arguments Returned {A} value.
Arguments Raised {A} error.

Record S3Error : Type := mkS3Error {
  s3_code : string;
  s3_message : string;
  s3_statusCode : Z;
  s3_retryable : bool
}.

(** An [S3Error] is a plain object: thrown, it is not an [Error], has
    no [name], [Code], [$metadata] or [$retryable], and its [message]
    is the one it carries. *)
Definition thrownS3Error (e : S3Error) : ErrorObject :=
  {| isError := false; name := None; Code := None;
     message := Some (s3_message e);
     httpStatusCode := None; throttling := None |}.

Definition newError (text : string) : ErrorObject :=
  {| isError := true; name := Some "Error"; Code := None;
     message := Some text; httpStatusCode := None; throttling := None |}.

(** The first present, non-empty string, else the fallback. *)
Definition firstOf (a b : option string) (fallback : string) : string :=
  match a with
  | Some x =>
      if String.eqb x ""
      then match b with
           | Some y => if String.eqb y "" then fallback else y
           | None => fallback
           end
      else x
  | None =>
      match b with
      | Some y => if String.eqb y "" then fallback else y
      | None => fallback
      end
  end.

Definition createS3Error (error : ErrorObject) (text : string) : S3Error :=
  {| s3_code := firstOf (name error) (Code error) "S3Error";
     s3_message :=
       String.append text
         (String.append ": " (firstOf (message error) None "Unknown error"));
     s3_statusCode :=
       match httpStatusCode error with
       | Some n => n
       | None => 0
       end;
     s3_retryable :=
       match throttling error with
       | Some b => b
       | None => false
       end |}.

Definition latestKey : string := "camera/latest-inference.jpg".

Definition nameIs (error : ErrorObject) (n : string) : bool :=
  match name error with
  | Some x => String.eqb x n
  | None => false
  end.

(** The fields read of a [HeadObject] or [GetObject] response. *)
Record ObjectOutput : Type := mkObjectOutput {
  LastModified : option Z;
  ContentLength : option Z;
  ETag : option string
}.

(** [getLatestImageMetadata]; [initialized] tells whether [initialize]
    has created the client, [response] how [HeadObject] settles. *)
Definition getLatestImageMetadata (initialized : bool)
    (response : Result ObjectOutput)
  : Result (option S3Context.ImageMetadata) :=
  if negb initialized then Raised (newError "S3 service not initialized")
  else
    match response with
    | Returned r =>
        match LastModified r, S3Context.truthy (ETag r) with
        | Some modified, Some tag =>
            Returned (Some {| S3Context.meta_lastModified := modified;
                              S3Context.meta_etag := tag |})
        | _, _ => Returned None
        end
    | Raised error =>
        if nameIs error "NoSuchKey" || nameIs error "NotFound"
        then Returned None
        else Raised (thrownS3Error
                       (createS3Error error "Failed to get image metadata"))
    end.

(** [generateSignedUrl]; [signed] is how [getSignedUrl] settles. *)
Definition generateSignedUrl (key : string) (signed : Result string)
  : Result string :=
  match signed with
  | Returned url => Returned url
  | Raised error =>
      Raised (thrownS3Error
                (createS3Error error
                   (String.append "Failed to generate signed URL for " key)))
  end.

Definition noImages : S3Context.S3ListResult :=
  {| S3Context.objects := []; S3Context.isTruncated := false;
     S3Context.totalCount := 0 |}.

(** The [catch] block of [listImages]. *)
Definition listImages_catch (error : ErrorObject)
  : Result S3Context.S3ListResult :=
  if nameIs error "NoSuchKey" then Returned noImages
  else Raised (thrownS3Error
                 (createS3Error error "Failed to fetch latest image from S3")).

(** [listImages]; [response] is how [GetObject] settles and [signed]
    how the signing of the URL does. *)
Definition listImages (initialized : bool)
    (response : Result ObjectOutput) (signed : Result string)
  : Result S3Context.S3ListResult :=
  if negb initialized then Raised (newError "S3 service not initialized")
  else
    match response with
    | Returned r =>
        match LastModified r with
        | None => Returned noImages
        | Some modified =>
            match generateSignedUrl latestKey signed with
            | Returned signedUrl =>
                let imageObject :=
                  {| S3Context.key := latestKey;
                     S3Context.lastModified := modified;
                     S3Context.size :=
                       match ContentLength r with
                       | Some n => n
                       | None => 0
                       end;
                     S3Context.url := signedUrl;
                     S3Context.etag := ETag r |} in
                Returned {| S3Context.objects := [imageObject];
                            S3Context.isTruncated := false;
                            S3Context.totalCount := 1 |}
            | Raised error => listImages_catch error
            end
        end
    | Raised error => listImages_catch error
    end.

(** What a caller's [catch] sees of the thrown value when it tests
    [error instanceof Error]. *)
Definition caught (error : ErrorObject) : Thrown :=
  if isError error
  then ThrownError (firstOf (name error) None "")
                   (firstOf (message error) None "")
  else ThrownOther.

Definition settled {A : Type} (r : Result A) : Settled A :=
  match r with
  | Returned v => Resolved v
  | Raised e => Rejected (caught e)
  end.

End RealS3Service.

(** ** The AWS hook (hooks/useAuthenticatedAWS) *)

Module Hooks.

(** [useAuthenticatedAWS]: what the hook derives from the auth context
    and the auth service at the instant its memo is computed. *)
Definition useAuthenticatedAWS (now : Z) (ctx : AuthContext.AuthStateType)
    (svc : AuthService.AuthService) : S3Context.AwsAuth :=
  let authenticated :=
    AuthTypes.AuthState_eqb (AuthContext.authState ctx) AuthTypes.AUTHENTICATED in
  {| S3Context.isAuthenticated := authenticated;
     S3Context.hasCredentials :=
       match AuthContext.user ctx with
       | Some _ =>
           authenticated &&
           match AuthService.getAWSCredentials now svc with
           | Resolved _ => true
           | Rejected _ => false
           end
       | None => false
       end |}.

End Hooks.

(** ** Sample data used by the worked examples *)

Module Samples.

(** A burst of 120 messages. *)
Definition sampleMessage (n : nat) : MqttMessage :=
  {| topic := "dashboard/messages"; payload := "{}";
     timestamp := Z.of_nat n; qos := 1 |}.

Definition sampleBurst : list MqttContext.MqttAction :=
  map (fun n => MqttContext.ADD_MESSAGE (sampleMessage n)) (seq 0 120).

Definition aliceSession : AuthSession :=
  {| session_accessToken := "access"; session_idToken := "id";
     session_refreshToken := "refresh";
     session_user := {| AuthTypes.username := "alice"; AuthTypes.email := None;
                        AuthTypes.attributes := ∅ |};
     session_expiresAt := 1000 |}.

(** A session issued at 1700000000000 for one hour. *)
Definition hourSession : AuthSession :=
  {| session_accessToken := "access-1"; session_idToken := "id-1";
     session_refreshToken := "refresh-1";
     session_user := {| AuthTypes.username := "alice";
                        AuthTypes.email := Some "alice@example.com";
                        AuthTypes.attributes :=
                          {[ "email" := "alice@example.com" ]} |};
     session_expiresAt := 1700003600000 |}.

Definition aliceService : AuthService.AuthService :=
  AuthService.storeSession true aliceSession
    {| AuthService.currentSession := Some aliceSession; AuthService.refreshTimer := None;
       AuthService.localStorage := ∅ |}.

Definition signedIn : S3Context.AwsAuth :=
  {| S3Context.isAuthenticated := true; S3Context.hasCredentials := true |}.

Definition latestImage : S3Context.S3Object :=
  {| S3Context.key := "camera/latest-inference.jpg"; S3Context.lastModified := 9000;
     S3Context.size := 2048; S3Context.url := "https://signed.example/latest";
     S3Context.etag := Some "v1" |}.

Definition oneImage : Settled S3Context.S3ListResult :=
  Resolved {| S3Context.objects := [latestImage]; S3Context.isTruncated := false;
              S3Context.totalCount := 1 |}.

(** The object store's answer for an image last written at
    1700000000000. *)
Definition sampleOutput : RealS3Service.ObjectOutput :=
  {| RealS3Service.LastModified := Some 1700000000000;
     RealS3Service.ContentLength := None;
     RealS3Service.ETag := Some "v1" |}.

(** Temporary credentials as the identity pool hands them out. *)
Definition creds : option MqttService.Credentials :=
  Some (MqttService.mkCredentials "ASIAEXAMPLE" "secret" "token").

(** A network failure: none of the non-retryable markers occurs in it. *)
Definition socketError : MqttService.TransportError :=
  MqttService.mkTransportError None (Some "Error") (Some "socket hang up").

(** The service holding [hourSession], as sign-in leaves it. *)
Definition hourService : AuthService.AuthService :=
  AuthService.storeSession true hourSession
    {| AuthService.currentSession := Some hourSession;
       AuthService.refreshTimer := Some 3300000;
       AuthService.localStorage := ∅ |}.

(** Tokens as the user pool returns them, valid for an hour. *)
Definition freshTokens : AuthService.InitiateAuthResponse :=
  {| AuthService.response_AuthenticationResult :=
       Some {| AuthService.AccessToken := Some "access-2";
               AuthService.IdToken := Some "id-2";
               AuthService.RefreshToken := Some "refresh-1";
               AuthService.ExpiresIn := Some 3600 |};
     AuthService.response_ChallengeName := None;
     AuthService.response_Session := None |}.

Definition aliceProfile : AuthService.GetUserResponse :=
  {| AuthService.Username := Some "alice";
     AuthService.UserAttributes :=
       Some [ {| AuthService.attr_Name := Some "email";
                 AuthService.attr_Value := Some "alice@example.com" |} ] |}.

Definition wrongPassword : Thrown :=
  ThrownError "NotAuthorizedException" "Incorrect username or password.".

(** A deployment with no bucket and no topic configured. *)
Definition euConfig : DiscoveryService.AppConfig :=
  {| DiscoveryService.aws_region := "eu-west-1";
     DiscoveryService.services_s3BucketName := None;
     DiscoveryService.services_mqttTopic := None |}.

Definition euEndpoint : string := "abc-ats.iot.eu-west-1.amazonaws.com".

(** Both services before anyone has signed in. *)
Definition signedOut : AuthFlows.Services :=
  {| AuthFlows.auth := AuthService.construct 1700000000000 ∅;
     AuthFlows.discovery := DiscoveryService.newDiscoveryService |}.

(** The user pool asking for a second factor. *)
Definition mfaChallenge : AuthService.InitiateAuthResponse :=
  {| AuthService.response_AuthenticationResult := None;
     AuthService.response_ChallengeName := Some "SMS_MFA";
     AuthService.response_Session := Some "challenge-session" |}.

(** Tokens valid for a day. *)
Definition dayTokens : AuthService.InitiateAuthResponse :=
  {| AuthService.response_AuthenticationResult :=
       Some {| AuthService.AccessToken := Some "access-3";
               AuthService.IdToken := Some "id-3";
               AuthService.RefreshToken := None;
               AuthService.ExpiresIn := Some 86400 |};
     AuthService.response_ChallengeName := None;
     AuthService.response_Session := None |}.

(** A connection that was established and then dropped for the first
    time: the grace timer, with id 3, is pending. *)
Definition firstDrop : MqttService.MqttService :=
  MqttService.run (MqttService.initialize creds)
    [ MqttService.CallConnect "t"; MqttService.ConnectEvent "t";
      MqttService.DisconnectEvent "t" ].

(** The connection came back and was interrupted again before the
    grace period was over. *)
Definition resumedThenInterrupted : MqttService.MqttService :=
  MqttService.run firstDrop
    [ MqttService.ResumeEvent; MqttService.InterruptEvent ].

(** The user disconnected and connected again, and the new connection
    dropped, before the grace period of the first drop was over. *)
Definition reconnectedByHand : MqttService.MqttService :=
  MqttService.run firstDrop
    [ MqttService.CallDisconnect true true; MqttService.CallConnect "t";
      MqttService.ConnectEvent "t"; MqttService.DisconnectEvent "t" ].

End Samples.

(** * Properties *)

Import Samples.

(** ** The message feed of the MQTT context *)

Section MessageFeed.
Import MqttContext.

Lemma slice_from_0 {A : Type} (n : nat) (l : list A) :
  slice 0 n l = firstn n l.
Proof. unfold slice. now rewrite Nat.sub_0_r. Qed.

Lemma firstn_cons_capped {A : Type} (n : nat) (x : A) (l : list A) :
  firstn (S n) (x :: firstn (S n) l) = firstn (S n) (x :: l).
Proof.
  cbn [firstn]. f_equal.
  rewrite firstn_firstn. now rewrite Nat.min_l by lia.
Qed.

Lemma firstn_full_removelast {A : Type} (n : nat) (l : list A) :
  length l = S n -> firstn n l = removelast l.
Proof.
  intros Hlen.
  destruct (exists_last (l := l)) as [front [x ->]].
  - intros ->. discriminate.
  - rewrite removelast_last.
    rewrite length_app in Hlen. cbn in Hlen.
    rewrite firstn_app.
    replace (n - length front)%nat with 0%nat by lia.
    rewrite firstn_all2 by lia. cbn. now rewrite app_nil_r.
Qed.

(** The reducer keeps the feed equal to the 100 most recent messages
    received, and the counter equal to their number. *)
Lemma dispatchAll_received (actions : list MqttAction) :
  forall (s : MqttState) (hist : list MqttMessage),
    messages s = firstn 100 hist ->
    messageCount s = Z.of_nat (length hist) ->
    messages (dispatchAll s actions) = firstn 100 (received hist actions) /\
    messageCount (dispatchAll s actions)
      = Z.of_nat (length (received hist actions)).
Proof.
  induction actions as [|a rest IH]; intros s hist Hm Hc.
  - now split.
  - destruct a; cbn [dispatchAll fold_left received] in *;
      apply IH; cbn [mqttReducer messages messageCount initialState];
      try assumption; try reflexivity.
    + rewrite slice_from_0, Hm. apply firstn_cons_capped.
    + rewrite Hc. cbn [length]. lia.
Qed.

Lemma add_message_feed (s : MqttState) (m : MqttMessage) :
  messages (mqttReducer s (ADD_MESSAGE m)) = m :: firstn 99 (messages s).
Proof. reflexivity. Qed.

(** C5. In every state reached from the initial one the feed holds at
    most 100 messages and is the most-recent-first list of the messages
    received, cut at 100. Adding a message puts it at the head, keeps
    the 99 that followed, so that a feed of exactly 100 loses its last
    entry, the earliest received, and in every case adds exactly one to
    the message count. *)
Theorem feed_bounded_most_recent_first
    (actions : list MqttAction) (m : MqttMessage) :
  let s := dispatchAll initialState actions in
  let s' := mqttReducer s (ADD_MESSAGE m) in
  (length (messages s) <= 100)%nat /\
  messages s = firstn 100 (received [] actions) /\
  (length (messages s') <= 100)%nat /\
  messages s' = m :: firstn 99 (messages s) /\
  (length (messages s) = 100%nat ->
     messages s' = m :: removelast (messages s) /\
     length (messages s') = 100%nat) /\
  messageCount s' = messageCount s + 1.
Proof.
  intros s s'.
  destruct (dispatchAll_received actions initialState []) as [Hm Hc];
    [reflexivity | reflexivity |].
  fold s in Hm, Hc.
  assert (Hs' : messages s' = m :: firstn 99 (messages s))
    by apply add_message_feed.
  split; [rewrite Hm; apply firstn_le_length|].
  split; [exact Hm|].
  split.
  { rewrite Hs'. cbn [length].
    pose proof (firstn_le_length 99 (messages s)). lia. }
  split; [exact Hs'|].
  split; [|reflexivity].
  intros Hfull. split.
  - rewrite Hs'. f_equal. now apply firstn_full_removelast.
  - rewrite Hs'. cbn [length]. rewrite length_firstn. lia.
Qed.

Lemma feed_bounded_most_recent_first_witness :
  length (messages (dispatchAll initialState sampleBurst)) = 100%nat /\
  length (messages (mqttReducer (dispatchAll initialState sampleBurst)
                      (ADD_MESSAGE (sampleMessage 120)))) = 100%nat.
Proof.
  assert (H : length (messages (dispatchAll initialState sampleBurst)) = 100%nat)
    by (vm_compute; reflexivity).
  split; [exact H|].
  apply (feed_bounded_most_recent_first sampleBurst (sampleMessage 120)).
  exact H.
Defined.

(** C10. Clearing the error dispatches [SET_ERROR] with the empty
    string: whatever the state was, it is then in status [ERROR], not
    connected, with the empty string (not null) as its error; the
    messages and the count are untouched. *)
Theorem clearError_forces_error_status (s : MqttState) :
  clearError s = mqttReducer s (SET_ERROR "") /\
  connectionStatus (clearError s) = ERROR /\
  connected (clearError s) = false /\
  error (clearError s) = Some "" /\
  messages (clearError s) = messages s /\
  messageCount (clearError s) = messageCount s.
Proof. repeat split. Qed.

(** In particular a connected state is marked failed by it. *)
Lemma clearError_while_connected :
  let s := dispatchAll initialState [SET_CONNECTED] in
  connected s = true /\ connectionStatus s = CONNECTED /\
  connected (clearError s) = false /\ connectionStatus (clearError s) = ERROR.
Proof. repeat split. Qed.

End MessageFeed.

(** ** Failed sign-in in the authentication context *)

Section SignIn.
Import AuthTypes AuthContext.

(** The error mapping of the service: a Cognito
    [NotAuthorizedException] becomes "Invalid username or password". *)
Lemma signIn_catch_not_authorized (m : string) :
  AuthService.signIn_catch (ThrownError "NotAuthorizedException" m)
  = ThrownError "Error" "Invalid username or password".
Proof. reflexivity. Qed.

(** After [SET_ERROR] alone the error is visible and a loading state
    has already become unauthenticated. *)
Lemma SET_ERROR_leaves_loading (s : AuthStateType) (e : AuthError) :
  authState s = LOADING ->
  authState (authReducer s (SET_ERROR e)) = UNAUTHENTICATED /\
  error (authReducer s (SET_ERROR e)) = Some e.
Proof. intros H. cbn. now rewrite H. Qed.

(** [SET_UNAUTHENTICATED] resets the error field. *)
Lemma SET_UNAUTHENTICATED_drops_error (s : AuthStateType) :
  error (authReducer s SET_UNAUTHENTICATED) = None.
Proof. reflexivity. Qed.

(** Every failed sign-in ends unauthenticated, never loading, but
    with the error field null: [signIn] dispatches [SET_ERROR] and
    then [SET_UNAUTHENTICATED], which clears what was just stored. *)
Lemma failedSignIn_final_state (cause : Thrown) (s : AuthStateType) :
  failedSignIn cause s
  = {| authState := UNAUTHENTICATED; user := None; error := None;
       challengeSession := None |}.
Proof. reflexivity. Qed.

(** [signOut] dispatches the same two actions in the other order, and
    its error survives. *)
Lemma signOut_keeps_error (cause : Thrown) (s : AuthStateType) :
  authState (signOut (Rejected cause) s) = UNAUTHENTICATED /\
  error (signOut (Rejected cause) s)
  = Some {| code := "SIGN_OUT_ERROR";
            message := "Sign-out completed with warnings";
            originalError := asError cause |}.
Proof. split; reflexivity. Qed.

(** C2, evaluated. Signing in with a wrong password (the provider
    rejects with [NotAuthorizedException]) from the unauthenticated
    login screen: the state passes through [SET_ERROR], where the error
    "Invalid username or password" is present, and ends
    [UNAUTHENTICATED] with [error = null]; nothing is left for the
    login form to show. *)
Theorem signIn_wrong_password_error_cleared :
  let start := authReducer initialState SET_UNAUTHENTICATED in
  let cause := ThrownError "NotAuthorizedException"
                 "Incorrect username or password." in
  let rejection := AuthService.signIn_catch cause in
  let authError := {| code := "SIGN_IN_ERROR";
                      message := "Invalid username or password";
                      originalError := Some rejection |} in
  signIn_actions (Rejected rejection)
  = [SET_LOADING; CLEAR_ERROR; SET_ERROR authError; SET_UNAUTHENTICATED] /\
  error (dispatchAll start [SET_LOADING; CLEAR_ERROR; SET_ERROR authError])
  = Some authError /\
  authState (failedSignIn cause start) = UNAUTHENTICATED /\
  error (failedSignIn cause start) = None.
Proof. repeat split. Qed.

End SignIn.

(** ** Expired sessions in the authentication service *)

Section Sessions.
Import AuthTypes AuthService.

Lemma clearStoredSession_clears (st : AuthService.AuthService) :
  currentSession (clearStoredSession st) = None /\
  refreshTimer (clearStoredSession st) = None /\
  localStorage (clearStoredSession st) !! SESSION_KEY = None.
Proof.
  repeat split. cbn. apply lookup_delete_eq.
Qed.

(** C6. When the session held by the service has its expiry instant at
    or before the current time, [getCurrentUser] returns null, and the
    service it leaves behind has no session in memory, no entry under
    the session key in durable storage and no refresh timer. *)
Theorem getCurrentUser_expired_clears
    (now : Z) (st : AuthService.AuthService) (sess : AuthSession) :
  currentSession st = Some sess ->
  session_expiresAt sess <= now ->
  fst (getCurrentUser now st) = None /\
  currentSession (snd (getCurrentUser now st)) = None /\
  localStorage (snd (getCurrentUser now st)) !! SESSION_KEY = None /\
  refreshTimer (snd (getCurrentUser now st)) = None.
Proof.
  intros Hsess Hexp. unfold getCurrentUser. rewrite Hsess.
  replace (now >=? session_expiresAt sess) with true
    by (symmetry; apply Z.geb_le; lia).
  cbn [fst snd].
  destruct (clearStoredSession_clears st) as (H1 & H2 & H3).
  auto.
Qed.

(** A session that has not expired is returned and nothing changes. *)
Lemma getCurrentUser_valid
    (now : Z) (st : AuthService.AuthService) (sess : AuthSession) :
  currentSession st = Some sess ->
  now < session_expiresAt sess ->
  getCurrentUser now st = (Some (session_user sess), st).
Proof.
  intros Hsess Hexp. unfold getCurrentUser. rewrite Hsess.
  replace (now >=? session_expiresAt sess) with false; [reflexivity|].
  symmetry. rewrite Z.geb_leb. apply Z.leb_gt. lia.
Qed.

(** The constructor never loads an expired session either. *)
Lemma construct_expired_clears
    (now : Z) (storage : gmap string Stored) (sess : AuthSession) :
  storage !! SESSION_KEY = Some (StoredSession sess) ->
  session_expiresAt sess <= now ->
  currentSession (construct now storage) = None /\
  localStorage (construct now storage) !! SESSION_KEY = None.
Proof.
  intros Hst Hexp. unfold construct, loadStoredSession.
  cbn [localStorage]. rewrite Hst. cbn [falsy parseSession].
  replace (now >=? session_expiresAt sess) with true
    by (symmetry; apply Z.geb_le; lia).
  split; [reflexivity|]. cbn. apply lookup_delete_eq.
Qed.

Lemma getCurrentUser_expired_clears_witness :
  localStorage aliceService !! SESSION_KEY = Some (StoredSession aliceSession) /\
  fst (getCurrentUser 1000 aliceService) = None /\
  currentSession (snd (getCurrentUser 1000 aliceService)) = None /\
  localStorage (snd (getCurrentUser 1000 aliceService)) !! SESSION_KEY = None /\
  refreshTimer (snd (getCurrentUser 1000 aliceService)) = None.
Proof.
  split; [vm_compute; reflexivity|].
  apply (getCurrentUser_expired_clears 1000 aliceService aliceSession);
    [reflexivity | cbn; lia].
Defined.

End Sessions.

(** ** The discovery cache *)

Section DiscoveryCacheFacts.
Import DiscoveryService.

Lemma CACHE_DURATION_one_hour : CACHE_DURATION = 3600000.
Proof. reflexivity. Qed.

(** What is written is what the next read parses. *)
Lemma setCachedResults_stored
    (now : Z) (cache : PartialDiscoveryCache) (storage : gmap string Stored) :
  setCachedResults now cache true storage !! CACHE_KEY
  = Some (StoredCache (cacheData now cache)).
Proof. unfold setCachedResults. apply lookup_insert_eq. Qed.

(** C9. Writing discovery results (an endpoint and a bucket list, no
    timestamps of the caller's own) and reading them back before the
    entry expires returns a record with the stored endpoint, the stored
    buckets, the write instant as timestamp and an expiry exactly
    3600000 ms later; the read leaves the storage as written. *)
Theorem cache_roundtrip
    (now now' : Z) (cache : PartialDiscoveryCache)
    (storage : gmap string Stored) :
  partial_timestamp cache = None ->
  partial_expiresAt cache = None ->
  now' <= now + CACHE_DURATION ->
  exists c : DiscoveryCache,
    getCachedResults now' (setCachedResults now cache true storage)
    = (Some c, setCachedResults now cache true storage) /\
    iotEndpoint c = partial_iotEndpoint cache /\
    s3Buckets c = partial_s3Buckets cache /\
    cache_timestamp c = now /\
    cache_expiresAt c - cache_timestamp c = 3600000.
Proof.
  intros Ht He Hnow. exists (cacheData now cache).
  unfold getCachedResults. rewrite setCachedResults_stored.
  cbn [falsy parseCache].
  assert (Hexp : cache_expiresAt (cacheData now cache) = now + CACHE_DURATION)
    by (unfold cacheData; cbn; now rewrite He).
  assert (Hts : cache_timestamp (cacheData now cache) = now)
    by (unfold cacheData; cbn; now rewrite Ht).
  rewrite Hexp, Hts.
  replace (now' >? now + CACHE_DURATION) with false
    by (symmetry; rewrite Z.gtb_ltb; apply Z.ltb_ge; lia).
  repeat split. rewrite CACHE_DURATION_one_hour. lia.
Qed.

Lemma cache_roundtrip_witness :
  exists c : DiscoveryCache,
    getCachedResults 1700000000000
      (setCachedResults 1700000000000 (discoveryResults "a" ["b"]) true ∅)
    = (Some c,
       setCachedResults 1700000000000 (discoveryResults "a" ["b"]) true ∅) /\
    iotEndpoint c = Some "a" /\
    s3Buckets c = Some ["b"] /\
    cache_timestamp c = 1700000000000 /\
    cache_expiresAt c - cache_timestamp c = 3600000.
Proof.
  apply (cache_roundtrip 1700000000000 1700000000000
           (discoveryResults "a" ["b"]) ∅);
    [reflexivity | reflexivity | unfold CACHE_DURATION; lia].
Defined.

(** Once the hour has passed the entry is dropped by the read. *)
Lemma cache_expired_removed
    (now now' : Z) (endpoint : string) (buckets : list string)
    (storage : gmap string Stored) :
  now + CACHE_DURATION < now' ->
  let written :=
    setCachedResults now (discoveryResults endpoint buckets) true storage in
  fst (getCachedResults now' written) = None /\
  snd (getCachedResults now' written) !! CACHE_KEY = None.
Proof.
  intros Hlate written. unfold getCachedResults.
  unfold written. rewrite setCachedResults_stored.
  cbn [falsy parseCache cacheData discoveryResults cache_expiresAt
       partial_expiresAt].
  replace (now' >? now + CACHE_DURATION) with true
    by (symmetry; rewrite Z.gtb_ltb; apply Z.ltb_lt; lia).
  split; [reflexivity|]. cbn [snd]. apply lookup_delete_eq.
Qed.

(** The spread puts the caller's fields last: a caller that passes its
    own expiry overrides the computed one. *)
Lemma cacheData_caller_expiry_wins (now e : Z) (cache : PartialDiscoveryCache) :
  partial_expiresAt cache = Some e ->
  cache_expiresAt (cacheData now cache) = e.
Proof. intros H. unfold cacheData. cbn. now rewrite H. Qed.

End DiscoveryCacheFacts.

(** ** Manual refresh in the S3 context *)

Section Refresh.
Import S3Context.

(** No action of the reducer ever assigns [lastRefreshTime]. *)
Lemma s3Reducer_lastRefreshTime (now : Z) (s : S3State) (a : S3Action) :
  lastRefreshTime s = None ->
  lastRefreshTime (s3Reducer now s a) = None.
Proof. intros H. destruct a; cbn; auto. Qed.

Lemma dispatchAll_lastRefreshTime (now : Z) (actions : list S3Action) :
  forall s : S3State,
    lastRefreshTime s = None ->
    lastRefreshTime (dispatchAll now s actions) = None.
Proof.
  induction actions as [|a rest IH]; intros s H; [exact H|].
  cbn [dispatchAll fold_left]. apply IH.
  now apply s3Reducer_lastRefreshTime.
Qed.

(** The throttle as written: it returns at once, dispatching nothing
    and fetching nothing, exactly when [lastRefreshTime] is set and
    less than 5000 ms old. *)
Lemma refreshImages_throttled
    (now t : Z) (auth : AwsAuth) (s : S3State)
    (listing : Settled S3ListResult) :
  lastRefreshTime s = Some t ->
  now - t < 5000 ->
  refreshImages now auth s listing = {| dispatched := []; fetched := [] |}.
Proof.
  intros Hl Hd. unfold refreshImages. rewrite Hl.
  replace (now - t <? 5000) with true
    by (symmetry; apply Z.ltb_lt; lia).
  reflexivity.
Qed.

(** With [lastRefreshTime] null a refresh always goes on to load. *)
Lemma refreshImages_unthrottled
    (now : Z) (auth : AwsAuth) (s : S3State)
    (listing : Settled S3ListResult) :
  lastRefreshTime s = None ->
  refreshImages now auth s listing
  = {| dispatched :=
         UPDATE_LAST_UPDATED
           :: dispatched (loadImages auth s None false listing);
       fetched := fetched (loadImages auth s None false listing) |}.
Proof. intros Hl. unfold refreshImages. now rewrite Hl. Qed.

(** C7, evaluated. A bucket is selected and the user is signed in. A
    manual refresh at instant 10000 loads the image and completes; the
    state then records [lastUpdated = 10000] while [lastRefreshTime] is
    still null. A second manual refresh at instant 12000, two seconds
    later, is not throttled: it dispatches again and calls [listImages]
    on the bucket a second time. *)
Theorem refreshImages_two_seconds_later_fetches_again :
  let s0 := dispatchAll 0 initialState [SET_SELECTED_BUCKET (Some "bucket")] in
  let first := refreshImages 10000 signedIn s0 oneImage in
  let s1 := settle 10000 s0 first in
  let second := refreshImages 12000 signedIn s1 oneImage in
  fetched first = ["bucket"] /\
  lastUpdated s1 = Some 10000 /\
  lastRefreshTime s1 = None /\
  fetched second = ["bucket"] /\
  dispatched second
  = [UPDATE_LAST_UPDATED; SET_REFRESHING true; SET_ERROR None;
     SET_IMAGES [latestImage] false; UPDATE_LAST_UPDATED].
Proof. repeat split. Qed.

End Refresh.

(** ** The MQTT service: timers *)

Section MqttTimers.
Import MqttService.

Lemma clearTimeout_removes (id : nat) (s : MqttService) :
  ~ In id (map timer_id (pendingTimers (clearTimeout id s))).
Proof.
  cbn. intros Hin. apply in_map_iff in Hin as (t & Hid & Ht).
  apply filter_In in Ht as [_ Hne].
  rewrite <- Hid, Nat.eqb_refl in Hne. discriminate.
Qed.

Lemma clearTimeout_subset (id : nat) (s : MqttService) (t : Timer) :
  In t (pendingTimers (clearTimeout id s)) ->
  In t (pendingTimers s) /\ timer_id t <> id.
Proof.
  cbn. intros Ht. apply filter_In in Ht as [Hin Hne]. split; [exact Hin|].
  intros Heq. rewrite Heq, Nat.eqb_refl in Hne. discriminate.
Qed.

(** Cancelling the tracked timer leaves no reconnect timer behind. *)
Lemma clearReconnectTimeout_none_pending (s : MqttService) :
  reconnectTimerTracked s ->
  reconnectTimeout (clearReconnectTimeout s) = None /\
  noReconnectTimerPending (clearReconnectTimeout s).
Proof.
  intros Htr. unfold clearReconnectTimeout.
  destruct (reconnectTimeout s) as [id|] eqn:Hid.
  - split; [reflexivity|]. intros t Ht.
    change (In t (pendingTimers (clearTimeout id s))) in Ht.
    apply clearTimeout_subset in Ht as [Hin Hne].
    destruct (isReconnectTimer t) eqn:Hr; [|reflexivity].
    specialize (Htr t Hin Hr). congruence.
  - split; [exact Hid|]. intros t Ht.
    destruct (isReconnectTimer t) eqn:Hr; [|reflexivity].
    specialize (Htr t Ht Hr). congruence.
Qed.

Lemma noReconnectTimerPending_tracked (s : MqttService) :
  noReconnectTimerPending s -> reconnectTimerTracked s.
Proof. intros H t Ht Hr. rewrite (H t Ht) in Hr. discriminate. Qed.

(** ** Reconnect scheduling *)

(** Below the cap: the counter goes up by one, the delay of the new
    reconnect timer is 5000 * 2^(n-1) for the new count n, any earlier
    reconnect timer is cancelled and the status is [RECONNECTING]. *)
Lemma scheduleReconnect_backoff (topic : string) (s : MqttService) :
  (reconnectAttempts s < maxReconnectAttempts)%nat ->
  let s' := scheduleReconnect topic s in
  let n := S (reconnectAttempts s) in
  reconnectAttempts s' = n /\
  connectionStatus s' = RECONNECTING /\
  reconnectTimeout s' = Some (nextId s) /\
  pendingTimers s'
  = pendingTimers (clearReconnectTimeout s)
    ++ [mkTimer (nextId s) (5000 * 2 ^ (Z.of_nat n - 1)) (ReconnectTask topic)].
Proof.
  intros Hlt s' n. unfold s', scheduleReconnect.
  replace (maxReconnectAttempts <=? reconnectAttempts s)%nat with false
    by (symmetry; apply Nat.leb_gt; exact Hlt).
  unfold clearReconnectTimeout.
  replace (Z.of_nat n - 1) with (Z.of_nat (n - 1)) by (unfold n; lia).
  destruct (reconnectTimeout s); cbn; repeat split.
Qed.

Lemma scheduleReconnect_delays :
  map (fun n => reconnectDelay * 2 ^ (Z.of_nat n - 1)) [1; 2; 3]%nat
  = [5000; 10000; 20000].
Proof. reflexivity. Qed.

(** At the cap: the status becomes [ERROR] and nothing else changes;
    no timer is added, and none is cancelled either. *)
Lemma scheduleReconnect_cap (topic : string) (s : MqttService) :
  (maxReconnectAttempts <= reconnectAttempts s)%nat ->
  scheduleReconnect topic s = setConnectionStatus ERROR s /\
  connectionStatus (scheduleReconnect topic s) = ERROR /\
  pendingTimers (scheduleReconnect topic s) = pendingTimers s /\
  reconnectTimeout (scheduleReconnect topic s) = reconnectTimeout s.
Proof.
  intros Hge. unfold scheduleReconnect.
  replace (maxReconnectAttempts <=? reconnectAttempts s)%nat with true
    by (symmetry; apply Nat.leb_le; exact Hge).
  repeat split.
Qed.

Lemma scheduleReconnect_tracked (topic : string) (s : MqttService) :
  reconnectTimerTracked s -> reconnectTimerTracked (scheduleReconnect topic s).
Proof.
  intros Htr.
  destruct (Nat.leb_spec maxReconnectAttempts (reconnectAttempts s)) as [Hge|Hlt].
  - destruct (scheduleReconnect_cap topic s Hge) as (_ & _ & Hp & Hr).
    intros t Ht Hrt. rewrite Hp in Ht. rewrite Hr. now apply Htr.
  - destruct (scheduleReconnect_backoff topic s Hlt) as (_ & _ & Hr & Hp).
    intros t Ht Hrt. rewrite Hp in Ht. rewrite Hr.
    apply in_app_or in Ht as [Ht|[<-|[]]]; [|reflexivity].
    destruct (clearReconnectTimeout_none_pending s Htr) as [_ Hnone].
    rewrite (Hnone t Ht) in Hrt. discriminate.
Qed.

End MqttTimers.

(** ** The timer bookkeeping is an invariant of the service *)

Section MqttInvariant.
Import MqttService.

Lemma tracked_same_timers (s s' : MqttService) :
  pendingTimers s' = pendingTimers s ->
  reconnectTimeout s' = reconnectTimeout s ->
  reconnectTimerTracked s -> reconnectTimerTracked s'.
Proof.
  intros Hp Hr Htr t Ht Hrt. rewrite Hp in Ht. rewrite Hr. now apply Htr.
Qed.

Lemma tracked_other_timer (s s' : MqttService) (t : Timer) :
  pendingTimers s' = pendingTimers s ++ [t] ->
  isReconnectTimer t = false ->
  reconnectTimeout s' = reconnectTimeout s ->
  reconnectTimerTracked s -> reconnectTimerTracked s'.
Proof.
  intros Hp Hnot Hr Htr t' Ht Hrt. rewrite Hp in Ht. rewrite Hr.
  apply in_app_or in Ht as [Ht|[<-|[]]]; [now apply Htr | congruence].
Qed.

Lemma none_pending_same_timers (s s' : MqttService) :
  pendingTimers s' = pendingTimers s ->
  noReconnectTimerPending s -> noReconnectTimerPending s'.
Proof. intros Hp Hn t Ht. rewrite Hp in Ht. now apply Hn. Qed.

Lemma none_pending_other_timer (s s' : MqttService) (t : Timer) :
  pendingTimers s' = pendingTimers s ++ [t] ->
  isReconnectTimer t = false ->
  noReconnectTimerPending s -> noReconnectTimerPending s'.
Proof.
  intros Hp Hnot Hn t' Ht. rewrite Hp in Ht.
  apply in_app_or in Ht as [Ht|[<-|[]]]; [now apply Hn | exact Hnot].
Qed.

Lemma clearTimeout_tracked (id : nat) (s : MqttService) :
  reconnectTimerTracked s -> reconnectTimerTracked (clearTimeout id s).
Proof.
  intros Htr t Ht Hrt. apply clearTimeout_subset in Ht as [Hin _].
  now apply Htr.
Qed.

(** [connect] never leaves a reconnect timer pending unless it
    returned at one of its guards. *)
Lemma connect_enter_none_pending (topic : string) (s s1 : MqttService) :
  reconnectTimerTracked s ->
  connect_enter topic s = Some s1 ->
  noReconnectTimerPending s1 /\ reconnectTimeout s1 = None.
Proof.
  intros Htr. unfold connect_enter.
  destruct (isConnecting s); [discriminate|].
  destruct (ConnectionStatus_eqb (connectionStatus s) CONNECTED);
    [discriminate|].
  intros [= <-].
  destruct (clearReconnectTimeout_none_pending s Htr) as [Hnone Hpend].
  split; [|exact Hnone].
  eapply none_pending_same_timers; [|exact Hpend]. reflexivity.
Qed.

Lemma connect_resume_none_pending (topic : string) (s : MqttService) :
  noReconnectTimerPending s ->
  noReconnectTimerPending (fst (connect_resume topic s)).
Proof.
  intros Hn. unfold connect_resume.
  destruct (resolveCredentials s).
  - eapply none_pending_other_timer; [| |exact Hn]; reflexivity.
  - eapply none_pending_same_timers; [|exact Hn]. reflexivity.
Qed.

Lemma connect_tracked (topic : string) (s : MqttService) :
  reconnectTimerTracked s -> reconnectTimerTracked (fst (connect topic s)).
Proof.
  intros Htr. unfold connect.
  destruct (connect_enter topic s) as [s1|] eqn:Henter; [|exact Htr].
  apply noReconnectTimerPending_tracked, connect_resume_none_pending.
  now destruct (connect_enter_none_pending topic s s1 Htr Henter).
Qed.

Lemma disconnect_timers (u d : bool) (s : MqttService) :
  pendingTimers (disconnect u d s) = pendingTimers (clearReconnectTimeout s) /\
  reconnectTimeout (disconnect u d s) = None.
Proof.
  unfold disconnect, clearReconnectTimeout. cbn.
  repeat match goal with
         | |- context [match ?x with _ => _ end] => destruct x eqn:?; cbn
         end;
    split; first [reflexivity | assumption].
Qed.

Lemma disconnect_none_pending (u d : bool) (s : MqttService) :
  reconnectTimerTracked s -> noReconnectTimerPending (disconnect u d s).
Proof.
  intros Htr.
  destruct (disconnect_timers u d s) as [Hp _].
  destruct (clearReconnectTimeout_none_pending s Htr) as [_ Hn].
  eapply none_pending_same_timers; [exact Hp | exact Hn].
Qed.

Lemma onDisconnect_tracked (topic : string) (s : MqttService) :
  reconnectTimerTracked s -> reconnectTimerTracked (onDisconnect topic s).
Proof.
  intros Htr. unfold onDisconnect. cbn.
  destruct (manualDisconnect s); cbn.
  - eapply tracked_same_timers; [| |exact Htr]; reflexivity.
  - destruct (reconnectAttempts s); cbn.
    + eapply tracked_other_timer; [| | |exact Htr]; reflexivity.
    + apply scheduleReconnect_tracked.
      eapply tracked_same_timers; [| |exact Htr]; reflexivity.
Qed.

Lemma onError_tracked (topic : string) (e : TransportError) (s : MqttService) :
  reconnectTimerTracked s -> reconnectTimerTracked (onError topic e s).
Proof.
  intros Htr. unfold onError. cbn.
  destruct (negb (manualDisconnect s) && isRetryableError e).
  - apply scheduleReconnect_tracked.
    eapply tracked_same_timers; [| |exact Htr]; reflexivity.
  - eapply tracked_same_timers; [| |exact Htr]; reflexivity.
Qed.

Lemma subscribeToTopic_same_timers (topic : string) (s : MqttService) :
  pendingTimers (subscribeToTopic topic s) = pendingTimers s /\
  reconnectTimeout (subscribeToTopic topic s) = reconnectTimeout s.
Proof. unfold subscribeToTopic. destruct (connection s); split; reflexivity. Qed.

Lemma runTask_tracked (task : TimerTask) (s : MqttService) :
  reconnectTimerTracked s ->
  (isReconnectTimer (mkTimer 0 0 task) = true -> noReconnectTimerPending s) ->
  reconnectTimerTracked (runTask task s).
Proof.
  intros Htr Hfired. destruct task as [topic|topic|topic|topic|topic];
    cbn [runTask].
  - apply connect_tracked, noReconnectTimerPending_tracked.
    eapply none_pending_same_timers; [|apply Hfired]; reflexivity.
  - destruct (negb (manualDisconnect s)
              && ConnectionStatus_eqb (connectionStatus s) DISCONNECTED);
      [now apply scheduleReconnect_tracked | exact Htr].
  - destruct (ConnectionStatus_eqb (connectionStatus s) CONNECTING);
      [|exact Htr].
    eapply tracked_other_timer; [| | |exact Htr]; reflexivity.
  - destruct (subscribeToTopic_same_timers topic s) as [Hp Hr].
    eapply tracked_same_timers; eassumption.
  - eapply tracked_same_timers; [| |exact Htr]; reflexivity.
Qed.

Lemma fireTimer_tracked (id : nat) (s : MqttService) :
  reconnectTimerTracked s -> reconnectTimerTracked (fireTimer id s).
Proof.
  intros Htr. unfold fireTimer.
  destruct (List.find _ (pendingTimers s)) as [t|] eqn:Hfind; [|exact Htr].
  apply find_some in Hfind as [Hin Hid]. apply Nat.eqb_eq in Hid.
  apply runTask_tracked; [now apply clearTimeout_tracked|].
  intros Hrec. change (isReconnectTimer t = true) in Hrec.
  pose proof (Htr t Hin Hrec) as Hcur. rewrite Hid in Hcur.
  intros t' Ht'. apply clearTimeout_subset in Ht' as [Hin' Hne].
  destruct (isReconnectTimer t') eqn:Hr'; [|reflexivity].
  pose proof (Htr t' Hin' Hr'). congruence.
Qed.

Lemma step_tracked (s : MqttService) (i : Input) :
  reconnectTimerTracked s -> reconnectTimerTracked (step s i).
Proof.
  intros Htr. destruct i; cbn [step].
  - now apply connect_tracked.
  - now apply noReconnectTimerPending_tracked, disconnect_none_pending.
  - unfold onConnect.
    destruct (subscribeToTopic_same_timers topic0
                (set_isConnecting false
                   (set_reconnectAttempts 0
                      (setConnectionStatus CONNECTED s)))) as [Hp Hr].
    eapply tracked_same_timers; [exact Hp | exact Hr | exact Htr].
  - eapply tracked_same_timers; [| |exact Htr]; reflexivity.
  - eapply tracked_same_timers; [| |exact Htr]; reflexivity.
  - now apply onDisconnect_tracked.
  - now apply onError_tracked.
  - unfold onConnectResolved.
    destruct (negb (ConnectionStatus_eqb (connectionStatus s) CONNECTED));
      [|exact Htr].
    destruct (subscribeToTopic_same_timers topic0
                (set_isConnecting false
                   (set_reconnectAttempts 0
                      (setConnectionStatus CONNECTED s)))) as [Hp Hr].
    eapply tracked_same_timers; [exact Hp | exact Hr | exact Htr].
  - eapply tracked_same_timers; [| |exact Htr]; reflexivity.
  - unfold subscribeSettled. destruct ok.
    + eapply tracked_other_timer; [| | |exact Htr]; reflexivity.
    + eapply tracked_same_timers; [| |exact Htr]; reflexivity.
  - now apply fireTimer_tracked.
Qed.

(** Whatever the UI, the transport and the timers do after
    [initialize], a pending reconnect timer is always the tracked one. *)
Lemma run_tracked (c : option Credentials) (inputs : list Input) :
  reconnectTimerTracked (run (initialize c) inputs).
Proof.
  unfold run.
  assert (H0 : reconnectTimerTracked (initialize c)) by (intros t []).
  revert H0. generalize (initialize c).
  induction inputs as [|i rest IH]; intros s Hs; [exact Hs|].
  cbn [fold_left]. apply IH. now apply step_tracked.
Qed.

End MqttInvariant.

(** ** In-progress connects are flagged *)

Section MqttFlags.
Import MqttService.

Lemma scheduleReconnect_status (topic : string) (s : MqttService) :
  connectionStatus (scheduleReconnect topic s) <> CONNECTING.
Proof.
  destruct (Nat.leb_spec maxReconnectAttempts (reconnectAttempts s)) as [Hge|Hlt].
  - destruct (scheduleReconnect_cap topic s Hge) as (_ & -> & _). discriminate.
  - destruct (scheduleReconnect_backoff topic s Hlt) as (_ & -> & _).
    discriminate.
Qed.

Lemma flagged_not_connecting (s : MqttService) :
  connectionStatus s <> CONNECTING -> connectingFlagged s.
Proof. intros Hne Hst. now elim Hne. Qed.

Lemma flagged_same_flags (s s' : MqttService) :
  connectionStatus s' = connectionStatus s ->
  isConnecting s' = isConnecting s ->
  manualDisconnect s' = manualDisconnect s ->
  connectingFlagged s -> connectingFlagged s'.
Proof. intros Hs Hc Hm Hfl. unfold connectingFlagged. now rewrite Hs, Hc, Hm. Qed.

Lemma subscribeToTopic_same_flags (topic : string) (s : MqttService) :
  connectionStatus (subscribeToTopic topic s) = connectionStatus s /\
  isConnecting (subscribeToTopic topic s) = isConnecting s /\
  manualDisconnect (subscribeToTopic topic s) = manualDisconnect s.
Proof. unfold subscribeToTopic. destruct (connection s); repeat split. Qed.

Lemma connect_flagged (topic : string) (s : MqttService) :
  connectingFlagged s -> connectingFlagged (fst (connect topic s)).
Proof.
  intros Hfl. unfold connect, connect_enter.
  destruct (isConnecting s); [exact Hfl|].
  destruct (ConnectionStatus_eqb (connectionStatus s) CONNECTED); [exact Hfl|].
  unfold connect_resume. destruct (resolveCredentials _).
  - intros _. split; reflexivity.
  - apply flagged_not_connecting. discriminate.
Qed.

Lemma onDisconnect_flagged (topic : string) (s : MqttService) :
  connectingFlagged s -> connectingFlagged (onDisconnect topic s).
Proof.
  intros Hfl. unfold onDisconnect. cbn.
  destruct (manualDisconnect s) eqn:Hm; cbn.
  - intros Hst. cbn in Hst. destruct (Hfl Hst) as [_ Hfalse]. congruence.
  - destruct (reconnectAttempts s); cbn.
    + apply flagged_not_connecting. discriminate.
    + apply flagged_not_connecting, scheduleReconnect_status.
Qed.

Lemma onError_flagged (topic : string) (e : TransportError) (s : MqttService) :
  connectingFlagged (onError topic e s).
Proof.
  unfold onError. cbn.
  destruct (negb (manualDisconnect s) && isRetryableError e);
    apply flagged_not_connecting;
    [apply scheduleReconnect_status | discriminate].
Qed.

Lemma completed_flagged (topic : string) (s : MqttService) :
  connectingFlagged
    (subscribeToTopic topic
       (set_isConnecting false
          (set_reconnectAttempts 0 (setConnectionStatus CONNECTED s)))).
Proof.
  apply flagged_not_connecting.
  destruct (subscribeToTopic_same_flags topic
              (set_isConnecting false
                 (set_reconnectAttempts 0 (setConnectionStatus CONNECTED s))))
    as (-> & _). discriminate.
Qed.

Lemma runTask_flagged (task : TimerTask) (s : MqttService) :
  connectingFlagged s -> connectingFlagged (runTask task s).
Proof.
  intros Hfl. destruct task as [topic|topic|topic|topic|topic]; cbn [runTask].
  - apply connect_flagged.
    eapply flagged_same_flags; [| | |exact Hfl]; reflexivity.
  - destruct (negb (manualDisconnect s)
              && ConnectionStatus_eqb (connectionStatus s) DISCONNECTED);
      [apply flagged_not_connecting, scheduleReconnect_status | exact Hfl].
  - destruct (ConnectionStatus_eqb (connectionStatus s) CONNECTING);
      [|exact Hfl].
    apply flagged_not_connecting. discriminate.
  - destruct (subscribeToTopic_same_flags topic s) as (H1 & H2 & H3).
    eapply flagged_same_flags; eassumption.
  - eapply flagged_same_flags; [| | |exact Hfl]; reflexivity.
Qed.

Lemma step_flagged (s : MqttService) (i : Input) :
  connectingFlagged s -> connectingFlagged (step s i).
Proof.
  intros Hfl. destruct i; cbn [step].
  - now apply connect_flagged.
  - apply flagged_not_connecting. discriminate.
  - apply completed_flagged.
  - apply flagged_not_connecting. discriminate.
  - apply flagged_not_connecting. discriminate.
  - now apply onDisconnect_flagged.
  - apply onError_flagged.
  - unfold onConnectResolved.
    destruct (negb (ConnectionStatus_eqb (connectionStatus s) CONNECTED));
      [apply completed_flagged | exact Hfl].
  - apply flagged_not_connecting. discriminate.
  - unfold subscribeSettled. destruct ok.
    + eapply flagged_same_flags; [| | |exact Hfl]; reflexivity.
    + apply flagged_not_connecting. discriminate.
  - unfold fireTimer.
    destruct (List.find _ (pendingTimers s)); [|exact Hfl].
    apply runTask_flagged.
    eapply flagged_same_flags; [| | |exact Hfl]; reflexivity.
Qed.

Lemma run_flagged (c : option Credentials) (inputs : list Input) :
  connectingFlagged (run (initialize c) inputs).
Proof.
  unfold run.
  assert (H0 : connectingFlagged (initialize c)) by (intros H; discriminate H).
  revert H0. generalize (initialize c).
  induction inputs as [|i rest IH]; intros s Hs; [exact Hs|].
  cbn [fold_left]. apply IH. now apply step_flagged.
Qed.

Lemma disconnect_flag (u d : bool) (s : MqttService) :
  manualDisconnect (disconnect u d s) = true /\
  reconnectAttempts (disconnect u d s) = 0%nat.
Proof.
  unfold disconnect, clearReconnectTimeout. cbn.
  repeat match goal with
         | |- context [match ?x with _ => _ end] => destruct x eqn:?; cbn
         end;
    split; reflexivity.
Qed.

(** After a manual disconnect the handler only resets [isConnecting]. *)
Lemma onDisconnect_manual_flag (topic : string) (s : MqttService) :
  manualDisconnect s = true ->
  onDisconnect topic s = set_isConnecting false s.
Proof. intros H. unfold onDisconnect. cbn. now rewrite H. Qed.

(** Once the manual flag is set and no reconnect timer is pending,
    nothing but a call to [connect] changes either fact: transport
    events, promise continuations and timers cannot re-arm a
    reconnect. *)
Lemma step_stays_manual (s : MqttService) (i : Input) :
  isCallConnect i = false ->
  manualDisconnect s = true ->
  noReconnectTimerPending s ->
  manualDisconnect (step s i) = true /\ noReconnectTimerPending (step s i).
Proof.
  intros Hcall Hm Hn. destruct i; cbn [step]; try discriminate Hcall.
  - split; [apply disconnect_flag|].
    now apply disconnect_none_pending, noReconnectTimerPending_tracked.
  - unfold onConnect, subscribeToTopic. cbn.
    destruct (connection s); (split; [exact Hm|]);
      (eapply none_pending_same_timers; [|exact Hn]); reflexivity.
  - split; [exact Hm|].
    eapply none_pending_same_timers; [|exact Hn]. reflexivity.
  - split; [exact Hm|].
    eapply none_pending_same_timers; [|exact Hn]. reflexivity.
  - rewrite (onDisconnect_manual_flag topic0 s Hm). split; [exact Hm|].
    eapply none_pending_same_timers; [|exact Hn]. reflexivity.
  - unfold onError. cbn. rewrite Hm. cbn. split; [exact Hm|].
    eapply none_pending_same_timers; [|exact Hn]. reflexivity.
  - unfold onConnectResolved, subscribeToTopic. cbn.
    destruct (negb (ConnectionStatus_eqb (connectionStatus s) CONNECTED));
      [|now split].
    cbn. destruct (connection s); (split; [exact Hm|]);
      (eapply none_pending_same_timers; [|exact Hn]); reflexivity.
  - split; [exact Hm|].
    eapply none_pending_same_timers; [|exact Hn]. reflexivity.
  - unfold subscribeSettled. destruct ok; (split; [exact Hm|]).
    + eapply none_pending_other_timer; [| |exact Hn]; reflexivity.
    + eapply none_pending_same_timers; [|exact Hn]. reflexivity.
  - unfold fireTimer.
    destruct (List.find _ (pendingTimers s)) as [t|] eqn:Hfind; [|now split].
    apply find_some in Hfind as [Hin _].
    assert (Hn' : noReconnectTimerPending (clearTimeout id s)).
    { intros t' Ht'. apply clearTimeout_subset in Ht' as [Hin' _].
      now apply Hn. }
    pose proof (Hn t Hin) as Hnot. unfold isReconnectTimer in Hnot.
    destruct (timer_task t) as [topic|topic|topic|topic|topic];
      try discriminate Hnot; cbn [runTask].
    + change (manualDisconnect (clearTimeout id s)) with (manualDisconnect s).
      rewrite Hm. cbn. now split.
    + destruct (ConnectionStatus_eqb _ CONNECTING); [|now split].
      split; [exact Hm|].
      eapply none_pending_other_timer; [| |exact Hn']; reflexivity.
    + unfold subscribeToTopic.
      destruct (connection _); (split; [exact Hm|]);
        (eapply none_pending_same_timers; [|exact Hn']); reflexivity.
    + split; [exact Hm|].
      eapply none_pending_same_timers; [|exact Hn']. reflexivity.
Qed.

Lemma run_stays_manual (inputs : list Input) :
  forall s : MqttService,
    forallb (fun i => negb (isCallConnect i)) inputs = true ->
    manualDisconnect s = true ->
    noReconnectTimerPending s ->
    manualDisconnect (run s inputs) = true /\
    noReconnectTimerPending (run s inputs).
Proof.
  induction inputs as [|i rest IH]; intros s Hall Hm Hn; [now split|].
  cbn [forallb] in Hall. apply andb_prop in Hall as [Hi Hrest].
  apply negb_true_iff in Hi.
  destruct (step_stays_manual s i Hi Hm Hn) as [Hm' Hn'].
  unfold run. cbn [fold_left]. now apply IH.
Qed.

End MqttFlags.

(** ** Manual disconnect *)

Section ManualDisconnect.
Import MqttService.

(** C4. From every state, whether [unsubscribe] and the transport's
    [disconnect] resolve or throw, a manual [disconnect()] leaves the
    manual-disconnect flag set, no reconnect timer referenced, the
    timer that was referenced cancelled, and finishes by setting and
    announcing the status [DISCONNECTED]. The bookkeeping being an
    invariant, no reconnect timer is pending at all afterwards, and
    the flag suppresses auto-reconnect: whatever transport events,
    promise continuations and timers follow, short of a new call to
    [connect], the flag stays set and no reconnect timer is armed. *)
Theorem disconnect_always_disconnected
    (unsubscribe_ok disconnect_ok : bool) (s : MqttService) :
  let s' := disconnect unsubscribe_ok disconnect_ok s in
  manualDisconnect s' = true /\
  reconnectTimeout s' = None /\
  (forall id : nat,
     reconnectTimeout s = Some id ->
     ~ In id (map timer_id (pendingTimers s'))) /\
  (reconnectTimerTracked s ->
   noReconnectTimerPending s' /\
   forall inputs : list Input,
     forallb (fun i => negb (isCallConnect i)) inputs = true ->
     manualDisconnect (run s' inputs) = true /\
     noReconnectTimerPending (run s' inputs)) /\
  connectionStatus s' = DISCONNECTED /\
  (exists before : list Effect,
     effects s' = before ++ [StatusNotified DISCONNECTED]).
Proof.
  intros s'.
  destruct (disconnect_flag unsubscribe_ok disconnect_ok s) as [Hflag _].
  destruct (disconnect_timers unsubscribe_ok disconnect_ok s) as [Hp Hr].
  split; [exact Hflag|]. split; [exact Hr|]. split.
  { intros id Hid. unfold s'. rewrite Hp.
    unfold clearReconnectTimeout. rewrite Hid.
    apply (clearTimeout_removes id s). }
  split.
  { intros Htr.
    pose proof (disconnect_none_pending unsubscribe_ok disconnect_ok s Htr)
      as Hnone.
    split; [exact Hnone|].
    intros inputs Hall. now apply run_stays_manual. }
  split; [reflexivity|].
  eexists. reflexivity.
Qed.

(** A reconnect is pending on topic "t" when the user disconnects and
    the transport refuses the unsubscribe; the transport then reports
    an error and its disconnect, and the old watchdog fires. *)
Lemma disconnect_always_disconnected_witness :
  let s := run (initialize creds)
             [CallConnect "t"; ConnectEvent "t";
              ErrorEvent "t" socketError] in
  let s' := disconnect false true s in
  let after := run s' [ErrorEvent "t" socketError; DisconnectEvent "t";
                       TimerFired 2] in
  reconnectTimeout s = Some 3%nat /\
  connectionStatus s = RECONNECTING /\
  manualDisconnect s' = true /\
  reconnectTimeout s' = None /\
  ~ In 3%nat (map timer_id (pendingTimers s')) /\
  noReconnectTimerPending s' /\
  connectionStatus s' = DISCONNECTED /\
  manualDisconnect after = true /\
  noReconnectTimerPending after.
Proof.
  intros s s' after.
  pose proof (disconnect_always_disconnected false true s)
    as (Hflag & Hr & Hcancel & Hquiet & Hstatus & _).
  destruct (Hquiet (run_tracked creds _)) as [Hnone Hlater].
  split; [reflexivity|]. split; [reflexivity|].
  split; [exact Hflag|]. split; [exact Hr|].
  split; [apply Hcancel; reflexivity|].
  split; [exact Hnone|]. split; [exact Hstatus|].
  apply Hlater. reflexivity.
Defined.

End ManualDisconnect.

(** ** Unexpected drops *)

Section UnexpectedDrop.
Import MqttService.

(** The handler of the [disconnect] event and the callback of its
    timer, branch by branch. An unexpected drop (manual flag clear)
    sets the status to [DISCONNECTED]. With the reconnect counter at
    zero the handler schedules nothing itself: it only arms a 2000 ms
    timer, leaving the counter and the reconnect timer as they were;
    when that timer runs it calls [scheduleReconnect] if the flag is
    clear and the status is [DISCONNECTED] then, and does nothing
    otherwise. With the counter above zero the handler calls
    [scheduleReconnect] at once. *)
Lemma first_drop_grace_then_immediate (topic : string) (s : MqttService) :
  manualDisconnect s = false ->
  let dropped := setConnectionStatus DISCONNECTED (set_isConnecting false s) in
  (reconnectAttempts s = 0%nat ->
     onDisconnect topic s = snd (setTimeout (GraceTask topic) 2000 dropped) /\
     pendingTimers (onDisconnect topic s)
     = pendingTimers s ++ [mkTimer (nextId s) 2000 (GraceTask topic)] /\
     reconnectTimeout (onDisconnect topic s) = reconnectTimeout s /\
     reconnectAttempts (onDisconnect topic s) = 0%nat /\
     connectionStatus (onDisconnect topic s) = DISCONNECTED) /\
  (forall later : MqttService,
     (manualDisconnect later = false ->
      connectionStatus later = DISCONNECTED ->
      runTask (GraceTask topic) later = scheduleReconnect topic later) /\
     (manualDisconnect later = true \/ connectionStatus later <> DISCONNECTED ->
      runTask (GraceTask topic) later = later)) /\
  (reconnectAttempts s <> 0%nat ->
     onDisconnect topic s = scheduleReconnect topic dropped /\
     connectionStatus dropped = DISCONNECTED).
Proof.
  intros Hmanual dropped. split; [|split].
  - intros Hzero. unfold onDisconnect. cbn. rewrite Hmanual, Hzero. cbn.
    repeat split; assumption.
  - intros later. split.
    + intros Hm Hst. cbn. now rewrite Hm, Hst.
    + intros Hor. cbn. destruct (manualDisconnect later); [reflexivity|].
      destruct Hor as [Hm|Hst]; [discriminate|].
      destruct (connectionStatus later); try reflexivity. now elim Hst.
  - intros Hpos. unfold onDisconnect. cbn. rewrite Hmanual. cbn.
    destruct (reconnectAttempts s) as [|n] eqn:Hn; [now elim Hpos|].
    split; reflexivity.
Qed.

(** The first drop after a successful connect, then a second drop once
    a reconnect has been scheduled. *)
Lemma first_drop_grace_then_immediate_witness :
  let s := run (initialize creds) [CallConnect "t"; ConnectEvent "t"] in
  let first := onDisconnect "t" s in
  let scheduled := fireTimer 3 first in
  let second := onDisconnect "t" scheduled in
  pendingTimers first
  = pendingTimers s ++ [mkTimer 3 2000 (GraceTask "t")] /\
  reconnectTimeout first = None /\
  reconnectAttempts scheduled = 1%nat /\
  second
  = scheduleReconnect "t"
      (setConnectionStatus DISCONNECTED (set_isConnecting false scheduled)) /\
  List.filter isReconnectTimer (pendingTimers second)
  = [mkTimer 5 10000 (ReconnectTask "t")].
Proof.
  intros s first scheduled second.
  destruct (first_drop_grace_then_immediate "t" s) as (Hfirst & _ & _);
    [reflexivity|].
  destruct Hfirst as (_ & Hp & Hr & _); [reflexivity|].
  destruct (first_drop_grace_then_immediate "t" scheduled) as (_ & _ & Hnext);
    [reflexivity|].
  destruct Hnext as [Hsecond _]; [discriminate|].
  split; [exact Hp|]. split; [exact Hr|]. split; [reflexivity|].
  split; [exact Hsecond | reflexivity].
Defined.

End UnexpectedDrop.

(** ** Concurrent connects and the three completion paths *)

Section ConnectRace.
Import MqttService.

(** A call that arrives while [isConnecting] is set returns at the
    first guard: no state change, no transport, no rejection. *)
Lemma connect_in_progress_returns (topic : string) (s : MqttService) :
  isConnecting s = true -> connect topic s = (s, false).
Proof. intros H. unfold connect, connect_enter. now rewrite H. Qed.

(** From its first statement after the guards until a completion path
    runs, [connect] holds [isConnecting]; this covers the await on the
    credentials as well. *)
Lemma connect_enter_in_progress (topic : string) (s s1 : MqttService) :
  connect_enter topic s = Some s1 ->
  isConnecting s1 = true /\ connectionStatus s1 = CONNECTING /\
  forall topic' : string, connect_enter topic' s1 = None.
Proof.
  unfold connect_enter.
  destruct (isConnecting s); [discriminate|].
  destruct (ConnectionStatus_eqb (connectionStatus s) CONNECTED);
    [discriminate|].
  intros [= <-]. repeat split.
Qed.

Lemma connect_started (topic : string) (s : MqttService) (c : Credentials) :
  isConnecting s = false ->
  connectionStatus s <> CONNECTED ->
  resolveCredentials s = Some c ->
  let s' := fst (connect topic s) in
  isConnecting s' = true /\ connectionStatus s' = CONNECTING /\
  transportCount s' = S (transportCount s) /\
  subscribeCount s' = subscribeCount s.
Proof.
  intros Hc Hst Hcred s'. unfold s', connect, connect_enter. rewrite Hc.
  replace (ConnectionStatus_eqb (connectionStatus s) CONNECTED) with false
    by (destruct (connectionStatus s); try reflexivity; now elim Hst).
  unfold connect_resume.
  replace (resolveCredentials _) with (Some c)
    by (rewrite <- Hcred; unfold resolveCredentials, clearReconnectTimeout;
        destruct (reconnectTimeout s); reflexivity).
  unfold transportCount, subscribeCount, clearReconnectTimeout.
  destruct (reconnectTimeout s); cbn;
    rewrite !List.filter_app, !length_app; cbn; repeat split; lia.
Qed.

(** In every state the service can reach, a call that arrives while
    the flag is set or the status is [CONNECTING] changes nothing: no
    second transport is opened. *)
Lemma connect_second_call_noop
    (c : option Credentials) (inputs : list Input) (topic : string) :
  let s := run (initialize c) inputs in
  isConnecting s = true \/ connectionStatus s = CONNECTING ->
  connect topic s = (s, false) /\
  transportCount (step s (CallConnect topic)) = transportCount s.
Proof.
  intros s Hprog.
  assert (Hc : isConnecting s = true).
  { destruct Hprog as [H|H]; [exact H|].
    now destruct (run_flagged c inputs H). }
  pose proof (connect_in_progress_returns topic s Hc) as Hno.
  split; [exact Hno|]. cbn [step]. now rewrite Hno.
Qed.

(** The promise continuation and the watchdog look at the status
    before acting. *)
Lemma onConnectResolved_guarded (topic : string) (s : MqttService) :
  connectionStatus s = CONNECTED -> onConnectResolved topic s = s.
Proof. intros H. unfold onConnectResolved. now rewrite H. Qed.

Lemma watchdog_guarded (topic : string) (s : MqttService) :
  connectionStatus s <> CONNECTING -> runTask (WatchdogTask topic) s = s.
Proof.
  intros H. cbn.
  destruct (connectionStatus s); try reflexivity. now elim H.
Qed.

(** The connect event handler does not: it subscribes whatever the
    status already is. *)
Lemma onConnect_always_subscribes
    (topic : string) (s : MqttService) (c : nat) :
  connection s = Some c ->
  effects (onConnect topic s)
  = effects s ++ [StatusNotified CONNECTED; Subscribe c topic].
Proof.
  intros H. unfold onConnect, subscribeToTopic. cbn. rewrite H. cbn.
  now rewrite <- app_assoc.
Qed.

(** When the connect event comes first, the other two paths find the
    status [CONNECTED] and one subscribe is issued in all. *)
Lemma connect_event_first_subscribes_once :
  let s := run (initialize creds)
             [CallConnect "t"; CallConnect "t"; ConnectEvent "t";
              ConnectResolved "t"; TimerFired 2] in
  transportCount s = 1%nat /\ subscribeCount s = 1%nat /\
  connectionStatus s = CONNECTED.
Proof. vm_compute. repeat split. Qed.

(** C1, evaluated. Two [connect("t")] calls in a row open one
    transport: the second finds [isConnecting] set and changes nothing.
    The handshake then takes more than three seconds: the watchdog
    (timer 2) forces [CONNECTED], its delayed subscribe (timer 3) runs,
    and when the connect event finally arrives its handler subscribes
    again. One successful connect, two subscribe calls. *)
Theorem connect_event_after_watchdog_subscribes_twice :
  let connecting := run (initialize creds) [CallConnect "t"] in
  let forced := run connecting [CallConnect "t"; TimerFired 2; TimerFired 3] in
  let final := step forced (ConnectEvent "t") in
  isConnecting connecting = true /\
  connectionStatus connecting = CONNECTING /\
  step connecting (CallConnect "t") = connecting /\
  connectionStatus forced = CONNECTED /\
  subscribeCount forced = 1%nat /\
  transportCount final = 1%nat /\
  subscribeCount final = 2%nat /\
  effects final
  = [StatusNotified CONNECTING; TransportConnect 1;
     StatusNotified CONNECTED; Subscribe 1 "t";
     StatusNotified CONNECTED; Subscribe 1 "t"].
Proof. vm_compute. repeat split. Qed.

(** The same happens when the promise continuation runs before the
    connect event. *)
Lemma connect_event_after_promise_subscribes_twice :
  let s := run (initialize creds)
             [CallConnect "t"; ConnectResolved "t"; ConnectEvent "t"] in
  transportCount s = 1%nat /\ subscribeCount s = 2%nat.
Proof. vm_compute. repeat split. Qed.

End ConnectRace.

(** ** Reaching the reconnect cap *)

Section ReconnectCap.
Import MqttService.

(** Three drops with no timer firing in between: delays 5000, 10000
    and 20000 ms, each replacing the one before. *)
Lemma backoff_sequence :
  let s0 := set_reconnectAttempts 0 (initialize creds) in
  let s1 := scheduleReconnect "t" s0 in
  let s2 := scheduleReconnect "t" s1 in
  let s3 := scheduleReconnect "t" s2 in
  map timer_delay (pendingTimers s1) = [5000] /\
  map timer_delay (pendingTimers s2) = [10000] /\
  map timer_delay (pendingTimers s3) = [20000] /\
  reconnectAttempts s3 = 3%nat /\ connectionStatus s3 = RECONNECTING.
Proof. vm_compute. repeat split. Qed.

(** When no reconnect timer is pending as the cap is hit, none is
    pending afterwards. *)
Lemma scheduleReconnect_cap_quiescent (topic : string) (s : MqttService) :
  (maxReconnectAttempts <= reconnectAttempts s)%nat ->
  noReconnectTimerPending s ->
  connectionStatus (scheduleReconnect topic s) = ERROR /\
  noReconnectTimerPending (scheduleReconnect topic s).
Proof.
  intros Hge Hnone.
  destruct (scheduleReconnect_cap topic s Hge) as (_ & Hst & Hp & _).
  split; [exact Hst|].
  eapply none_pending_same_timers; eassumption.
Qed.

(** C3, evaluated. A connection is established, then fails twice, each
    failure raising the transport's error event followed by its
    disconnect event. First failure: the error handler schedules
    attempt 1 (5000 ms), the disconnect handler replaces it by attempt
    2 (10000 ms). That timer (4) fires and reconnects. Second failure:
    the error handler schedules attempt 3 (20000 ms, timer 7); the
    disconnect handler then finds the counter at the cap, sets [ERROR]
    and returns before the code that cancels the pending timer. The
    service is in [ERROR] with reconnect timer 7 pending, and when it
    fires [connect] runs again without any call from the user. *)
Theorem cap_reached_with_reconnect_timer_pending :
  let s := run (initialize creds)
             [CallConnect "t"; ConnectEvent "t"; TimerFired 2;
              ErrorEvent "t" socketError; DisconnectEvent "t";
              TimerFired 4;
              ErrorEvent "t" socketError; DisconnectEvent "t"] in
  let resumed := step s (TimerFired 7) in
  connectionStatus s = ERROR /\
  reconnectAttempts s = 3%nat /\
  reconnectTimeout s = Some 7%nat /\
  List.filter isReconnectTimer (pendingTimers s)
  = [mkTimer 7 20000 (ReconnectTask "t")] /\
  transportCount s = 2%nat /\
  connectionStatus resumed = CONNECTING /\
  isConnecting resumed = true /\
  transportCount resumed = 3%nat.
Proof. vm_compute. repeat split. Qed.

(** The same with error events alone: the fourth error in a row finds
    the counter at the cap while the timer of attempt 3 is pending. *)
Lemma cap_reached_after_repeated_errors :
  let s := run (initialize creds)
             [CallConnect "t"; ConnectEvent "t"; TimerFired 2;
              ErrorEvent "t" socketError; ErrorEvent "t" socketError;
              ErrorEvent "t" socketError; ErrorEvent "t" socketError] in
  connectionStatus s = ERROR /\
  reconnectAttempts s = 3%nat /\
  List.filter isReconnectTimer (pendingTimers s)
  = [mkTimer 5 20000 (ReconnectTask "t")].
Proof. vm_compute. repeat split. Qed.

End ReconnectCap.

(** * Further properties of the modelled code *)

(** ** The reducers *)

Section ReducerInvariants.

Lemma mqttReducer_coherent
    (s : MqttContext.MqttState) (a : MqttContext.MqttAction) :
  MqttContext.connected s
  = ConnectionStatus_eqb (MqttContext.connectionStatus s) CONNECTED ->
  MqttContext.lastMessage s = hd_error (MqttContext.messages s) ->
  let s' := MqttContext.mqttReducer s a in
  MqttContext.connected s'
  = ConnectionStatus_eqb (MqttContext.connectionStatus s') CONNECTED /\
  MqttContext.lastMessage s' = hd_error (MqttContext.messages s').
Proof.
  intros H1 H2. destruct a; cbn; split; try reflexivity; try assumption.
Qed.

Lemma dispatchAll_coherent (actions : list MqttContext.MqttAction) :
  forall s : MqttContext.MqttState,
    MqttContext.connected s
    = ConnectionStatus_eqb (MqttContext.connectionStatus s) CONNECTED ->
    MqttContext.lastMessage s = hd_error (MqttContext.messages s) ->
    let s' := MqttContext.dispatchAll s actions in
    MqttContext.connected s'
    = ConnectionStatus_eqb (MqttContext.connectionStatus s') CONNECTED /\
    MqttContext.lastMessage s' = hd_error (MqttContext.messages s').
Proof.
  induction actions as [|a rest IH]; intros s H1 H2; [now split|].
  destruct (mqttReducer_coherent s a H1 H2) as [H1' H2'].
  exact (IH _ H1' H2').
Qed.

(** However the MQTT reducer is driven from its initial state, the
    [connected] flag says exactly that the status is [CONNECTED], the
    last message is the head of the feed, and the count is at least
    the number of messages shown. *)
Theorem mqtt_state_coherent (actions : list MqttContext.MqttAction) :
  let s := MqttContext.dispatchAll MqttContext.initialState actions in
  MqttContext.connected s
  = ConnectionStatus_eqb (MqttContext.connectionStatus s) CONNECTED /\
  MqttContext.lastMessage s = hd_error (MqttContext.messages s) /\
  Z.of_nat (length (MqttContext.messages s)) <= MqttContext.messageCount s.
Proof.
  intros s.
  destruct (dispatchAll_received actions MqttContext.initialState [])
    as [Hm Hc]; [reflexivity | reflexivity |].
  fold s in Hm, Hc.
  destruct (dispatchAll_coherent actions MqttContext.initialState)
    as [H1 H2]; [reflexivity | reflexivity |].
  split; [exact H1|]. split; [exact H2|].
  rewrite Hm, Hc, length_firstn. lia.
Qed.

(** However the auth reducer is driven from its initial state, an
    authenticated state has a user and no challenge session, and a
    challenge state has both a user and a challenge session. *)
Theorem auth_state_coherent (actions : list AuthContext.AuthAction) :
  let s := AuthContext.dispatchAll AuthContext.initialState actions in
  (AuthContext.authState s = AuthTypes.AUTHENTICATED ->
   AuthContext.user s <> None /\ AuthContext.challengeSession s = None) /\
  (AuthContext.authState s = AuthTypes.CHALLENGE_REQUIRED ->
   AuthContext.user s <> None /\ AuthContext.challengeSession s <> None).
Proof.
  cbv zeta. unfold AuthContext.dispatchAll.
  assert (H0 :
    (AuthContext.authState AuthContext.initialState = AuthTypes.AUTHENTICATED ->
     AuthContext.user AuthContext.initialState <> None /\
     AuthContext.challengeSession AuthContext.initialState = None) /\
    (AuthContext.authState AuthContext.initialState
     = AuthTypes.CHALLENGE_REQUIRED ->
     AuthContext.user AuthContext.initialState <> None /\
     AuthContext.challengeSession AuthContext.initialState <> None))
    by (split; discriminate).
  revert H0. generalize AuthContext.initialState.
  induction actions as [|a rest IH]; intros s H0; [exact H0|].
  cbn [fold_left]. apply IH. destruct H0 as [Ha Hc].
  destruct a; cbn; try (split; intros; (discriminate || (split; congruence))).
  - destruct (AuthContext.authState s) eqn:Hs; cbn;
      split; intros H; try discriminate H; auto.
  - split; assumption.
Qed.

Lemma auth_state_coherent_witness :
  let s := AuthContext.dispatchAll AuthContext.initialState
             [ AuthContext.SET_LOADING;
               AuthContext.SET_CHALLENGE_REQUIRED (session_user hourSession)
                 "challenge-session";
               AuthContext.SET_LOADING;
               AuthContext.SET_AUTHENTICATED (session_user hourSession) ] in
  AuthContext.authState s = AuthTypes.AUTHENTICATED /\
  AuthContext.user s <> None /\
  AuthContext.challengeSession s = None.
Proof.
  intros s.
  destruct (auth_state_coherent
              [ AuthContext.SET_LOADING;
                AuthContext.SET_CHALLENGE_REQUIRED (session_user hourSession)
                  "challenge-session";
                AuthContext.SET_LOADING;
                AuthContext.SET_AUTHENTICATED (session_user hourSession) ])
    as [H _].
  split; [reflexivity | apply H; reflexivity].
Defined.

(** Whatever the outcome of the awaited service call and whatever the
    state it starts from, no action of the auth provider ends in
    [LOADING]. *)
Theorem auth_provider_never_left_loading (s : AuthContext.AuthStateType) :
  (forall o, AuthContext.authState (AuthContext.signIn o s)
             <> AuthTypes.LOADING) /\
  (forall o, AuthContext.authState (AuthContext.signOut o s)
             <> AuthTypes.LOADING) /\
  (forall o, AuthContext.authState (AuthContext.completeNewPassword o s)
             <> AuthTypes.LOADING) /\
  (forall c, AuthContext.authState (AuthContext.initializeAuth c s)
             <> AuthTypes.LOADING).
Proof.
  repeat split; intros o.
  - destruct o as [r|e]; cbn; [|discriminate].
    destruct (AuthTypes.challengeName r) as [n|]; [|discriminate].
    destruct (String.eqb n "NEW_PASSWORD_REQUIRED"); discriminate.
  - destruct o; discriminate.
  - destruct o; discriminate.
  - destruct o as [[u|]|e]; discriminate.
Qed.

(** A new-password challenge that fails ends [UNAUTHENTICATED], with
    the error stored and the user and the challenge session kept; one
    that succeeds ends [AUTHENTICATED] with the challenge session
    dropped. *)
Theorem completeNewPassword_outcomes
    (s : AuthContext.AuthStateType) :
  (forall error : Thrown,
     AuthContext.completeNewPassword (Rejected error) s
     = {| AuthContext.authState := AuthTypes.UNAUTHENTICATED;
          AuthContext.user := AuthContext.user s;
          AuthContext.error :=
            Some {| AuthTypes.code := "NEW_PASSWORD_ERROR";
                    AuthTypes.message :=
                      messageOr error "Failed to set new password";
                    AuthTypes.originalError := asError error |};
          AuthContext.challengeSession := AuthContext.challengeSession s |}) /\
  (forall result : AuthTypes.AuthResult,
     AuthContext.completeNewPassword (Resolved result) s
     = {| AuthContext.authState := AuthTypes.AUTHENTICATED;
          AuthContext.user := Some (AuthTypes.user result);
          AuthContext.error := None;
          AuthContext.challengeSession := None |}).
Proof. split; reflexivity. Qed.

End ReducerInvariants.

(** ** Session persistence and refresh *)

Section SessionLifecycle.
Import AuthService.

Lemma session_keys_differ : SESSION_KEY <> CACHE_KEY.
Proof. discriminate. Qed.

(** The reload at the heart of the round trip. *)
Lemma stored_session_reloads_core
    (now : Z) (sess : AuthSession) (st : AuthService.AuthService) :
  now < session_expiresAt sess ->
  currentSession (construct now (localStorage (storeSession true sess st)))
  = Some sess.
Proof.
  intros Hvalid. unfold construct, loadStoredSession, storeSession.
  cbn [localStorage]. rewrite lookup_insert_eq. cbn [falsy parseSession].
  replace (now >=? session_expiresAt sess) with false
    by (symmetry; rewrite Z.geb_leb; apply Z.leb_gt; lia).
  unfold scheduleTokenRefresh. cbn [currentSession refreshTimer].
  destruct (_ >? 0); reflexivity.
Qed.

(** A session written by [storeSession] is what a service constructed
    later over the same storage starts with, as long as it has not
    expired; the refresh timer is armed for five minutes before the
    expiry, or not at all when that instant is already past. *)
Theorem stored_session_reloads
    (now : Z) (sess : AuthSession) (st : AuthService.AuthService) :
  now < session_expiresAt sess ->
  let reloaded := construct now (localStorage (storeSession true sess st)) in
  currentSession reloaded = Some sess /\
  localStorage reloaded = localStorage (storeSession true sess st) /\
  refreshTimer reloaded
  = (if session_expiresAt sess - now - 300000 >? 0
     then Some (session_expiresAt sess - now - 300000)
     else None).
Proof.
  intros Hvalid. unfold construct, loadStoredSession, storeSession.
  cbn [localStorage]. rewrite lookup_insert_eq. cbn [falsy parseSession].
  replace (now >=? session_expiresAt sess) with false
    by (symmetry; rewrite Z.geb_leb; apply Z.leb_gt; lia).
  unfold scheduleTokenRefresh. cbn [currentSession refreshTimer].
  change TOKEN_REFRESH_THRESHOLD with 300000.
  destruct (session_expiresAt sess - now - 300000 >? 0); repeat split.
Qed.

Lemma stored_session_reloads_witness :
  let reloaded :=
    construct 1700000000000
      (localStorage (storeSession true hourSession aliceService)) in
  currentSession reloaded = Some hourSession /\
  refreshTimer reloaded = Some 3300000.
Proof.
  destruct (stored_session_reloads 1700000000000 hourSession aliceService)
    as (H1 & _ & H3); [cbn; lia|].
  split; [exact H1 | exact H3].
Defined.

End SessionLifecycle.

Section SessionValidity.
Import AuthService.

(** An entry under the session key that makes the [try] block of
    [loadStoredSession] throw or holds an expired session is removed
    when the service is constructed, and the service starts without a
    session: a non-empty text that is certainly not JSON
    ([JSON.parse] throws), a discovery cache object (it has no [user]
    to read a name from), a session whose [expiresAt] is not after the
    current time. No other key is touched. *)
Theorem unusable_stored_session_dropped
    (now : Z) (storage : gmap string Stored) (v : Stored) :
  storage !! SESSION_KEY = Some v ->
  match v with
  | StoredSession sess => session_expiresAt sess <= now
  | StoredCache _ => True
  | StoredText raw => raw <> "" /\ notJson raw = true
  end ->
  currentSession (construct now storage) = None /\
  refreshTimer (construct now storage) = None /\
  localStorage (construct now storage) = delete SESSION_KEY storage /\
  forall k : string,
    k <> SESSION_KEY ->
    localStorage (construct now storage) !! k = storage !! k.
Proof.
  intros Hv Hbad.
  assert (H : construct now storage
              = clearStoredSession
                  {| currentSession := None; refreshTimer := None;
                     localStorage := storage |}).
  { unfold construct, loadStoredSession. cbn [localStorage]. rewrite Hv.
    destruct v as [sess|c|raw]; cbn [falsy parseSession].
    - replace (now >=? session_expiresAt sess) with true
        by (symmetry; apply Z.geb_le; lia).
      reflexivity.
    - reflexivity.
    - destruct Hbad as [Hne _].
      destruct (String.eqb_spec raw ""); [contradiction | reflexivity]. }
  rewrite H. cbn. repeat split.
  intros k Hk. apply lookup_delete_ne. congruence.
Qed.

Lemma unusable_stored_session_dropped_witness :
  let damaged : gmap string Stored :=
    <[SESSION_KEY := StoredText "session=alice; expires=never"]>
      (<[CACHE_KEY := StoredText "x"]> ∅) in
  let expired : gmap string Stored :=
    <[SESSION_KEY := StoredSession hourSession]> ∅ in
  (currentSession (construct 5 damaged) = None /\
   localStorage (construct 5 damaged) !! SESSION_KEY = None /\
   localStorage (construct 5 damaged) !! CACHE_KEY = Some (StoredText "x")) /\
  (currentSession (construct 1700003600000 expired) = None /\
   localStorage (construct 1700003600000 expired) !! SESSION_KEY = None) /\
  currentSession (construct 1700003599999 expired) = Some hourSession.
Proof.
  intros damaged expired.
  destruct (unusable_stored_session_dropped 5 damaged
              (StoredText "session=alice; expires=never"))
    as (H1 & _ & H3 & H4);
    [reflexivity | split; [discriminate | reflexivity] |].
  destruct (unusable_stored_session_dropped 1700003600000 expired
              (StoredSession hourSession))
    as (H5 & _ & H7 & _); [reflexivity | vm_compute; discriminate |].
  split; [|split].
  - split; [exact H1|]. split.
    + rewrite H3. apply lookup_delete_eq.
    + rewrite H4 by discriminate. reflexivity.
  - split; [exact H5|]. rewrite H7. apply lookup_delete_eq.
  - vm_compute. reflexivity.
Defined.

(** [isAuthenticated] holds exactly when [getCurrentUser] returns a
    user, and then [getCurrentUser] changes nothing; the AWS
    credentials are only handed out to an authenticated session. *)
Theorem authenticated_iff_current_user
    (now : Z) (st : AuthService.AuthService) :
  (isAuthenticated now st = true <->
   exists u, fst (getCurrentUser now st) = Some u) /\
  (isAuthenticated now st = true -> snd (getCurrentUser now st) = st) /\
  (forall idToken, getAWSCredentials now st = Resolved idToken ->
                   isAuthenticated now st = true /\ idToken <> "").
Proof.
  unfold getCurrentUser, getAWSCredentials, isAuthenticated.
  destruct (currentSession st) as [sess|] eqn:Hs.
  - rewrite Z.geb_leb.
    destruct (Z.ltb_spec now (session_expiresAt sess)) as [Hlt|Hge].
    + replace (session_expiresAt sess <=? now) with false
        by (symmetry; apply Z.leb_gt; lia).
      cbn. split; [split; eauto|]. split; [reflexivity|].
      intros idToken.
      destruct (String.eqb_spec (session_idToken sess) ""); cbn;
        [intros H; discriminate H|].
      intros [= <-]. now split.
    + replace (session_expiresAt sess <=? now) with true
        by (symmetry; apply Z.leb_le; lia).
      cbn. split; [split; [discriminate | intros [u Hu]; discriminate]|].
      split; [discriminate|]. intros idToken H. discriminate H.
  - cbn. split; [split; [discriminate | intros [u Hu]; discriminate]|].
    split; [discriminate|]. intros idToken H. discriminate H.
Qed.

Lemma authenticated_iff_current_user_witness :
  isAuthenticated 1700000000000 hourService = true /\
  snd (getCurrentUser 1700000000000 hourService) = hourService /\
  (exists u, fst (getCurrentUser 1700000000000 hourService) = Some u).
Proof.
  destruct (authenticated_iff_current_user 1700000000000 hourService)
    as (H1 & H2 & _).
  split; [reflexivity|]. split; [apply H2; reflexivity|].
  apply H1. reflexivity.
Defined.

(** A token refresh that is rejected ends the session for good: the
    session is gone from memory and from storage, nothing later
    returns it, and a reload finds nothing to restore. *)
Theorem refresh_failure_is_terminal
    (now : Z) (error : Thrown) (setItem_ok : bool)
    (st : AuthService.AuthService) (sess : AuthSession) :
  currentSession st = Some sess ->
  session_refreshToken sess <> "" ->
  let st' := refreshTokens now (Rejected error) setItem_ok st in
  currentSession st' = None /\
  refreshTimer st' = None /\
  localStorage st' !! SESSION_KEY = None /\
  forall later : Z,
    fst (getCurrentUser later st') = None /\
    isAuthenticated later st' = false /\
    currentSession (construct later (localStorage st')) = None.
Proof.
  intros Hs Hr st'. unfold st', refreshTokens. rewrite Hs.
  destruct (String.eqb_spec (session_refreshToken sess) ""); [contradiction|].
  destruct (clearStoredSession_clears st) as (H1 & H2 & H3).
  split; [exact H1|]. split; [exact H2|]. split; [exact H3|].
  intros later. split; [reflexivity|]. split; [reflexivity|].
  unfold construct, loadStoredSession. cbn [localStorage] in *.
  now rewrite H3.
Qed.

Lemma refresh_failure_is_terminal_witness :
  let st :=
    storeSession true hourSession
      {| currentSession := Some hourSession; refreshTimer := Some 3300000;
         localStorage := ∅ |} in
  let st' := refreshTokens 1700003300000
               (Rejected (ThrownError "NotAuthorizedException"
                            "Refresh Token has expired"))
               true st in
  localStorage st !! SESSION_KEY = Some (StoredSession hourSession) /\
  currentSession st' = None /\
  localStorage st' !! SESSION_KEY = None /\
  fst (getCurrentUser 1700003300001 st') = None.
Proof.
  intros st st'.
  destruct (refresh_failure_is_terminal 1700003300000
              (ThrownError "NotAuthorizedException" "Refresh Token has expired")
              true st hourSession)
    as (H1 & _ & H3 & H4); [reflexivity | discriminate |].
  split; [vm_compute; reflexivity|].
  split; [exact H1|]. split; [exact H3|].
  apply (H4 1700003300001).
Defined.

(** A token refresh that succeeds keeps the user and the refresh
    token, installs the new access and identity tokens with an expiry
    one lifetime after the response, and persists the session, so that
    it is returned until that expiry and survives a reload. A refresh
    timer field that is still set is left as it is: no new timer is
    armed. *)
Theorem refresh_success_extends_session
    (now : Z) (r : InitiateAuthResponse) (ar : AuthenticationResult)
    (access id : string)
    (st : AuthService.AuthService) (sess : AuthSession) :
  currentSession st = Some sess ->
  session_refreshToken sess <> "" ->
  response_AuthenticationResult r = Some ar ->
  token (AccessToken ar) = Some access ->
  token (IdToken ar) = Some id ->
  let st' := refreshTokens now (Resolved r) true st in
  let sess' := {| session_accessToken := access;
                  session_idToken := id;
                  session_refreshToken := session_refreshToken sess;
                  session_user := session_user sess;
                  session_expiresAt := now + lifetime ar |} in
  currentSession st' = Some sess' /\
  localStorage st' !! SESSION_KEY = Some (StoredSession sess') /\
  (forall d : Z, refreshTimer st = Some d -> refreshTimer st' = Some d) /\
  forall later : Z,
    later < now + lifetime ar ->
    getCurrentUser later st' = (Some (session_user sess), st') /\
    currentSession (construct later (localStorage st')) = Some sess'.
Proof.
  intros Hs Hr Har Ha Hi st' sess'.
  assert (Hst' : st' = scheduleTokenRefresh now
                         (storeSession true sess'
                            {| currentSession := Some sess';
                               refreshTimer := refreshTimer st;
                               localStorage := localStorage st |})).
  { unfold st', refreshTokens. rewrite Hs.
    destruct (String.eqb_spec (session_refreshToken sess) "");
      [contradiction|].
    now rewrite Har, Ha, Hi. }
  assert (Hcur : currentSession st' = Some sess').
  { rewrite Hst'. unfold scheduleTokenRefresh, storeSession. cbn.
    destruct (refreshTimer st); [reflexivity|].
    destruct (_ >? 0); reflexivity. }
  assert (Hsto : localStorage st'
                 = <[SESSION_KEY := StoredSession sess']> (localStorage st)).
  { rewrite Hst'. unfold scheduleTokenRefresh, storeSession. cbn.
    destruct (refreshTimer st); [reflexivity|].
    destruct (_ >? 0); reflexivity. }
  split; [exact Hcur|].
  split; [rewrite Hsto; apply lookup_insert_eq|].
  split.
  { intros d Hd. rewrite Hst'. unfold scheduleTokenRefresh, storeSession.
    cbn. now rewrite Hd. }
  intros later Hlater. split.
  - apply getCurrentUser_valid with (sess := sess'); assumption.
  - rewrite Hsto.
    change (<[SESSION_KEY:=StoredSession sess']> (localStorage st))
      with (localStorage
              (storeSession true sess'
                 {| currentSession := None; refreshTimer := None;
                    localStorage := localStorage st |})).
    now apply stored_session_reloads_core.
Qed.

Lemma refresh_success_extends_session_witness :
  let st' := refreshTokens 1700003300000 (Resolved freshTokens) true
               hourService in
  let sess' := {| session_accessToken := "access-2";
                  session_idToken := "id-2";
                  session_refreshToken := "refresh-1";
                  session_user := session_user hourSession;
                  session_expiresAt := 1700006900000 |} in
  currentSession st' = Some sess' /\
  localStorage st' !! SESSION_KEY = Some (StoredSession sess') /\
  refreshTimer st' = Some 3300000 /\
  fst (getCurrentUser 1700006000000 st') = Some (session_user hourSession).
Proof.
  intros st' sess'.
  destruct (refresh_success_extends_session 1700003300000 freshTokens
              {| AccessToken := Some "access-2"; IdToken := Some "id-2";
                 RefreshToken := Some "refresh-1"; ExpiresIn := Some 3600 |}
              "access-2" "id-2" hourService hourSession)
    as (H1 & H2 & H3 & H4);
    [reflexivity | discriminate | reflexivity | reflexivity | reflexivity |].
  split; [exact H1|]. split; [exact H2|].
  split; [apply H3; reflexivity|].
  destruct (H4 1700006000000) as [H5 _]; [vm_compute; reflexivity|].
  unfold st'. rewrite H5. reflexivity.
Defined.

End SessionValidity.

(** ** Service discovery *)

Section Discovery.
Import DiscoveryService.

(** Reading the cache touches no other key. *)
Lemma getCachedResults_other_keys
    (now : Z) (localStorage : gmap string Stored) (k : string) :
  k <> CACHE_KEY ->
  snd (getCachedResults now localStorage) !! k = localStorage !! k.
Proof.
  intros Hk. unfold getCachedResults.
  destruct (falsy (localStorage !! CACHE_KEY)); [reflexivity|].
  destruct (localStorage !! CACHE_KEY) as [v|]; [|reflexivity].
  destruct (parseCache v) as [c|]; cbn [snd].
  - destruct (now >? cache_expiresAt c); cbn [snd]; [|reflexivity].
    apply lookup_delete_ne. congruence.
  - apply lookup_delete_ne. congruence.
Qed.

(** What a read leaves in storage never becomes usable later when it
    was not usable at the read. *)
Lemma unusable_stays_unusable
    (now later : Z) (localStorage : gmap string Stored) :
  usableCache (fst (getCachedResults now localStorage)) = None ->
  usableCache
    (fst (getCachedResults later (snd (getCachedResults now localStorage))))
  = None.
Proof.
  unfold getCachedResults at 1 3.
  destruct (falsy (localStorage !! CACHE_KEY)) eqn:Hf.
  - intros _. cbn [snd]. unfold getCachedResults. now rewrite Hf.
  - destruct (localStorage !! CACHE_KEY) as [v|] eqn:Hv; [|discriminate].
    destruct (parseCache v) as [c|] eqn:Hc.
    + destruct (now >? cache_expiresAt c) eqn:Hexp; cbn [fst snd].
      * intros _. unfold getCachedResults. now rewrite lookup_delete_eq.
      * intros Hun. unfold getCachedResults. rewrite Hv, Hf, Hc.
        destruct (later >? cache_expiresAt c); [reflexivity | exact Hun].
    + cbn [fst snd]. intros _. unfold getCachedResults.
      now rewrite lookup_delete_eq.
Qed.

(** A cache hit. *)
Lemma cache_hit
    (now : Z) (cfg : AppConfig) (auth : AuthService.AuthService)
    (describe : Settled (option string)) (setItem_ok : bool)
    (ds : DiscoveryService) (localStorage : gmap string Stored)
    (c : DiscoveryCache) (endpoint : string) (buckets : list string) :
  localStorage !! CACHE_KEY = Some (StoredCache c) ->
  now <= cache_expiresAt c ->
  iotEndpoint c = Some endpoint ->
  endpoint <> "" ->
  s3Buckets c = Some buckets ->
  getDefaultConfiguration now cfg auth describe setItem_ok ds localStorage
  = {| outcome := Resolved (configure cfg endpoint buckets);
       service := ds; storage := localStorage; requested := false |}.
Proof.
  intros Hc Hnow He Hne Hb. unfold getDefaultConfiguration, getCachedResults.
  rewrite Hc. cbn [falsy parseCache].
  replace (now >? cache_expiresAt c) with false
    by (symmetry; rewrite Z.gtb_ltb; apply Z.ltb_ge; lia).
  unfold usableCache. rewrite He, Hb.
  destruct (String.eqb_spec endpoint ""); [contradiction | reflexivity].
Qed.

(** A cache entry that has not expired and holds an endpoint and a
    bucket list answers [getDefaultConfiguration] by itself: no
    request is sent, however the lookup would have settled, and
    neither the service nor the storage changes. *)
Theorem cached_configuration_served
    (now : Z) (cfg : AppConfig) (auth : AuthService.AuthService)
    (describe : Settled (option string)) (setItem_ok : bool)
    (ds : DiscoveryService) (localStorage : gmap string Stored)
    (c : DiscoveryCache) (endpoint : string) (buckets : list string) :
  localStorage !! CACHE_KEY = Some (StoredCache c) ->
  now <= cache_expiresAt c ->
  iotEndpoint c = Some endpoint ->
  endpoint <> "" ->
  s3Buckets c = Some buckets ->
  getDefaultConfiguration now cfg auth describe setItem_ok ds localStorage
  = {| outcome := Resolved (configure cfg endpoint buckets);
       service := ds; storage := localStorage; requested := false |}.
Proof. apply cache_hit. Qed.

Lemma cached_configuration_served_witness :
  let cfg := {| aws_region := "eu-west-1"; services_s3BucketName := None;
                services_mqttTopic := None |} in
  let cached :=
    setCachedResults 1700000000000
      (discoveryResults "abc-ats.iot.eu-west-1.amazonaws.com" ["camera-bucket"])
      true ∅ in
  getDefaultConfiguration 1700000600000 cfg aliceService
    (Rejected (ThrownError "NetworkError" "offline")) true
    newDiscoveryService cached
  = {| outcome :=
         Resolved {| config_iotEndpoint := "abc-ats.iot.eu-west-1.amazonaws.com";
                     config_s3BucketName := "camera-bucket";
                     config_mqttTopic := "dashboard/messages";
                     config_region := "eu-west-1" |};
       service := newDiscoveryService; storage := cached;
       requested := false |}.
Proof.
  intros cfg cached.
  apply (cached_configuration_served 1700000600000 cfg aliceService _ true
           newDiscoveryService cached
           (cacheData 1700000000000
              (discoveryResults "abc-ats.iot.eu-west-1.amazonaws.com"
                 ["camera-bucket"]))
           "abc-ats.iot.eu-west-1.amazonaws.com" ["camera-bucket"]);
    [apply lookup_insert_eq | vm_compute; intros H; discriminate H
    | reflexivity | discriminate | reflexivity].
Defined.

(** An endpoint obtained by a lookup is cached: for the hour that
    follows, a further call returns the same configuration without a
    request, whatever the lookup would do and whoever is signed in. *)
Theorem discovery_cached_for_an_hour
    (now later : Z) (cfg : AppConfig) (auth auth' : AuthService.AuthService)
    (describe describe' : Settled (option string)) (setItem_ok' : bool)
    (ds : DiscoveryService) (localStorage : gmap string Stored)
    (conf : ServiceConfiguration) :
  usableCache (fst (getCachedResults now localStorage)) = None ->
  let first :=
    getDefaultConfiguration now cfg auth describe true ds localStorage in
  outcome first = Resolved conf ->
  later <= now + CACHE_DURATION ->
  getDefaultConfiguration later cfg auth' describe' setItem_ok'
    (service first) (storage first)
  = {| outcome := Resolved conf; service := service first;
       storage := storage first; requested := false |}.
Proof.
  intros Hmiss first Hout Hlater. unfold first in *. clear first.
  unfold getDefaultConfiguration in *.
  destruct (getCachedResults now localStorage) as [cached ls] eqn:Hget.
  cbn [fst] in Hmiss. rewrite Hmiss in *.
  destruct (discoverIoTEndpoint now auth describe ds) as [[res ds'] sent]
    eqn:Hdisc.
  destruct res as [endpoint|e]; cbn [outcome service storage] in *;
    [|discriminate].
  injection Hout as <-.
  assert (Hne : endpoint <> "").
  { unfold discoverIoTEndpoint in Hdisc.
    destruct (initializeClients now auth ds) as [[e|] ds1];
      [discriminate|].
    destruct describe as [[address|]|e]; try discriminate.
    destruct (String.eqb_spec address ""); [discriminate|].
    injection Hdisc as <- _ _. assumption. }
  fold (getDefaultConfiguration later cfg auth' describe' setItem_ok' ds'
          (setCachedResults now
             (discoveryResults endpoint (discoverS3Buckets cfg)) true ls)).
  apply cache_hit
    with (c := cacheData now (discoveryResults endpoint (discoverS3Buckets cfg)));
    [apply lookup_insert_eq | exact Hlater | reflexivity | exact Hne
    | reflexivity].
Qed.

Lemma discovery_cached_for_an_hour_witness :
  let first :=
    getDefaultConfiguration 1700000000000 euConfig hourService
      (Resolved (Some euEndpoint)) true newDiscoveryService ∅ in
  let conf := {| config_iotEndpoint := euEndpoint;
                 config_s3BucketName := "";
                 config_mqttTopic := "dashboard/messages";
                 config_region := "eu-west-1" |} in
  outcome first = Resolved conf /\
  requested first = true /\
  getDefaultConfiguration 1700003600000 euConfig aliceService
    (Rejected (ThrownError "NetworkError" "offline")) false
    (service first) (storage first)
  = {| outcome := Resolved conf; service := service first;
       storage := storage first; requested := false |}.
Proof.
  intros first conf.
  split; [vm_compute; reflexivity|]. split; [vm_compute; reflexivity|].
  apply (discovery_cached_for_an_hour 1700000000000 1700003600000 euConfig
           hourService aliceService (Resolved (Some euEndpoint))
           (Rejected (ThrownError "NetworkError" "offline")) false
           newDiscoveryService ∅ conf);
    [ vm_compute; reflexivity | vm_compute; reflexivity
    | vm_compute; intros H; discriminate H ].
Defined.

(** A lookup that fails is not cached: the call rejects with the
    failure wrapped twice, and whenever the next call comes it finds
    no usable cache entry and has to look up again. *)
Theorem failed_discovery_not_cached
    (now : Z) (cfg : AppConfig) (auth : AuthService.AuthService)
    (describe : Settled (option string)) (setItem_ok : bool)
    (ds : DiscoveryService) (localStorage : gmap string Stored)
    (error : Thrown) :
  let d := getDefaultConfiguration now cfg auth describe setItem_ok ds
             localStorage in
  outcome d = Rejected error ->
  (exists cause : string,
     error = ThrownError "Error"
               (String.append
                  "Service discovery failed: IoT endpoint discovery failed: "
                  cause)) /\
  storage d = snd (getCachedResults now localStorage) /\
  forall later : Z,
    usableCache (fst (getCachedResults later (storage d))) = None.
Proof.
  intros d. unfold d, getDefaultConfiguration.
  pose proof (unusable_stays_unusable now) as Hstay.
  specialize (fun later => Hstay later localStorage).
  destruct (getCachedResults now localStorage) as [cached ls] eqn:Hget.
  cbn [fst snd] in Hstay.
  destruct (usableCache cached) as [[endpoint buckets]|] eqn:Hu;
    [discriminate|].
  destruct (discoverIoTEndpoint now auth describe ds) as [[res ds'] sent]
    eqn:Hdisc.
  destruct res as [endpoint|e]; cbn [outcome storage]; [discriminate|].
  intros [= <-]. split; [|split; [reflexivity | intros later; now apply Hstay]].
  unfold discoverIoTEndpoint in Hdisc.
  destruct (initializeClients now auth ds) as [[e0|] ds1].
  - injection Hdisc as <- _ _. eexists. reflexivity.
  - destruct describe as [[address|]|e0].
    + destruct (String.eqb address ""); [|discriminate].
      injection Hdisc as <- _ _. eexists. reflexivity.
    + injection Hdisc as <- _ _. eexists. reflexivity.
    + injection Hdisc as <- _ _. eexists. reflexivity.
Qed.

Lemma failed_discovery_not_cached_witness :
  let d := getDefaultConfiguration 1700000000000 euConfig hourService
             (Rejected (ThrownError "NetworkError" "offline")) true
             newDiscoveryService ∅ in
  outcome d
  = Rejected
      (ThrownError "Error"
         "Service discovery failed: IoT endpoint discovery failed: offline") /\
  isCacheValid 1700000000001 (storage d) = false /\
  usableCache (fst (getCachedResults 1700000000001 (storage d))) = None.
Proof.
  intros d.
  destruct (failed_discovery_not_cached 1700000000000 euConfig hourService
              (Rejected (ThrownError "NetworkError" "offline")) true
              newDiscoveryService ∅
              (ThrownError "Error"
                 "Service discovery failed: IoT endpoint discovery failed: offline"))
    as (_ & _ & H3); [vm_compute; reflexivity|].
  split; [vm_compute; reflexivity|]. split; [vm_compute; reflexivity|].
  apply H3.
Defined.

(** The first use of the discovery service by someone who is not
    signed in is refused before any request is sent, and leaves the
    service without credentials. *)
Theorem discovery_requires_authentication
    (now : Z) (auth : AuthService.AuthService)
    (describe : Settled (option string)) (ds : DiscoveryService) :
  credentials ds = None ->
  AuthService.isAuthenticated now auth = false ->
  discoverIoTEndpoint now auth describe ds
  = (Rejected
       (ThrownError "Error"
          "IoT endpoint discovery failed: User must be authenticated to use discovery service"),
     ds, false).
Proof.
  intros Hc Ha. unfold discoverIoTEndpoint, initializeClients.
  now rewrite Hc, Ha.
Qed.

Lemma discovery_requires_authentication_witness :
  discoverIoTEndpoint 2000 aliceService
    (Resolved (Some "abc-ats.iot.eu-west-1.amazonaws.com"))
    newDiscoveryService
  = (Rejected
       (ThrownError "Error"
          "IoT endpoint discovery failed: User must be authenticated to use discovery service"),
     newDiscoveryService, false).
Proof.
  apply (discovery_requires_authentication 2000 aliceService _
           newDiscoveryService); reflexivity.
Defined.

(** Clearing the cache makes it invalid at once, whatever it held;
    a cache just written is valid exactly until its hour is over. *)
Theorem cache_validity
    (now later : Z) (endpoint : string) (buckets : list string)
    (localStorage : gmap string Stored) :
  isCacheValid later (clearCache localStorage) = false /\
  isCacheValid later
    (setCachedResults now (discoveryResults endpoint buckets) true localStorage)
  = (later <=? now + CACHE_DURATION).
Proof.
  split.
  - unfold isCacheValid, getCachedResults, clearCache.
    now rewrite lookup_delete_eq.
  - unfold isCacheValid, getCachedResults. rewrite setCachedResults_stored.
    cbn [falsy parseCache cacheData discoveryResults cache_expiresAt
         partial_expiresAt].
    rewrite Z.gtb_ltb.
    destruct (Z.ltb_spec (now + CACHE_DURATION) later);
      destruct (Z.leb_spec later (now + CACHE_DURATION)); try lia; reflexivity.
Qed.

End Discovery.

(** ** Sign-in and sign-out *)

Section SignInOut.
Import AuthTypes AuthFlows.

(** A token that passed the truthiness test is the field itself. *)
Lemma token_present (t : option string) (x : string) :
  AuthService.token t = Some x -> t = Some x.
Proof.
  unfold AuthService.token. destruct t as [y|]; [|discriminate].
  destruct (String.eqb y ""); [discriminate|]. now intros [= ->].
Qed.

(** [value || ''] *)
Lemma orElse_empty (value : option string) :
  AuthService.orElse value ""
  = match value with Some x => x | None => "" end.
Proof.
  unfold AuthService.orElse. destruct value as [x|]; [|reflexivity].
  destruct (String.eqb_spec x ""); [now subst|reflexivity].
Qed.

(** The discovery warm-up touches no key but the cache's. *)
Lemma warmUp_keeps_session
    (now : Z) (cfg : DiscoveryService.AppConfig)
    (describe : Settled (option string)) (cacheStored : bool) (w : Services) :
  AuthService.currentSession (auth (warmUp now cfg describe cacheStored w))
  = AuthService.currentSession (auth w) /\
  AuthService.refreshTimer (auth (warmUp now cfg describe cacheStored w))
  = AuthService.refreshTimer (auth w) /\
  forall k : string,
    k <> CACHE_KEY ->
    AuthService.localStorage (auth (warmUp now cfg describe cacheStored w)) !! k
    = AuthService.localStorage (auth w) !! k.
Proof.
  split; [reflexivity|]. split; [reflexivity|].
  intros k Hk. unfold warmUp. cbn [auth AuthService.localStorage].
  unfold DiscoveryService.getDefaultConfiguration.
  pose proof (getCachedResults_other_keys now
                (AuthService.localStorage (auth w)) k Hk) as Hget.
  destruct (DiscoveryService.getCachedResults now
              (AuthService.localStorage (auth w))) as [cached ls].
  cbn [snd] in Hget.
  destruct (DiscoveryService.usableCache cached) as [[e b]|];
    [exact Hget|].
  destruct (DiscoveryService.discoverIoTEndpoint now (auth w) describe
              (discovery w)) as [[[endpoint|err] ds'] sent];
    cbn [DiscoveryService.storage]; [|exact Hget].
  unfold DiscoveryService.setCachedResults.
  destruct cacheStored; [|exact Hget].
  rewrite lookup_insert_ne by congruence. exact Hget.
Qed.

(** A sign-in that is rejected has changed nothing in either service,
    and its error carries one of the six fixed messages. *)
Theorem signIn_rejection_changes_nothing
    (now : Z) (username : string)
    (response : Settled AuthService.InitiateAuthResponse)
    (getUser : Settled AuthService.GetUserResponse)
    (sessionStored : bool) (cfg : DiscoveryService.AppConfig)
    (describe : Settled (option string)) (cacheStored : bool)
    (w : Services) (error : Thrown) :
  fst (signIn now username response getUser sessionStored cfg describe
         cacheStored w) = Rejected error ->
  snd (signIn now username response getUser sessionStored cfg describe
         cacheStored w) = w /\
  exists text : string,
    error = ThrownError "Error" text /\
    In text [ "Invalid username or password";
              "User account not confirmed";
              "Password reset required";
              "User not found";
              "Too many requests. Please try again later";
              "Sign-in failed. Please try again" ].
Proof.
  assert (Hcatch : forall e, exists text : string,
             AuthService.signIn_catch e = ThrownError "Error" text /\
             In text [ "Invalid username or password";
                       "User account not confirmed";
                       "Password reset required";
                       "User not found";
                       "Too many requests. Please try again later";
                       "Sign-in failed. Please try again" ]).
  { intros [n m|]; unfold AuthService.signIn_catch.
    - repeat match goal with
             | |- context [String.eqb n ?x] => destruct (String.eqb n x)
             end;
        eexists; (split; [reflexivity|]); cbn; tauto.
    - eexists; (split; [reflexivity|]); cbn; tauto. }
  unfold signIn.
  destruct response as [r|e]; cbn [fst snd].
  - destruct (AuthService.response_AuthenticationResult r) as [ar|].
    + destruct (AuthService.token (AuthService.AccessToken ar)) as [access|];
        [destruct (AuthService.token (AuthService.IdToken ar)) as [id|]|];
        cbn [fst snd].
      * destruct (AuthService.createCognitoUser getUser) as [user|e];
          cbn [fst snd]; [discriminate|].
        intros [= <-]. split; [reflexivity | apply Hcatch].
      * intros [= <-]. split; [reflexivity | apply Hcatch].
      * intros [= <-]. split; [reflexivity | apply Hcatch].
    + destruct (AuthService.token (AuthService.response_ChallengeName r));
        cbn [fst snd]; [discriminate|].
      intros [= <-]. split; [reflexivity | apply Hcatch].
  - intros [= <-]. split; [reflexivity | apply Hcatch].
Qed.

Lemma signIn_rejection_changes_nothing_witness :
  let r := signIn 1700000000000 "alice" (Rejected wrongPassword)
             (Resolved aliceProfile) true euConfig
             (Resolved (Some euEndpoint)) true signedOut in
  fst r = Rejected (ThrownError "Error" "Invalid username or password") /\
  snd r = signedOut.
Proof.
  intros r.
  destruct (signIn_rejection_changes_nothing 1700000000000 "alice"
              (Rejected wrongPassword) (Resolved aliceProfile) true euConfig
              (Resolved (Some euEndpoint)) true signedOut
              (ThrownError "Error" "Invalid username or password"))
    as [H _]; [reflexivity|].
  split; [reflexivity | exact H].
Defined.

(** A sign-in that returns tokens has installed a session for the
    returned user, whatever the discovery warm-up did. The session
    holds the tokens of the response's authentication result (an
    absent refresh token becoming the empty text) and expires
    [(ExpiresIn || 3600) * 1000] milliseconds after the sign-in, with
    that result's [ExpiresIn]. Until then the service is authenticated
    and [getCurrentUser] returns that user, and when the session could
    be stored it is under the session key. *)
Theorem signIn_success_installs_session
    (now : Z) (username : string)
    (response : Settled AuthService.InitiateAuthResponse)
    (getUser : Settled AuthService.GetUserResponse)
    (sessionStored : bool) (cfg : DiscoveryService.AppConfig)
    (describe : Settled (option string)) (cacheStored : bool)
    (w : Services) (result : AuthResult) (access : string) :
  fst (signIn now username response getUser sessionStored cfg describe
         cacheStored w) = Resolved result ->
  accessToken result = Some access ->
  let w' := snd (signIn now username response getUser sessionStored cfg
                   describe cacheStored w) in
  exists sess : AuthSession,
    AuthService.currentSession (auth w') = Some sess /\
    session_user sess = user result /\
    session_accessToken sess = access /\
    idToken result = Some (session_idToken sess) /\
    (exists (r : AuthService.InitiateAuthResponse)
            (ar : AuthService.AuthenticationResult),
       response = Resolved r /\
       AuthService.response_AuthenticationResult r = Some ar /\
       AuthService.AccessToken ar = Some access /\
       AuthService.IdToken ar = Some (session_idToken sess) /\
       session_refreshToken sess
       = match AuthService.RefreshToken ar with
         | Some x => x
         | None => ""
         end /\
       session_expiresAt sess
       = now + match AuthService.ExpiresIn ar with
               | Some n => if n =? 0 then 3600 else n
               | None => 3600
               end * 1000) /\
    (sessionStored = true ->
     AuthService.localStorage (auth w') !! SESSION_KEY
     = Some (StoredSession sess)) /\
    forall later : Z,
      later < session_expiresAt sess ->
      AuthService.isAuthenticated later (auth w') = true /\
      fst (AuthService.getCurrentUser later (auth w')) = Some (user result).
Proof.
  unfold signIn.
  destruct response as [r|e]; cbn [fst snd]; [|discriminate].
  destruct (AuthService.response_AuthenticationResult r) as [ar|] eqn:Har.
  - destruct (AuthService.token (AuthService.AccessToken ar)) as [acc|]
      eqn:Hacc;
      [destruct (AuthService.token (AuthService.IdToken ar)) as [id|]
         eqn:Hid|];
      cbn [fst snd]; try discriminate.
    destruct (AuthService.createCognitoUser getUser) as [u|e];
      cbn [fst snd]; [|discriminate].
    intros [= <-]. cbn [accessToken user idToken]. intros [= <-].
    set (sess := newSession now ar acc id u).
    set (w1 := {| auth := adopt now sessionStored sess (auth w);
                  discovery := discovery w |}).
    destruct (warmUp_keeps_session now cfg describe cacheStored w1)
      as (Hcur & _ & Hkeys).
    assert (Hadopt : AuthService.currentSession (auth w1) = Some sess).
    { cbn. unfold adopt, AuthService.scheduleTokenRefresh,
        AuthService.storeSession.
      destruct sessionStored; cbn;
        destruct (AuthService.refreshTimer (auth w)); try reflexivity;
        destruct (_ >? 0); reflexivity. }
    exists sess. rewrite Hcur, Hadopt.
    split; [reflexivity|]. split; [reflexivity|]. split; [reflexivity|].
    split; [reflexivity|]. split.
    { exists r, ar. split; [reflexivity|]. split; [exact Har|].
      split; [now apply token_present|].
      split; [now apply token_present|].
      split; [apply orElse_empty | reflexivity]. }
    split.
    + intros ->. rewrite Hkeys by exact session_keys_differ.
      cbn. unfold adopt, AuthService.scheduleTokenRefresh,
        AuthService.storeSession. cbn.
      destruct (AuthService.refreshTimer (auth w));
        [apply lookup_insert_eq|].
      destruct (_ >? 0); apply lookup_insert_eq.
    + intros later Hlater.
      unfold AuthService.isAuthenticated, AuthService.getCurrentUser.
      rewrite Hcur, Hadopt. split; [now apply Z.ltb_lt|].
      replace (later >=? session_expiresAt sess) with false; [reflexivity|].
      symmetry. rewrite Z.geb_leb. apply Z.leb_gt. lia.
  - destruct (AuthService.token (AuthService.response_ChallengeName r));
      cbn [fst snd]; [|discriminate].
    intros [= <-]. cbn. discriminate.
Qed.

Lemma signIn_success_installs_session_witness :
  let w' := snd (signIn 1700000000000 "alice" (Resolved dayTokens)
                   (Resolved aliceProfile) true euConfig
                   (Rejected (ThrownError "NetworkError" "offline")) true
                   signedOut) in
  let sess := {| session_accessToken := "access-3";
                 session_idToken := "id-3";
                 session_refreshToken := "";
                 session_user := session_user hourSession;
                 session_expiresAt := 1700086400000 |} in
  AuthService.currentSession (auth w') = Some sess /\
  AuthService.localStorage (auth w') !! SESSION_KEY
  = Some (StoredSession sess) /\
  AuthService.isAuthenticated 1700086399999 (auth w') = true /\
  AuthService.isAuthenticated 1700086400000 (auth w') = false.
Proof.
  intros w' sess0.
  destruct (signIn_success_installs_session 1700000000000 "alice"
              (Resolved dayTokens) (Resolved aliceProfile) true euConfig
              (Rejected (ThrownError "NetworkError" "offline")) true signedOut
              {| user := session_user hourSession; challengeName := None;
                 session := None; accessToken := Some "access-3";
                 idToken := Some "id-3"; refreshToken := None |}
              "access-3")
    as (sess & H1 & H2 & H3 & H4 & (r & ar & Hr & Har & _ & _ & Hrt & Hexp)
        & H6 & H7);
    [vm_compute; reflexivity | reflexivity |].
  injection Hr as <-. injection Har as <-.
  injection H4 as H4. cbn in H2, Hrt, Hexp.
  assert (Hsess : sess = sess0).
  { destruct sess as [a i rt u e]. cbn in *. subst. reflexivity. }
  subst sess. fold w' in H1, H6, H7.
  split; [exact H1|]. split; [apply H6; reflexivity|].
  split; [apply H7; reflexivity|].
  vm_compute. reflexivity.
Defined.

Lemma construct_without_entry (later : Z) (storage : gmap string Stored) :
  storage !! SESSION_KEY = None ->
  AuthService.currentSession (AuthService.construct later storage) = None.
Proof.
  intros H. unfold AuthService.construct, AuthService.loadStoredSession.
  cbn [AuthService.localStorage]. now rewrite H.
Qed.

(** Signing out empties both services' storage whatever the remote
    sign-out did: no session in memory, no session and no discovery
    cache in storage, every other key untouched; nothing returns a
    user afterwards and a reload restores nothing. *)
Theorem signOut_clears_everything (remote : Settled unit) (w : Services) :
  let w' := snd (signOut remote w) in
  AuthService.currentSession (auth w') = None /\
  AuthService.refreshTimer (auth w') = None /\
  AuthService.localStorage (auth w') !! SESSION_KEY = None /\
  AuthService.localStorage (auth w') !! CACHE_KEY = None /\
  (forall k : string,
     k <> SESSION_KEY -> k <> CACHE_KEY ->
     AuthService.localStorage (auth w') !! k
     = AuthService.localStorage (auth w) !! k) /\
  forall later : Z,
    fst (AuthService.getCurrentUser later (auth w')) = None /\
    AuthService.isAuthenticated later (auth w') = false /\
    DiscoveryService.isCacheValid later (AuthService.localStorage (auth w'))
    = false /\
    AuthService.currentSession
      (AuthService.construct later (AuthService.localStorage (auth w')))
    = None.
Proof.
  intros w'. unfold w', signOut. cbn.
  unfold DiscoveryService.clearCache.
  assert (Hs : delete CACHE_KEY
                 (delete SESSION_KEY (AuthService.localStorage (auth w)))
               !! SESSION_KEY = None).
  { rewrite lookup_delete_ne by (intros H; discriminate H).
    apply lookup_delete_eq. }
  split; [reflexivity|]. split; [reflexivity|]. split; [exact Hs|].
  split; [apply lookup_delete_eq|]. split.
  { intros k H1 H2.
    rewrite !lookup_delete_ne
      by (intros E; symmetry in E; contradiction).
    reflexivity. }
  intros later. split; [reflexivity|]. split; [reflexivity|]. split.
  - unfold DiscoveryService.isCacheValid, DiscoveryService.getCachedResults.
    now rewrite lookup_delete_eq.
  - now apply construct_without_entry.
Qed.

Lemma signOut_clears_everything_witness :
  let w := {| auth :=
                AuthService.storeSession true hourSession
                  {| AuthService.currentSession := Some hourSession;
                     AuthService.refreshTimer := Some 3300000;
                     AuthService.localStorage :=
                       {[ "theme" := StoredText "dark" ]} |};
              discovery := DiscoveryService.newDiscoveryService |} in
  let w' := snd (signOut (Rejected (ThrownError "NetworkError" "offline")) w) in
  AuthService.localStorage (auth w) !! SESSION_KEY
  = Some (StoredSession hourSession) /\
  AuthService.localStorage (auth w') !! SESSION_KEY = None /\
  AuthService.localStorage (auth w') !! "theme" = Some (StoredText "dark") /\
  AuthService.isAuthenticated 1700000000000 (auth w') = false.
Proof.
  intros w w'.
  destruct (signOut_clears_everything
              (Rejected (ThrownError "NetworkError" "offline")) w)
    as (_ & _ & H3 & _ & H5 & H6).
  split; [vm_compute; reflexivity|]. split; [exact H3|]. split.
  - unfold w'. rewrite H5 by discriminate. vm_compute. reflexivity.
  - apply (H6 1700000000000).
Defined.

End SignInOut.

(** ** The S3 service and the image loader *)

Section Images.
Import S3Context RealS3Service.

(** Whatever the object store answers, a listing that returns holds at
    most one object, the one under the fixed key, is never truncated,
    and reports as total count the number of objects it holds. *)
Theorem listImages_at_most_latest
    (initialized : bool) (response : Result ObjectOutput)
    (signed : Result string) (res : S3ListResult) :
  listImages initialized response signed = Returned res ->
  totalCount res = Z.of_nat (length (objects res)) /\
  (length (objects res) <= 1)%nat /\
  isTruncated res = false /\
  Forall (fun o => S3Context.key o = latestKey) (objects res).
Proof.
  unfold listImages, listImages_catch, generateSignedUrl.
  destruct initialized; cbn [negb]; [|discriminate].
  destruct response as [r|e].
  - destruct (LastModified r) as [modified|].
    + destruct signed as [u|e].
      * intros [= <-]. cbn. repeat split; auto.
      * destruct (nameIs _ "NoSuchKey"); [|discriminate].
        intros [= <-]. cbn. repeat split; auto.
    + intros [= <-]. cbn. repeat split; auto.
  - destruct (nameIs e "NoSuchKey"); [|discriminate].
    intros [= <-]. cbn. repeat split; auto.
Qed.

Lemma listImages_at_most_latest_witness :
  exists res : S3ListResult,
    listImages true (Returned sampleOutput) (Returned "https://signed")
    = Returned res /\
    totalCount res = 1 /\
    (length (objects res) <= 1)%nat /\
    isTruncated res = false.
Proof.
  eexists. split; [reflexivity|].
  destruct (listImages_at_most_latest true (Returned sampleOutput)
              (Returned "https://signed") _ eq_refl) as (H1 & H2 & H3 & _).
  split; [exact H1|]. split; [exact H2 | exact H3].
Defined.

End Images.

Section ImageLoading.
Import S3Context RealS3Service.

(** An object that does not exist is not an error: a [NoSuchKey]
    answer gives an empty listing and null metadata. A [NotFound]
    answer gives null metadata too, but the listing throws on it. *)
Theorem missing_object_is_not_an_error
    (error : ErrorObject) (signed : Result string) :
  (nameIs error "NoSuchKey" = true ->
   listImages true (Raised error) signed = Returned noImages /\
   getLatestImageMetadata true (Raised error) = Returned None) /\
  (nameIs error "NotFound" = true ->
   getLatestImageMetadata true (Raised error) = Returned None /\
   exists e : S3Error, listImages true (Raised error) signed
                       = Raised (thrownS3Error e)).
Proof.
  split; intros H.
  - unfold listImages, listImages_catch, getLatestImageMetadata.
    cbn [negb]. now rewrite H.
  - unfold listImages, listImages_catch, getLatestImageMetadata.
    cbn [negb]. rewrite H, orb_true_r. split; [reflexivity|].
    assert (Hn : nameIs error "NoSuchKey" = false).
    { unfold nameIs in *. destruct (name error) as [x|]; [|reflexivity].
      apply String.eqb_eq in H. now subst x. }
    rewrite Hn. eexists. reflexivity.
Qed.

Lemma missing_object_is_not_an_error_witness :
  let missing name :=
    {| isError := true; name := Some name; Code := None;
       message := Some "The specified key does not exist.";
       httpStatusCode := Some 404; throttling := None |} in
  listImages true (Raised (missing "NoSuchKey")) (Returned "")
  = Returned noImages /\
  getLatestImageMetadata true (Raised (missing "NotFound")) = Returned None /\
  exists e : S3Error,
    listImages true (Raised (missing "NotFound")) (Returned "")
    = Raised (thrownS3Error e).
Proof.
  intros missing.
  destruct (missing_object_is_not_an_error (missing "NoSuchKey") (Returned ""))
    as [H1 _].
  destruct (missing_object_is_not_an_error (missing "NotFound") (Returned ""))
    as [_ H2].
  split; [apply H1; reflexivity|]. apply H2. reflexivity.
Defined.

(** The service throws plain [S3Error] objects, which are not [Error]
    instances: whatever goes wrong in an initialized service while
    listing, the S3 context stores the fixed text "Failed to load
    images" and not the service's message. *)
Theorem s3_failures_show_fixed_text
    (response : Result ObjectOutput) (signed : Result string)
    (error : ErrorObject)
    (now : Z) (auth : AwsAuth) (state : S3State)
    (bucketName : option string) (showLoading : bool) :
  listImages true response signed = Raised error ->
  isError error = false /\
  let r := loadImages auth state bucketName showLoading
             (settled (listImages true response signed)) in
  (fetched r <> [] ->
   S3Context.error (settle now state r) = Some "Failed to load images").
Proof.
  intros Hlist.
  assert (Hplain : isError error = false).
  { unfold listImages, listImages_catch, generateSignedUrl in Hlist.
    cbn [negb] in Hlist.
    destruct response as [r|e].
    - destruct (LastModified r); [|discriminate].
      destruct signed as [u|e]; [discriminate|].
      destruct (nameIs _ "NoSuchKey"); [discriminate|].
      now injection Hlist as <-.
    - destruct (nameIs e "NoSuchKey"); [discriminate|].
      now injection Hlist as <-. }
  split; [exact Hplain|].
  rewrite Hlist. unfold settled, caught. rewrite Hplain.
  unfold loadImages.
  destruct (match truthy bucketName with
            | Some b => Some b
            | None => truthy (selectedBucket state)
            end) as [bucket|]; [|intros H; now elim H].
  destruct (negb (isAuthenticated auth) || negb (hasCredentials auth));
    [intros H; now elim H|].
  intros _. destruct showLoading; reflexivity.
Qed.

Lemma s3_failures_show_fixed_text_witness :
  let denied :=
    Raised {| isError := true; name := Some "AccessDenied"; Code := None;
              message := Some "Access Denied"; httpStatusCode := Some 403;
              throttling := None |} in
  let r := loadImages signedIn initialState (Some "bucket") true
             (settled (listImages true denied (Returned ""))) in
  fetched r = ["bucket"] /\
  S3Context.error (settle 0 initialState r) = Some "Failed to load images".
Proof.
  intros denied r. split; [reflexivity|].
  destruct (s3_failures_show_fixed_text denied (Returned "") _ 0 signedIn
              initialState (Some "bucket") true eq_refl) as [_ H].
  apply H. discriminate.
Defined.

(** A load never leaves the spinner on: whatever the guards and the
    listing do, the state it settles in is neither loading nor
    refreshing. And it only ever calls the service for a signed-in
    user holding credentials, once, on a bucket with a name. *)
Theorem loadImages_settles
    (now : Z) (auth : AwsAuth) (state : S3State)
    (bucketName : option string) (showLoading : bool)
    (listing : Settled S3ListResult) :
  let r := loadImages auth state bucketName showLoading listing in
  loading (settle now state r) = false /\
  refreshing (settle now state r) = false /\
  (fetched r = [] \/
   exists bucket : string,
     fetched r = [bucket] /\ bucket <> "" /\
     isAuthenticated auth = true /\ hasCredentials auth = true) /\
  (S3Context.error (settle now state r) = None ->
   exists result, listing = Resolved result /\
                  images (settle now state r) = objects result /\
                  lastUpdated (settle now state r) = Some now).
Proof.
  intros r. unfold r, loadImages.
  destruct (match truthy bucketName with
            | Some b => Some b
            | None => truthy (selectedBucket state)
            end) as [bucket|] eqn:Hb.
  - destruct (isAuthenticated auth), (hasCredentials auth); cbn [negb orb].
    + assert (Hne : bucket <> "").
      { unfold truthy in Hb.
        destruct bucketName as [x|].
        - destruct (String.eqb_spec x "").
          + destruct (selectedBucket state) as [y|]; [|discriminate].
            destruct (String.eqb_spec y ""); [discriminate|]. congruence.
          + congruence.
        - destruct (selectedBucket state) as [y|]; [|discriminate].
          destruct (String.eqb_spec y ""); [discriminate|]. congruence. }
      destruct listing as [result|e]; destruct showLoading; cbn;
        (split; [reflexivity|]); (split; [reflexivity|]);
        (split; [right; exists bucket; auto|]);
        first [ intros _; eexists; repeat split; reflexivity
              | intros H; discriminate H ].
    + cbn. repeat split; auto. intros H; discriminate H.
    + cbn. repeat split; auto. intros H; discriminate H.
    + cbn. repeat split; auto. intros H; discriminate H.
  - cbn. repeat split; auto. intros H; discriminate H.
Qed.

Lemma loadImages_settles_witness :
  let s0 := dispatchAll 0 initialState [SET_SELECTED_BUCKET (Some "bucket")] in
  let r := loadImages signedIn s0 None true oneImage in
  fetched r = ["bucket"] /\
  loading (settle 10000 s0 r) = false /\
  exists result,
    oneImage = Resolved result /\
    images (settle 10000 s0 r) = objects result /\
    lastUpdated (settle 10000 s0 r) = Some 10000.
Proof.
  intros s0 r.
  destruct (loadImages_settles 10000 signedIn s0 None true oneImage)
    as (H1 & _ & _ & H4).
  split; [reflexivity|]. split; [exact H1|].
  apply H4. reflexivity.
Defined.

(** Polling fetches only on change. Once an image with entity tag [e]
    has been loaded for the selected bucket, a poll tick that sees the
    same tag, or no object, or an error, does nothing at all; a tick
    that sees another tag reloads the bucket once, as a background
    refresh. *)
Theorem poll_fetches_only_on_change
    (now : Z) (state : S3State) (bucket e : string)
    (image : S3Object) (others : list S3Object) (more : bool) (total : Z)
    (listing : Settled S3ListResult) :
  selectedBucket state = Some bucket ->
  bucket <> "" ->
  etag image = Some e ->
  e <> "" ->
  let loaded :=
    settle now state
      (loadImages signedIn state None true
         (Resolved {| objects := image :: others; isTruncated := more;
                      totalCount := total |})) in
  (forall modified : Z,
     pollTick signedIn loaded
       (Resolved (Some {| meta_lastModified := modified; meta_etag := e |}))
       listing
     = {| dispatched := []; fetched := [] |}) /\
  pollTick signedIn loaded (Resolved None) listing
  = {| dispatched := []; fetched := [] |} /\
  (forall error : Thrown,
     pollTick signedIn loaded (Rejected error) listing
     = {| dispatched := []; fetched := [] |}) /\
  (forall (modified : Z) (e' : string),
     e' <> e ->
     let r := pollTick signedIn loaded
                (Resolved (Some {| meta_lastModified := modified;
                                   meta_etag := e' |}))
                listing in
     fetched r = [bucket] /\
     hd_error (dispatched r) = Some (SET_REFRESHING true)).
Proof.
  intros Hb Hne He Hene loaded.
  assert (Hload : lastImageEtag loaded = Some e /\
                  selectedBucket loaded = Some bucket).
  { unfold loaded, loadImages. cbn [truthy]. rewrite Hb. cbn [truthy].
    destruct (String.eqb_spec bucket ""); [contradiction|].
    cbn. rewrite He, Hb.
    destruct (String.eqb_spec e ""); [contradiction|]. now split. }
  destruct Hload as [Htag Hsel].
  assert (Hpoll : polling signedIn loaded = true).
  { unfold polling. rewrite Hsel. cbn [truthy].
    destruct (String.eqb_spec bucket ""); [contradiction | reflexivity]. }
  split; [|split; [|split]].
  - intros modified. unfold pollTick, etagChanged. rewrite Hpoll, Htag.
    cbn [meta_etag]. now rewrite String.eqb_refl.
  - unfold pollTick. now rewrite Hpoll.
  - intros error. unfold pollTick. now rewrite Hpoll.
  - intros modified e' Hdiff r. unfold r, pollTick, etagChanged.
    rewrite Hpoll, Htag. cbn [meta_etag].
    destruct (String.eqb_spec e' e); [contradiction|]. cbn [negb].
    unfold loadImages. cbn [truthy]. rewrite Hsel. cbn [truthy].
    destruct (String.eqb_spec bucket ""); [contradiction|].
    cbn. destruct listing; split; reflexivity.
Qed.

Lemma poll_fetches_only_on_change_witness :
  let s0 := dispatchAll 0 initialState [SET_SELECTED_BUCKET (Some "bucket")] in
  let loaded := settle 10000 s0 (loadImages signedIn s0 None true oneImage) in
  pollTick signedIn loaded
    (Resolved (Some {| meta_lastModified := 9000; meta_etag := "v1" |}))
    oneImage
  = {| dispatched := []; fetched := [] |} /\
  fetched (pollTick signedIn loaded
             (Resolved (Some {| meta_lastModified := 9500;
                                meta_etag := "v2" |}))
             oneImage)
  = ["bucket"].
Proof.
  intros s0 loaded.
  destruct (poll_fetches_only_on_change 10000 s0 "bucket" "v1" latestImage
              [] false 1 oneImage)
    as (Hsame & _ & _ & Hother);
    [reflexivity | discriminate | reflexivity | discriminate |].
  split; [apply Hsame|].
  apply (Hother 9500 "v2"). discriminate.
Defined.

(** Credentials come from the auth service: when its session has
    expired the hook hands out none, even if the auth context still
    says authenticated, and then neither a load nor a poll tick
    reaches the object store. *)
Theorem expired_session_blocks_s3
    (now : Z) (ctx : AuthContext.AuthStateType)
    (svc : AuthService.AuthService) (state : S3State)
    (bucketName : option string) (showLoading : bool)
    (metadata : Settled (option ImageMetadata))
    (listing : Settled S3ListResult) :
  AuthService.isAuthenticated now svc = false ->
  let aws := Hooks.useAuthenticatedAWS now ctx svc in
  hasCredentials aws = false /\
  fetched (loadImages aws state bucketName showLoading listing) = [] /\
  pollTick aws state metadata listing = {| dispatched := []; fetched := [] |}.
Proof.
  intros Hexp aws.
  assert (Hc : hasCredentials aws = false).
  { unfold aws, Hooks.useAuthenticatedAWS. cbn [hasCredentials].
    destruct (AuthContext.user ctx); [|reflexivity].
    unfold AuthService.getAWSCredentials. rewrite Hexp.
    destruct (AuthService.currentSession svc); cbn;
      now rewrite andb_false_r. }
  split; [exact Hc|]. split.
  - unfold loadImages. rewrite Hc.
    destruct (match truthy bucketName with
              | Some b => Some b
              | None => truthy (selectedBucket state)
              end); [|reflexivity].
    now rewrite orb_true_r.
  - unfold pollTick, polling. rewrite Hc.
    destruct (truthy (selectedBucket state)); [|reflexivity].
    now rewrite andb_false_r.
Qed.

Lemma expired_session_blocks_s3_witness :
  let ctx := AuthContext.dispatchAll AuthContext.initialState
               [AuthContext.SET_AUTHENTICATED (session_user aliceSession)] in
  let aws := Hooks.useAuthenticatedAWS 1000 ctx aliceService in
  isAuthenticated aws = true /\
  hasCredentials aws = false /\
  fetched (loadImages aws initialState (Some "bucket") true oneImage) = [].
Proof.
  intros ctx aws.
  destruct (expired_session_blocks_s3 1000 ctx aliceService initialState
              (Some "bucket") true (Resolved None) oneImage)
    as (H1 & H2 & _); [reflexivity|].
  split; [reflexivity|]. split; [exact H1 | exact H2].
Defined.

End ImageLoading.

(** ** Invariants of the MQTT service *)

Section Preservation.
Import MqttService.

(** A property kept by each elementary update of the service is kept
    by every input. *)
Variable P : MqttService -> Prop.

Hypothesis P_set_connection :
  forall c s, P s -> P (set_connection c s).
Hypothesis P_reset_attempts :
  forall s, P s -> P (set_reconnectAttempts 0 s).
Hypothesis P_set_currentTopic :
  forall t s, P s -> P (set_currentTopic t s).
Hypothesis P_forget_timeout :
  forall s, P s -> P (set_reconnectTimeout None s).
Hypothesis P_set_isConnecting :
  forall b s, P s -> P (set_isConnecting b s).
Hypothesis P_set_manualDisconnect :
  forall b s, P s -> P (set_manualDisconnect b s).
Hypothesis P_new_handle :
  forall s, P s -> P (set_nextId (S (nextId s)) s).
Hypothesis P_emit :
  forall e s, isStatusNotified e = false -> P s -> P (emit e s).
Hypothesis P_setConnectionStatus :
  forall st s, P s -> P (setConnectionStatus st s).
Hypothesis P_setTimeout :
  forall task delay s,
    isReconnectTask task = false -> P s -> P (snd (setTimeout task delay s)).
Hypothesis P_clearTimeout :
  forall id s, P s -> P (clearTimeout id s).
Hypothesis P_scheduleReconnect :
  forall topic s, P s -> P (scheduleReconnect topic s).

Lemma kept_by_clearReconnectTimeout (s : MqttService) :
  P s -> P (clearReconnectTimeout s).
Proof.
  intros H. unfold clearReconnectTimeout.
  destruct (reconnectTimeout s); auto.
Qed.

Lemma kept_by_subscribeToTopic (topic : string) (s : MqttService) :
  P s -> P (subscribeToTopic topic s).
Proof.
  intros H. unfold subscribeToTopic. destruct (connection s); auto.
Qed.

Lemma kept_by_connect (topic : string) (s : MqttService) :
  P s -> P (fst (connect topic s)).
Proof.
  intros H. unfold connect, connect_enter.
  destruct (isConnecting s); [exact H|].
  destruct (ConnectionStatus_eqb (connectionStatus s) CONNECTED); [exact H|].
  pose proof (kept_by_clearReconnectTimeout s H) as H1.
  unfold connect_resume. destruct (resolveCredentials _); cbn [fst].
  - apply P_setTimeout; [reflexivity|]. apply P_emit; [reflexivity|].
    apply P_set_connection.
    match goal with
    | |- P (set_nextId (S (nextId ?x)) ?y) =>
        change (P (set_nextId (S (nextId y)) y))
    end.
    auto 10.
  - auto 10.
Qed.

Lemma kept_by_disconnect (u d : bool) (s : MqttService) :
  P s -> P (disconnect u d s).
Proof.
  intros H. unfold disconnect. apply P_setConnectionStatus.
  pose proof (kept_by_clearReconnectTimeout _ (P_set_manualDisconnect true s H))
    as H1.
  pose proof (P_reset_attempts _ H1) as H2.
  cbv zeta.
  destruct (connection _); [|exact H2].
  destruct (negb (String.eqb _ "")); cbn [andb];
    [destruct (negb u)|]; try destruct (negb d); auto 10.
Qed.

Lemma kept_by_runTask (task : TimerTask) (s : MqttService) :
  P s -> P (runTask task s).
Proof.
  intros H. destruct task; cbn [runTask].
  - apply kept_by_connect. auto.
  - destruct (_ && _); auto.
  - destruct (ConnectionStatus_eqb _ _); auto 10.
  - now apply kept_by_subscribeToTopic.
  - unfold simulateWelcomeMessage. auto.
Qed.

Lemma kept_by_step (s : MqttService) (i : Input) : P s -> P (step s i).
Proof.
  intros H. destruct i; cbn [step].
  - now apply kept_by_connect.
  - now apply kept_by_disconnect.
  - unfold onConnect. apply kept_by_subscribeToTopic. auto 10.
  - unfold onInterrupt. auto.
  - unfold onResume. auto.
  - unfold onDisconnect. cbv zeta.
    destruct (negb _); [|auto].
    destruct (Nat.eqb _ 0); auto 10.
  - unfold onError. cbv zeta. destruct (_ && _); auto 10.
  - unfold onConnectResolved.
    destruct (negb _); [|exact H].
    apply kept_by_subscribeToTopic. auto 10.
  - unfold onConnectRejected. auto.
  - unfold subscribeSettled. destruct ok; auto.
  - unfold fireTimer. destruct (List.find _ _); [|exact H].
    apply kept_by_runTask. auto.
Qed.

Lemma kept_by_run (inputs : list Input) :
  forall s : MqttService, P s -> P (run s inputs).
Proof.
  induction inputs as [|i rest IH]; intros s H; [exact H|].
  unfold run. cbn [fold_left]. apply IH. now apply kept_by_step.
Qed.

End Preservation.

Section ServiceInvariants.
Import MqttService.

(** *** The reconnect counter never passes the cap *)

Lemma scheduleReconnect_bounded (topic : string) (s : MqttService) :
  attemptsBounded s -> attemptsBounded (scheduleReconnect topic s).
Proof.
  intros H. unfold attemptsBounded in *.
  destruct (Nat.leb_spec maxReconnectAttempts (reconnectAttempts s)) as [Hge|Hlt].
  - destruct (scheduleReconnect_cap topic s Hge) as (-> & _). exact H.
  - destruct (scheduleReconnect_backoff topic s Hlt) as (-> & _). exact Hlt.
Qed.

(** *** Timer ids are fresh and unique *)

Lemma NoDup_map_filter {A B : Type} (f : A -> B) (g : A -> bool) (l : list A) :
  List.NoDup (map f l) -> List.NoDup (map f (List.filter g l)).
Proof.
  induction l as [|x l IH]; intros H; [exact H|].
  cbn in *. inversion H as [|y ys Hnotin Hnd]; subst.
  destruct (g x); [|now apply IH].
  cbn. constructor; [|now apply IH].
  intros Hin. apply Hnotin. apply in_map_iff in Hin as (z & Hz & Hzin).
  apply filter_In in Hzin as [Hzin _]. apply in_map_iff. eauto.
Qed.

Lemma fresh_setTimeout (task : TimerTask) (delay : Z) (s : MqttService) :
  timersFresh s -> timersFresh (snd (setTimeout task delay s)).
Proof.
  intros [Hnd Hlt]. unfold timersFresh. cbn. split.
  - rewrite map_app. cbn. apply List.NoDup_app.
    + exact Hnd.
    + repeat constructor. intros [].
    + intros x Hx [<-|[]]. apply in_map_iff in Hx as (t & Hid & Hin).
      rewrite List.Forall_forall in Hlt. specialize (Hlt t Hin). lia.
  - apply List.Forall_app. split.
    + eapply List.Forall_impl; [|exact Hlt]. cbn. intros t Ht. lia.
    + repeat constructor.
Qed.

Lemma fresh_clearTimeout (id : nat) (s : MqttService) :
  timersFresh s -> timersFresh (clearTimeout id s).
Proof.
  intros [Hnd Hlt]. unfold timersFresh. cbn. split.
  - now apply NoDup_map_filter.
  - rewrite List.Forall_forall in *. intros t Ht.
    apply filter_In in Ht as [Ht _]. now apply Hlt.
Qed.

Lemma fresh_new_handle (s : MqttService) :
  timersFresh s -> timersFresh (set_nextId (S (nextId s)) s).
Proof.
  intros [Hnd Hlt]. split; [exact Hnd|]. cbn.
  eapply List.Forall_impl; [|exact Hlt]. cbn. intros t Ht. lia.
Qed.

Lemma fresh_scheduleReconnect (topic : string) (s : MqttService) :
  timersFresh s -> timersFresh (scheduleReconnect topic s).
Proof.
  intros H. unfold scheduleReconnect.
  destruct (_ <=? _)%nat; [exact H|].
  assert (H1 : timersFresh (clearReconnectTimeout s)).
  { unfold clearReconnectTimeout. destruct (reconnectTimeout s); [|exact H].
    exact (fresh_clearTimeout _ s H). }
  cbv zeta.
  match goal with
  | |- timersFresh (let '(id, s0) := setTimeout ?task ?d ?x in _) =>
      exact (fresh_setTimeout task d x H1)
  end.
Qed.

(** *** Backoff delays *)

Lemma backoff_scheduleReconnect (topic : string) (s : MqttService) :
  backoffDelays s -> backoffDelays (scheduleReconnect topic s).
Proof.
  intros H.
  destruct (Nat.leb_spec maxReconnectAttempts (reconnectAttempts s)) as [Hge|Hlt].
  - destruct (scheduleReconnect_cap topic s Hge) as (_ & _ & Hp & _).
    intros t Ht. rewrite Hp in Ht. now apply H.
  - destruct (scheduleReconnect_backoff topic s Hlt) as (_ & _ & _ & Hp).
    intros t Ht Hr. rewrite Hp in Ht. apply in_app_or in Ht as [Ht|[<-|[]]].
    + apply H; [|exact Hr]. unfold clearReconnectTimeout in Ht.
      destruct (reconnectTimeout s); [|exact Ht].
      now apply clearTimeout_subset in Ht.
    + cbn [timer_delay]. unfold maxReconnectAttempts in Hlt.
      destruct (reconnectAttempts s) as [|[|[|n]]]; cbn; try tauto. lia.
Qed.

(** *** Every status change is announced *)

Lemma notifiedStatuses_emit (e : Effect) (s : MqttService) :
  notifiedStatuses (emit e s)
  = notifiedStatuses s
    ++ match e with StatusNotified st => [st] | _ => [] end.
Proof.
  unfold notifiedStatuses. cbn. rewrite flat_map_app. cbn.
  now rewrite app_nil_r.
Qed.

Lemma announced_setConnectionStatus (st : ConnectionStatus) (s : MqttService) :
  statusAnnounced (setConnectionStatus st s).
Proof.
  unfold statusAnnounced, setConnectionStatus.
  rewrite notifiedStatuses_emit. cbn. now rewrite last_last.
Qed.

Lemma announced_scheduleReconnect (topic : string) (s : MqttService) :
  statusAnnounced (scheduleReconnect topic s).
Proof.
  unfold scheduleReconnect.
  destruct (_ <=? _)%nat; [apply announced_setConnectionStatus|].
  cbv zeta.
  match goal with
  | |- statusAnnounced
         (let '(id, s0) := setTimeout ?task ?d (setConnectionStatus ?st ?x)
          in _) =>
      exact (announced_setConnectionStatus st x)
  end.
Qed.

End ServiceInvariants.

Section ServiceGuarantees.
Import MqttService.

(** In every state the service can reach, the reconnect counter is at
    most [maxReconnectAttempts]. *)
Theorem reconnect_attempts_never_exceed_cap
    (c : option Credentials) (inputs : list Input) :
  (reconnectAttempts (run (initialize c) inputs) <= 3)%nat.
Proof.
  apply (kept_by_run attemptsBounded); try (intros; assumption).
  - intros. unfold attemptsBounded, maxReconnectAttempts. cbn. lia.
  - intros. now apply scheduleReconnect_bounded.
  - unfold attemptsBounded, maxReconnectAttempts. cbn. lia.
Qed.

Lemma same_id_filter_short {A : Type} (f : A -> nat) (g : A -> bool)
    (a : nat) (l : list A) :
  List.NoDup (map f l) ->
  (forall x, In x (List.filter g l) -> f x = a) ->
  (length (List.filter g l) <= 1)%nat.
Proof.
  induction l as [|x l IH]; intros Hnd Hall; [cbn; lia|].
  cbn in *. inversion Hnd as [|y ys Hnotin Hnd']; subst.
  destruct (g x) eqn:Hg.
  - assert (Hempty : List.filter g l = []).
    { destruct (List.filter g l) as [|z zs] eqn:Hf; [reflexivity|].
      exfalso. apply Hnotin.
      assert (Hz : In z (List.filter g l)) by (rewrite Hf; now left).
      apply filter_In in Hz as [Hzin _].
      replace (f x) with (f z); [now apply in_map|].
      rewrite (Hall x (or_introl eq_refl)).
      apply Hall. right. now left. }
    rewrite Hempty. cbn. lia.
  - now apply IH.
Qed.

(** In every state the service can reach, at most one reconnect timer
    is pending; it is the one [reconnectTimeout] refers to, and its
    delay is 5, 10 or 20 seconds. *)
Theorem at_most_one_reconnect_timer
    (c : option Credentials) (inputs : list Input) :
  let s := run (initialize c) inputs in
  (length (reconnectTimers s) <= 1)%nat /\
  forall t : Timer,
    In t (reconnectTimers s) ->
    reconnectTimeout s = Some (timer_id t) /\
    In (timer_delay t) [5000; 10000; 20000].
Proof.
  intros s.
  pose proof (run_tracked c inputs) as Htr. fold s in Htr.
  assert (Hfresh : timersFresh s).
  { apply (kept_by_run timersFresh); try (intros; assumption).
    - intros. now apply fresh_new_handle.
    - intros. now apply fresh_setTimeout.
    - intros. now apply fresh_clearTimeout.
    - intros. now apply fresh_scheduleReconnect.
    - split; constructor. }
  assert (Hback : backoffDelays s).
  { apply (kept_by_run backoffDelays); try (intros; assumption).
    - intros task delay s0 Htask H t Ht Hr. cbn in Ht.
      apply in_app_or in Ht as [Ht|[<-|[]]]; [now apply H|].
      unfold isReconnectTimer in Hr. unfold isReconnectTask in Htask.
      cbn in Hr. congruence.
    - intros id s0 H t Ht Hr.
      apply clearTimeout_subset in Ht as [Ht _]. now apply H.
    - intros. now apply backoff_scheduleReconnect.
    - intros t []. }
  assert (Hall : forall t, In t (reconnectTimers s) ->
                           reconnectTimeout s = Some (timer_id t) /\
                           In (timer_delay t) [5000; 10000; 20000]).
  { intros t Ht. apply filter_In in Ht as [Hin Hr].
    split; [now apply Htr | now apply Hback]. }
  split; [|exact Hall].
  destruct (reconnectTimeout s) as [rid|] eqn:Hrid.
  - apply (same_id_filter_short timer_id isReconnectTimer rid);
      [apply Hfresh|].
    intros t Ht. destruct (Hall t Ht) as [Hid _]. congruence.
  - destruct (reconnectTimers s) as [|t ts] eqn:Hts; [cbn; lia|].
    destruct (Hall t (or_introl eq_refl)) as [Hid _]. discriminate.
Qed.

Lemma at_most_one_reconnect_timer_witness :
  let s := run (initialize creds)
             [CallConnect "t"; ConnectEvent "t"; ErrorEvent "t" socketError] in
  reconnectTimers s = [mkTimer 3 5000 (ReconnectTask "t")] /\
  reconnectTimeout s = Some 3%nat.
Proof.
  intros s.
  destruct (at_most_one_reconnect_timer creds
              [CallConnect "t"; ConnectEvent "t"; ErrorEvent "t" socketError])
    as [_ H].
  split; [reflexivity|].
  destruct (H (mkTimer 3 5000 (ReconnectTask "t"))) as [H1 _];
    [vm_compute; left; reflexivity | exact H1].
Defined.

Lemma last_cons_default {A : Type} (l : list A) :
  forall x d : A, List.last (x :: l) d = List.last l x.
Proof.
  induction l as [|y ys IH]; intros x d; [reflexivity|].
  change (List.last (x :: y :: ys) d) with (List.last (y :: ys) d).
  now rewrite !IH.
Qed.

Lemma replayStatuses_last
    (statuses : list ConnectionStatus) (state : MqttContext.MqttState) :
  MqttContext.connectionStatus (MqttContext.replayStatuses statuses state)
  = List.last statuses (MqttContext.connectionStatus state) /\
  (MqttContext.connected state
   = ConnectionStatus_eqb (MqttContext.connectionStatus state) CONNECTED ->
   MqttContext.connected (MqttContext.replayStatuses statuses state)
   = ConnectionStatus_eqb
       (List.last statuses (MqttContext.connectionStatus state)) CONNECTED).
Proof.
  revert state. induction statuses as [|st rest IH]; intros state.
  - split; [reflexivity | auto].
  - destruct (IH (MqttContext.handleStatusChange state st)) as [H1 H2].
    unfold MqttContext.replayStatuses in *. cbn [fold_left].
    rewrite last_cons_default. split; [exact H1|]. intros _. now apply H2.
Qed.

(** The service announces every status change: in every state it can
    reach its status is the last one announced. A context that runs
    its status handler on each announcement, starting from its initial
    state, therefore shows the service's status, with [connected] set
    exactly when the service is [CONNECTED]. *)
Theorem context_mirrors_service_status
    (c : option Credentials) (inputs : list Input) :
  let s := run (initialize c) inputs in
  let shown := MqttContext.replayStatuses (notifiedStatuses s)
                 MqttContext.initialState in
  connectionStatus s = List.last (notifiedStatuses s) DISCONNECTED /\
  MqttContext.connectionStatus shown = connectionStatus s /\
  MqttContext.connected shown
  = ConnectionStatus_eqb (connectionStatus s) CONNECTED.
Proof.
  intros s shown.
  assert (Hann : statusAnnounced s).
  { apply (kept_by_run statusAnnounced); try (intros; assumption).
    - intros e s0 He H. unfold statusAnnounced in *.
      rewrite notifiedStatuses_emit.
      destruct e; try discriminate; now rewrite app_nil_r.
    - intros. apply announced_setConnectionStatus.
    - intros. apply announced_scheduleReconnect.
    - reflexivity. }
  unfold statusAnnounced in Hann.
  destruct (replayStatuses_last (notifiedStatuses s) MqttContext.initialState)
    as [H1 H2].
  split; [exact Hann|]. fold shown in H1, H2.
  split; [rewrite H1, Hann; reflexivity|].
  rewrite H2 by reflexivity. now rewrite Hann.
Qed.

End ServiceGuarantees.

(** ** Errors, credentials and publishing *)

Section ServiceErrors.
Import MqttService.

Lemma prefix_occurs (needle hay : string) :
  String.prefix needle hay = true <->
  exists after : string, hay = String.append needle after.
Proof.
  revert hay. induction needle as [|a needle IH]; intros hay.
  - split; [intros _; exists hay; reflexivity | destruct hay; reflexivity].
  - destruct hay as [|b hay]; cbn.
    + split; [discriminate | intros [after H]; discriminate].
    + destruct (Ascii.ascii_dec a b) as [->|Hne].
      * rewrite IH. split; intros [after H]; exists after.
        -- now rewrite H.
        -- now injection H.
      * split; [discriminate|]. intros [after H]. injection H as H1 _.
        congruence.
Qed.

(** [includes] finds exactly the occurrences of the needle. *)
Lemma includes_occurs (hay needle : string) :
  includes hay needle = true <-> occursIn needle hay.
Proof.
  induction hay as [|b hay IH].
  - cbn [includes]. destruct (String.prefix needle "") eqn:Hp.
    + split; [|reflexivity]. intros _.
      apply prefix_occurs in Hp as [after H]. exists "", after. exact H.
    + split; [discriminate|]. intros (before & after & H).
      destruct before; cbn in H.
      * assert (String.prefix needle "" = true)
          by (apply prefix_occurs; eauto). congruence.
      * discriminate.
  - cbn [includes]. destruct (String.prefix needle (String b hay)) eqn:Hp.
    + split; [|reflexivity]. intros _.
      apply prefix_occurs in Hp as [after H]. exists "", after. exact H.
    + rewrite IH. split.
      * intros (before & after & H). exists (String b before), after.
        cbn. now rewrite H.
      * intros (before & after & H). destruct before as [|b' before].
        -- cbn in H.
           assert (String.prefix needle (String b hay) = true)
             by (apply prefix_occurs; eauto). congruence.
        -- cbn in H. injection H as _ H. exists before, after. exact H.
Qed.

(** An error is refused a retry exactly when one of the eight markers
    occurs in its code (or, failing a code, its name) or in its
    message. *)
Theorem isRetryableError_denylist (error : TransportError) :
  isRetryableError error = false <->
  exists marker : string,
    In marker nonRetryableErrors /\
    (occursIn marker
       (truthy_or (code error) (truthy_or (name error) "")) \/
     occursIn marker (truthy_or (message error) "")).
Proof.
  unfold isRetryableError. rewrite negb_false_iff, existsb_exists.
  split; intros (marker & Hin & H); exists marker; (split; [exact Hin|]).
  - apply orb_true_iff in H. now rewrite <- !includes_occurs.
  - apply orb_true_iff. now rewrite !includes_occurs.
Qed.

Lemma isRetryableError_denylist_witness :
  isRetryableError
    (mkTransportError None (Some "Error")
       (Some "connect ECONNREFUSED 10.0.0.1:443")) = false /\
  isRetryableError socketError = true.
Proof.
  split; [|reflexivity].
  apply (proj2 (isRetryableError_denylist
                  (mkTransportError None (Some "Error")
                     (Some "connect ECONNREFUSED 10.0.0.1:443")))).
  exists "ECONNREFUSED". split; [cbn; tauto|].
  right. exists "connect ", " 10.0.0.1:443". reflexivity.
Defined.

(** A non-retryable error, or any error after a manual disconnect,
    only marks the service failed: nothing is scheduled and the
    counter is not touched. A retryable one, the manual flag being
    clear, goes through [scheduleReconnect]. *)
Theorem onError_retries_only_retryable
    (topic : string) (error : TransportError) (s : MqttService) :
  let failed := setConnectionStatus ERROR (set_isConnecting false s) in
  (isRetryableError error = false \/ manualDisconnect s = true ->
   onError topic error s = failed /\
   pendingTimers (onError topic error s) = pendingTimers s /\
   reconnectAttempts (onError topic error s) = reconnectAttempts s /\
   connectionStatus (onError topic error s) = ERROR) /\
  (isRetryableError error = true -> manualDisconnect s = false ->
   onError topic error s = scheduleReconnect topic failed).
Proof.
  intros failed. unfold onError. cbn. split.
  - intros [H|H]; rewrite H; rewrite ?andb_false_r; cbn; repeat split.
  - intros H1 H2. now rewrite H1, H2.
Qed.

Lemma onError_retries_only_retryable_witness :
  let s := run (initialize creds) [CallConnect "t"; ConnectEvent "t"] in
  let forbidden :=
    mkTransportError (Some "FORBIDDEN") None (Some "403 Forbidden") in
  isRetryableError forbidden = false /\
  pendingTimers (onError "t" forbidden s) = pendingTimers s /\
  connectionStatus (onError "t" forbidden s) = ERROR /\
  reconnectTimers (onError "t" socketError s)
  = [mkTimer 3 5000 (ReconnectTask "t")].
Proof.
  intros s forbidden.
  destruct (onError_retries_only_retryable "t" forbidden s) as [Hno _].
  destruct Hno as (_ & Hp & _ & Hst); [left; reflexivity|].
  destruct (onError_retries_only_retryable "t" socketError s) as [_ Hyes].
  split; [reflexivity|]. split; [exact Hp|]. split; [exact Hst|].
  rewrite Hyes by reflexivity. reflexivity.
Defined.

(** Without an access key and a secret key [connect] never reaches the
    transport: it rejects, leaves the status [ERROR] and the
    in-progress flag down, so that a later call is not turned away,
    and arms no watchdog. *)
Theorem connect_needs_credentials (topic : string) (s : MqttService) :
  resolveCredentials s = None ->
  isConnecting s = false ->
  connectionStatus s <> CONNECTED ->
  snd (connect topic s) = true /\
  connectionStatus (fst (connect topic s)) = ERROR /\
  isConnecting (fst (connect topic s)) = false /\
  connection (fst (connect topic s)) = connection s /\
  transportCount (fst (connect topic s)) = transportCount s /\
  pendingTimers (fst (connect topic s))
  = pendingTimers (clearReconnectTimeout s).
Proof.
  intros Hcred Hc Hst. unfold connect, connect_enter. rewrite Hc.
  replace (ConnectionStatus_eqb (connectionStatus s) CONNECTED) with false
    by (destruct (connectionStatus s); try reflexivity; now elim Hst).
  unfold connect_resume.
  replace (resolveCredentials _) with (@None Credentials)
    by (rewrite <- Hcred; unfold resolveCredentials, clearReconnectTimeout;
        destruct (reconnectTimeout s); reflexivity).
  unfold transportCount, clearReconnectTimeout.
  destruct (reconnectTimeout s); cbn;
    rewrite !List.filter_app, !length_app; cbn; repeat split; lia.
Qed.

Lemma connect_needs_credentials_witness :
  let s := initialize (Some (mkCredentials "ASIAEXAMPLE" "" "token")) in
  snd (connect "t" s) = true /\
  connectionStatus (fst (connect "t" s)) = ERROR /\
  transportCount (fst (connect "t" s)) = 0%nat.
Proof.
  intros s.
  destruct (connect_needs_credentials "t" s)
    as (H1 & H2 & _ & _ & H5 & _); [reflexivity | reflexivity | discriminate |].
  split; [exact H1|]. split; [exact H2 | exact H5].
Defined.

(** After a manual disconnect that closed the transport the service
    holds no connection, and no transport event, promise continuation
    or timer gives it one back. *)
Lemma step_stays_closed (s : MqttService) (i : Input) :
  isCallConnect i = false ->
  manualDisconnect s = true ->
  noReconnectTimerPending s ->
  connection s = None ->
  connection (step s i) = None.
Proof.
  intros Hcall Hm Hn Hc. destruct i; cbn [step]; try discriminate Hcall.
  - unfold disconnect, clearReconnectTimeout. cbn.
    repeat match goal with
           | |- context [match ?x with _ => _ end] => destruct x eqn:?; cbn
           end;
      first [reflexivity | assumption | congruence].
  - unfold onConnect, subscribeToTopic. cbn. now rewrite Hc.
  - exact Hc.
  - exact Hc.
  - now rewrite (onDisconnect_manual_flag topic0 s Hm).
  - unfold onError. cbn. now rewrite Hm.
  - unfold onConnectResolved, subscribeToTopic. cbn.
    destruct (negb _); cbn; now rewrite ?Hc.
  - exact Hc.
  - unfold subscribeSettled. destruct ok; exact Hc.
  - unfold fireTimer.
    destruct (List.find _ (pendingTimers s)) as [t|] eqn:Hfind; [|exact Hc].
    apply find_some in Hfind as [Hin _].
    pose proof (Hn t Hin) as Hnot. unfold isReconnectTimer in Hnot.
    destruct (timer_task t); try discriminate Hnot; cbn [runTask].
    + change (manualDisconnect (clearTimeout id s)) with (manualDisconnect s).
      now rewrite Hm.
    + destruct (ConnectionStatus_eqb _ CONNECTING); exact Hc.
    + unfold subscribeToTopic. cbn. now rewrite Hc.
    + exact Hc.
Qed.

(** Without a transport, and with the manual flag up and no reconnect
    timer pending, no input short of a call to [connect] gives the
    service a transport back. *)
Lemma run_stays_closed (inputs : list Input) :
  forall s : MqttService,
    forallb (fun i => negb (isCallConnect i)) inputs = true ->
    manualDisconnect s = true ->
    noReconnectTimerPending s ->
    connection s = None ->
    connection (run s inputs) = None.
Proof.
  induction inputs as [|i rest IH]; intros s Hall Hm Hn Hc; [exact Hc|].
  cbn [forallb] in Hall. apply andb_prop in Hall as [Hi Hrest].
  apply negb_true_iff in Hi.
  destruct (step_stays_manual s i Hi Hm Hn) as [Hm' Hn'].
  unfold run. cbn [fold_left]. apply IH; try assumption.
  now apply step_stays_closed.
Qed.

(** What [disconnect] does to the transport it finds: it is kept when
    [unsubscribe] is called and throws, or when the close throws. *)
Lemma disconnect_connection (u d : bool) (s : MqttService) :
  connection (disconnect u d s)
  = match connection s with
    | Some c =>
        if (negb (String.eqb (currentTopic s) "") && negb u) || negb d
        then Some c else None
    | None => None
    end /\
  connectionStatus (disconnect u d s) = DISCONNECTED /\
  nextId (disconnect u d s) = nextId s /\
  credentials (disconnect u d s) = credentials s.
Proof.
  unfold disconnect, clearReconnectTimeout. cbn.
  destruct (reconnectTimeout s) as [rid|]; cbn;
    destruct (connection s) as [c|] eqn:Hc; cbn; rewrite ?Hc;
    try (repeat split; reflexivity);
    destruct (String.eqb (currentTopic s) ""), u, d; cbn;
    rewrite ?Hc; repeat split; reflexivity.
Qed.

(** [publishMessage] around [disconnect]. Right after [disconnect] it
    throws "MQTT not connected", however the unsubscribe and the close
    went. When [disconnect] left the service without a transport
    (both went through, or there was none) it keeps throwing, and
    nothing is handed to a transport, whatever transport events,
    continuations of the transport's promises and timers follow, as
    long as [connect] does not run. It does not keep throwing
    otherwise. When the unsubscribe or the close threw, the transport
    is kept, and one [resume] event makes [publishMessage] send on it
    again. And the rest of a [connect] that was waiting for its
    credentials while [disconnect] ran opens a new transport without
    looking at the manual flag; after its [connect] event
    [publishMessage] sends. *)
Theorem publish_refused_after_disconnect
    (s : MqttService) (u d : bool)
    (topic message : string) (publish : option TransportError) :
  let closed := disconnect u d s in
  publishMessage topic message publish closed = PublishNotConnected /\
  (reconnectTimerTracked s ->
   connection closed = None ->
   forall inputs : list Input,
     forallb (fun i => negb (isCallConnect i)) inputs = true ->
     publishMessage topic message publish (run closed inputs)
     = PublishNotConnected) /\
  (forall c : nat,
     connection s = Some c ->
     (negb (String.eqb (currentTopic s) "") && negb u) || negb d = true ->
     connection closed = Some c /\
     publishMessage topic message None (run closed [ResumeEvent])
     = PublishSent c topic message) /\
  (forall connecting : string,
     resolveCredentials s <> None ->
     let resumed := fst (connect_resume connecting closed) in
     manualDisconnect resumed = true /\
     connection resumed = Some (nextId s) /\
     publishMessage topic message None (onConnect connecting resumed)
     = PublishSent (nextId s) topic message).
Proof.
  intros closed.
  destruct (disconnect_connection u d s) as (Hconn & Hst & Hid & Hcred).
  fold closed in Hconn, Hst, Hid, Hcred.
  split; [|split; [|split]].
  - unfold publishMessage. rewrite Hst.
    destruct (connection closed); reflexivity.
  - intros Htr Hnone inputs Hall.
    assert (Hc : connection (run closed inputs) = None).
    { apply run_stays_closed; try assumption.
      - apply disconnect_flag.
      - now apply disconnect_none_pending. }
    unfold publishMessage. now rewrite Hc.
  - intros c Hc Hkept. rewrite Hc, Hkept in Hconn.
    split; [exact Hconn|]. clearbody closed.
    unfold run. cbn [fold_left step]. unfold onResume, publishMessage.
    cbn. now rewrite Hconn.
  - intros connecting Hres resumed.
    assert (Hres' : resolveCredentials closed = resolveCredentials s).
    { unfold resolveCredentials. now rewrite Hcred. }
    assert (Hm : manualDisconnect closed = true) by apply disconnect_flag.
    unfold resumed. clear resumed. clearbody closed.
    unfold connect_resume. rewrite Hres'.
    destruct (resolveCredentials s) as [cr|]; [|now elim Hres].
    cbn. rewrite Hid. split; [exact Hm|]. split; reflexivity.
Qed.

Lemma publish_refused_after_disconnect_witness :
  let s := run (initialize creds) [CallConnect "t"; ConnectEvent "t"] in
  publishMessage "t" "hello" None s = PublishSent 1 "t" "hello" /\
  publishMessage "t" "hello" None
    (run (disconnect true true s) [DisconnectEvent "t"; ResumeEvent;
                                   TimerFired 2])
  = PublishNotConnected /\
  publishMessage "t" "hello" None (run (disconnect false true s) [ResumeEvent])
  = PublishSent 1 "t" "hello" /\
  publishMessage "t" "hello" None
    (onConnect "t" (fst (connect_resume "t" (disconnect true true s))))
  = PublishSent 3 "t" "hello".
Proof.
  intros s.
  destruct (publish_refused_after_disconnect s true true "t" "hello" None)
    as (_ & Hclosed & _ & Hresumed).
  destruct (publish_refused_after_disconnect s false true "t" "hello" None)
    as (_ & _ & Hkept & _).
  split; [reflexivity|]. split; [|split].
  - apply Hclosed; [apply run_tracked | reflexivity | reflexivity].
  - apply (Hkept 1%nat); reflexivity.
  - apply (Hresumed "t"). discriminate.
Defined.

End ServiceErrors.

(** ** Callback registrations *)

Section Callbacks.
Import MqttService.

Lemma count_occ_removeCallback (callback x : nat) (callbacks : list nat) :
  In callback callbacks ->
  count_occ Nat.eq_dec callbacks x
  = (count_occ Nat.eq_dec (removeCallback callback callbacks) x
     + if Nat.eq_dec callback x then 1 else 0)%nat.
Proof.
  induction callbacks as [|c rest IH]; intros Hin; [destruct Hin|].
  cbn [removeCallback]. destruct (Nat.eqb_spec c callback) as [->|Hne].
  - cbn [count_occ]. destruct (Nat.eq_dec callback x); lia.
  - destruct Hin as [Heq|Hin]; [contradiction|].
    cbn [count_occ]. rewrite (IH Hin).
    destruct (Nat.eq_dec c x); lia.
Qed.

Lemma removeCallback_absent (callback : nat) (callbacks : list nat) :
  ~ In callback callbacks -> removeCallback callback callbacks = callbacks.
Proof.
  induction callbacks as [|c rest IH]; intros Hnot; [reflexivity|].
  cbn [removeCallback]. destruct (Nat.eqb_spec c callback) as [->|Hne].
  - elim Hnot. now left.
  - f_equal. apply IH. intros H. apply Hnot. now right.
Qed.

Lemma removeCallback_last (callback : nat) (callbacks : list nat) :
  ~ In callback callbacks ->
  removeCallback callback (callbacks ++ [callback]) = callbacks.
Proof.
  induction callbacks as [|c rest IH]; intros Hnot.
  - cbn. now rewrite Nat.eqb_refl.
  - cbn [app removeCallback]. destruct (Nat.eqb_spec c callback) as [->|Hne].
    + elim Hnot. now left.
    + f_equal. apply IH. intros H. apply Hnot. now right.
Qed.

Lemma count_occ_remove_add (callback x : nat) (callbacks : list nat) :
  count_occ Nat.eq_dec
    (removeCallback callback (addCallback callback callbacks)) x
  = count_occ Nat.eq_dec callbacks x.
Proof.
  pose proof (count_occ_removeCallback callback x
                (addCallback callback callbacks)) as H.
  unfold addCallback in *. rewrite count_occ_app in H. cbn in H.
  assert (Hin : In callback (callbacks ++ [callback]))
    by (apply in_or_app; right; left; reflexivity).
  specialize (H Hin).
  destruct (Nat.eq_dec callback x); lia.
Qed.

(** Removing a callback undoes one registration of it: every callback
    is registered as many times as before the pair of calls, and when
    the callback was not registered before, the array is the same
    again. Removing a callback that is not registered changes
    nothing. *)
Theorem removeCallback_undoes_addCallback
    (callback : nat) (callbacks : list nat) :
  (forall x : nat,
     count_occ Nat.eq_dec
       (removeCallback callback (addCallback callback callbacks)) x
     = count_occ Nat.eq_dec callbacks x) /\
  (~ In callback callbacks ->
   removeCallback callback (addCallback callback callbacks) = callbacks /\
   removeCallback callback callbacks = callbacks).
Proof.
  split.
  - intros x. apply count_occ_remove_add.
  - intros Hnot. split.
    + now apply removeCallback_last.
    + now apply removeCallback_absent.
Qed.

Lemma removeCallback_undoes_addCallback_witness :
  removeCallback 7 (addCallback 7 [3; 5]%nat) = [3; 5]%nat /\
  removeCallback 7 [3; 5]%nat = [3; 5]%nat /\
  removeCallback 3 (addCallback 3 [3; 5]%nat) = [5; 3]%nat.
Proof.
  destruct (removeCallback_undoes_addCallback 7 [3; 5]%nat) as [_ H].
  destruct H as [H1 H2]; [intros [H|[H|[]]]; discriminate H|].
  split; [exact H1|]. split; [exact H2 | reflexivity].
Defined.

Lemma deliver_count (handle : nat) (message : MqttMessage)
    (callbacks : list nat) :
  forall state : MqttContext.MqttState,
    MqttContext.messageCount
      (MqttContext.deliver handle callbacks message state)
    = MqttContext.messageCount state
      + Z.of_nat (count_occ Nat.eq_dec callbacks handle).
Proof.
  induction callbacks as [|c rest IH]; intros state.
  - cbn. lia.
  - unfold MqttContext.deliver in *. cbn [fold_left count_occ].
    rewrite IH. destruct (Nat.eqb_spec c handle) as [->|Hne].
    + destruct (Nat.eq_dec handle handle); [|contradiction]. cbn. lia.
    + destruct (Nat.eq_dec c handle); [contradiction|]. lia.
Qed.

(** A message is counted once per registration of the provider's
    handler, other callbacks and throwing ones notwithstanding: the
    handler registered twice counts every message twice, and after
    one removal once. *)
Theorem message_counted_per_registration
    (handle : nat) (callbacks : list nat)
    (message : MqttMessage) (state : MqttContext.MqttState) :
  MqttContext.messageCount
    (MqttContext.deliver handle callbacks message state)
  = MqttContext.messageCount state
    + Z.of_nat (count_occ Nat.eq_dec callbacks handle) /\
  MqttContext.messageCount
    (MqttContext.deliver handle
       (addCallback handle (addCallback handle callbacks)) message state)
  = MqttContext.messageCount state
    + Z.of_nat (count_occ Nat.eq_dec callbacks handle) + 2 /\
  MqttContext.messageCount
    (MqttContext.deliver handle
       (removeCallback handle
          (addCallback handle (addCallback handle callbacks)))
       message state)
  = MqttContext.messageCount state
    + Z.of_nat (count_occ Nat.eq_dec callbacks handle) + 1 /\
  map fst (notifyCallbacks (fun _ => true) callbacks) = callbacks.
Proof.
  split; [apply deliver_count|]. split; [|split].
  - rewrite deliver_count. unfold addCallback.
    rewrite !count_occ_app. cbn.
    destruct (Nat.eq_dec handle handle); [lia | contradiction].
  - rewrite deliver_count, count_occ_remove_add. unfold addCallback. rewrite count_occ_app. cbn.
    destruct (Nat.eq_dec handle handle); [lia | contradiction].
  - unfold notifyCallbacks. rewrite map_map. cbn. apply map_id.
Qed.

End Callbacks.

(** ** The auth provider over the auth service *)

Section ProviderAndService.
Import AuthTypes AuthFlows.

Lemma adopt_session
    (now : Z) (stored : bool) (sess : AuthSession)
    (st : AuthService.AuthService) :
  AuthService.currentSession (adopt now stored sess st) = Some sess.
Proof.
  unfold adopt, AuthService.scheduleTokenRefresh, AuthService.storeSession.
  destruct stored; cbn;
    destruct (AuthService.refreshTimer st); try reflexivity;
    destruct (_ >? 0); reflexivity.
Qed.

Lemma session_current
    (later : Z) (sess : AuthSession) (st : AuthService.AuthService) :
  AuthService.currentSession st = Some sess ->
  later < session_expiresAt sess ->
  AuthService.isAuthenticated later st = true.
Proof.
  intros Hs Hlt. unfold AuthService.isAuthenticated. rewrite Hs.
  now apply Z.ltb_lt.
Qed.

(** What the provider shows after [signIn] against what the service
    holds. A sign-in that returned tokens shows [AUTHENTICATED] with
    the user of the session the service now holds. A
    [NEW_PASSWORD_REQUIRED] challenge shows [CHALLENGE_REQUIRED] with
    the challenge session. Any other challenge shows [AUTHENTICATED]
    too, although the service was left as it was: when it held no
    session it still holds none, is not authenticated and hands out
    no credentials. *)
Theorem signIn_shown_against_service
    (now : Z) (username : string)
    (response : Settled AuthService.InitiateAuthResponse)
    (getUser : Settled AuthService.GetUserResponse)
    (sessionStored : bool) (cfg : DiscoveryService.AppConfig)
    (describe : Settled (option string)) (cacheStored : bool)
    (w : Services) (state : AuthContext.AuthStateType)
    (result : AuthResult) :
  let r := signIn now username response getUser sessionStored cfg describe
             cacheStored w in
  fst r = Resolved result ->
  let shown := AuthContext.signIn (fst r) state in
  match challengeName result with
  | None =>
      AuthContext.authState shown = AUTHENTICATED /\
      exists sess : AuthSession,
        AuthService.currentSession (auth (snd r)) = Some sess /\
        AuthContext.user shown = Some (session_user sess)
  | Some challenge =>
      snd r = w /\
      AuthContext.user shown
      = Some {| username := username; email := None; attributes := ∅ |} /\
      if String.eqb challenge "NEW_PASSWORD_REQUIRED"
      then AuthContext.authState shown = CHALLENGE_REQUIRED /\
           AuthContext.challengeSession shown
           = Some (match session result with Some x => x | None => "" end)
      else AuthContext.authState shown = AUTHENTICATED /\
           (AuthService.currentSession (auth w) = None ->
            forall later : Z,
              AuthService.isAuthenticated later (auth (snd r)) = false /\
              AuthService.getAWSCredentials later (auth (snd r))
              = Rejected (ThrownError "Error" "User not authenticated"))
  end.
Proof.
  intros r. unfold r, signIn.
  destruct response as [resp|e]; cbn [fst snd]; [|discriminate].
  destruct (AuthService.response_AuthenticationResult resp) as [ar|].
  - destruct (AuthService.token (AuthService.AccessToken ar)) as [acc|];
      [destruct (AuthService.token (AuthService.IdToken ar)) as [id|]|];
      cbn [fst snd]; try discriminate.
    destruct (AuthService.createCognitoUser getUser) as [u|e];
      cbn [fst snd]; [|discriminate].
    intros [= <-]. cbn [challengeName]. split; [reflexivity|].
    exists (newSession now ar acc id u). split; [|reflexivity].
    apply adopt_session.
  - destruct (AuthService.token (AuthService.response_ChallengeName resp))
      as [challenge|]; cbn [fst snd]; [|discriminate].
    intros [= <-]. cbn [challengeName session].
    split; [reflexivity|].
    unfold AuthContext.signIn, AuthContext.signIn_actions.
    cbn [challengeName session user].
    destruct (String.eqb challenge "NEW_PASSWORD_REQUIRED").
    + split; [reflexivity|]. split; reflexivity.
    + split; [reflexivity|]. split; [reflexivity|].
      intros Hnone later.
      unfold AuthService.getAWSCredentials, AuthService.isAuthenticated.
      rewrite Hnone. split; reflexivity.
Qed.

Lemma signIn_shown_against_service_witness :
  let r := signIn 1700000000000 "alice" (Resolved mfaChallenge)
             (Resolved aliceProfile) true euConfig
             (Resolved (Some euEndpoint)) true signedOut in
  let shown := AuthContext.signIn (fst r) AuthContext.initialState in
  AuthContext.authState shown = AUTHENTICATED /\
  AuthService.currentSession (auth (snd r)) = None /\
  AuthService.isAuthenticated 1700000000001 (auth (snd r)) = false.
Proof.
  intros r shown.
  pose proof (signIn_shown_against_service 1700000000000 "alice"
                (Resolved mfaChallenge) (Resolved aliceProfile) true euConfig
                (Resolved (Some euEndpoint)) true signedOut
                AuthContext.initialState
                {| user := {| username := "alice"; email := None;
                              attributes := ∅ |};
                   challengeName := Some "SMS_MFA";
                   session := Some "challenge-session";
                   accessToken := None; idToken := None;
                   refreshToken := None |}
                eq_refl) as H.
  cbn [challengeName] in H. destruct H as (_ & _ & H).
  change (String.eqb "SMS_MFA" "NEW_PASSWORD_REQUIRED") with false in H.
  destruct H as [H1 H2].
  split; [exact H1|]. split; [reflexivity|].
  apply (H2 eq_refl 1700000000001).
Defined.

(** A new-password challenge is all or nothing. When it fails, for
    whatever reason, the service and the storage are as before and the
    provider ends [UNAUTHENTICATED], not in the challenge state, with
    the one message "Failed to set new password. Please try again",
    the user and the challenge session still in place. When it
    succeeds the provider shows [AUTHENTICATED] with the user of the
    session the service now holds; that session has the tokens of the
    response's authentication result and expires
    [(ExpiresIn || 3600) * 1000] milliseconds after the call, with that
    result's [ExpiresIn], the service being authenticated until then;
    the discovery service has not been used. *)
Theorem completeNewPassword_all_or_nothing
    (now : Z) (response : Settled AuthService.InitiateAuthResponse)
    (getUser : Settled AuthService.GetUserResponse)
    (sessionStored : bool) (w : Services)
    (state : AuthContext.AuthStateType) :
  let r := completeNewPassword now response getUser sessionStored w in
  let shown := AuthContext.completeNewPassword (fst r) state in
  match fst r with
  | Rejected error =>
      snd r = w /\
      AuthContext.authState shown = UNAUTHENTICATED /\
      option_map message (AuthContext.error shown)
      = Some "Failed to set new password. Please try again" /\
      AuthContext.user shown = AuthContext.user state /\
      AuthContext.challengeSession shown = AuthContext.challengeSession state
  | Resolved result =>
      AuthContext.authState shown = AUTHENTICATED /\
      AuthContext.error shown = None /\
      AuthContext.challengeSession shown = None /\
      discovery (snd r) = discovery w /\
      exists sess : AuthSession,
        AuthService.currentSession (auth (snd r)) = Some sess /\
        AuthContext.user shown = Some (session_user sess) /\
        (exists (resp : AuthService.InitiateAuthResponse)
                (ar : AuthService.AuthenticationResult),
           response = Resolved resp /\
           AuthService.response_AuthenticationResult resp = Some ar /\
           AuthService.AccessToken ar = Some (session_accessToken sess) /\
           AuthService.IdToken ar = Some (session_idToken sess) /\
           session_refreshToken sess
           = match AuthService.RefreshToken ar with
             | Some x => x
             | None => ""
             end /\
           session_expiresAt sess
           = now + match AuthService.ExpiresIn ar with
                   | Some n => if n =? 0 then 3600 else n
                   | None => 3600
                   end * 1000) /\
        forall later : Z,
          later < session_expiresAt sess ->
          AuthService.isAuthenticated later (auth (snd r)) = true
  end.
Proof.
  intros r. unfold r, completeNewPassword.
  assert (Hfail :
    forall st : AuthContext.AuthStateType,
      AuthContext.authState
        (AuthContext.completeNewPassword
           (Rejected (ThrownError "Error"
                        "Failed to set new password. Please try again")) st)
      = UNAUTHENTICATED) by reflexivity.
  destruct response as [resp|e]; cbn [fst snd];
    [|split; [reflexivity|]; split; [apply Hfail|]; repeat split].
  destruct (AuthService.response_AuthenticationResult resp) as [ar|] eqn:Har;
    cbn [fst snd];
    [|split; [reflexivity|]; split; [apply Hfail|]; repeat split].
  destruct (AuthService.token (AuthService.AccessToken ar)) as [acc|]
    eqn:Hacc;
    [destruct (AuthService.token (AuthService.IdToken ar)) as [id|]
       eqn:Hid|];
    cbn [fst snd];
    try (split; [reflexivity|]; split; [apply Hfail|]; repeat split).
  destruct (AuthService.createCognitoUser getUser) as [u|e];
    cbn [fst snd];
    [|split; [reflexivity|]; split; [apply Hfail|]; repeat split].
  split; [reflexivity|]. split; [reflexivity|]. split; [reflexivity|].
  split; [reflexivity|].
  exists (newSession now ar acc id u).
  split; [apply adopt_session|]. split; [reflexivity|].
  split.
  { exists resp, ar. split; [reflexivity|]. split; [exact Har|].
    split; [now apply token_present|]. split; [now apply token_present|].
    split; [apply orElse_empty | reflexivity]. }
  intros later Hlater.
  apply session_current with (sess := newSession now ar acc id u);
    [apply adopt_session | exact Hlater].
Qed.

Lemma completeNewPassword_all_or_nothing_witness :
  let challenged :=
    AuthContext.signIn
      (Resolved {| user := {| username := "alice"; email := None;
                              attributes := ∅ |};
                   challengeName := Some "NEW_PASSWORD_REQUIRED";
                   session := Some "challenge-session";
                   accessToken := None; idToken := None;
                   refreshToken := None |})
      AuthContext.initialState in
  let r := completeNewPassword 1700000000000
             (Rejected (ThrownError "InvalidPasswordException"
                          "Password does not conform to policy"))
             (Resolved aliceProfile) true signedOut in
  let shown := AuthContext.completeNewPassword (fst r) challenged in
  let done := completeNewPassword 1700000000000 (Resolved dayTokens)
                (Resolved aliceProfile) true signedOut in
  (AuthContext.authState challenged = CHALLENGE_REQUIRED /\
   AuthContext.authState shown = UNAUTHENTICATED /\
   AuthContext.challengeSession shown = Some "challenge-session" /\
   snd r = signedOut) /\
  (AuthContext.authState (AuthContext.completeNewPassword (fst done) challenged)
   = AUTHENTICATED /\
   AuthService.currentSession (auth (snd done))
   = Some {| session_accessToken := "access-3";
             session_idToken := "id-3";
             session_refreshToken := "";
             session_user := session_user hourSession;
             session_expiresAt := 1700086400000 |} /\
   AuthService.isAuthenticated 1700086399999 (auth (snd done)) = true).
Proof.
  intros challenged r shown done.
  pose proof (completeNewPassword_all_or_nothing 1700000000000
                (Rejected (ThrownError "InvalidPasswordException"
                             "Password does not conform to policy"))
                (Resolved aliceProfile) true signedOut challenged) as H.
  cbv zeta in H.
  change (fst (completeNewPassword 1700000000000
                 (Rejected (ThrownError "InvalidPasswordException"
                              "Password does not conform to policy"))
                 (Resolved aliceProfile) true signedOut))
    with (@Rejected AuthResult
            (ThrownError "Error"
               "Failed to set new password. Please try again")) in H.
  destruct H as (H1 & H2 & _ & _ & H5).
  split.
  { split; [reflexivity|]. split; [exact H2|].
    split; [exact H5 | exact H1]. }
  pose proof (completeNewPassword_all_or_nothing 1700000000000
                (Resolved dayTokens) (Resolved aliceProfile) true signedOut
                challenged) as G.
  cbv zeta in G. fold done in G.
  assert (Hdone : fst done
                  = Resolved {| user := session_user hourSession;
                                challengeName := None; session := None;
                                accessToken := Some "access-3";
                                idToken := Some "id-3";
                                refreshToken := None |})
    by (vm_compute; reflexivity).
  rewrite Hdone in G.
  destruct G as (G1 & _ & _ & _ & sess & G5 & G6
                 & (resp & ar & Hr & Har & Ha & Hi & Hrt & Hexp) & G8).
  injection Hr as <-. injection Har as <-.
  injection Ha as Ha. injection Hi as Hi. injection G6 as G6.
  cbn in Hrt, Hexp.
  assert (Hsess : sess
                  = {| session_accessToken := "access-3";
                       session_idToken := "id-3";
                       session_refreshToken := "";
                       session_user := session_user hourSession;
                       session_expiresAt := 1700086400000 |}).
  { destruct sess as [a i rt u e]. cbn in *. subst. reflexivity. }
  subst sess.
  split; [rewrite Hdone; exact G1|]. split; [exact G5|].
  apply G8. reflexivity.
Defined.

End ProviderAndService.

(** ** The grace period of a first drop *)

Section GracePeriod.
Import MqttService.

Variable g : nat.
Variable topic : string.

Lemma armed_setTimeout (task : TimerTask) (delay : Z) (s : MqttService) :
  graceArmed g topic s -> graceArmed g topic (snd (setTimeout task delay s)).
Proof.
  intros (Hin & Hrt & Hlt). unfold graceArmed. cbn.
  split; [apply in_or_app; now left|]. split; [exact Hrt | lia].
Qed.

Lemma armed_clearTimeout (id : nat) (s : MqttService) :
  id <> g -> graceArmed g topic s -> graceArmed g topic (clearTimeout id s).
Proof.
  intros Hne (Hin & Hrt & Hlt). unfold graceArmed. cbn.
  split; [|split; assumption].
  apply filter_In. split; [exact Hin|]. cbn.
  apply negb_true_iff, Nat.eqb_neq. congruence.
Qed.

Lemma armed_clearReconnectTimeout (s : MqttService) :
  graceArmed g topic s -> graceArmed g topic (clearReconnectTimeout s).
Proof.
  intros H. unfold clearReconnectTimeout.
  destruct (reconnectTimeout s) as [id|] eqn:Hid; [|exact H].
  assert (Hne : id <> g) by (destruct H as (_ & Hrt & _); congruence).
  destruct (armed_clearTimeout id s Hne H) as (Hin & _ & Hlt).
  split; [exact Hin|]. split; [discriminate | exact Hlt].
Qed.

Lemma armed_scheduleReconnect (t : string) (s : MqttService) :
  graceArmed g topic s -> graceArmed g topic (scheduleReconnect t s).
Proof.
  intros H. unfold scheduleReconnect.
  destruct (_ <=? _)%nat; [exact H|].
  destruct (armed_clearReconnectTimeout s H) as (Hin & _ & Hlt).
  unfold graceArmed. cbn.
  split; [apply in_or_app; now left|].
  split; [intros [= Heq]|]; lia.
Qed.

Lemma armed_connect (t : string) (s : MqttService) :
  graceArmed g topic s -> graceArmed g topic (fst (connect t s)).
Proof.
  intros H. unfold connect, connect_enter.
  destruct (isConnecting s); [exact H|].
  destruct (ConnectionStatus_eqb (connectionStatus s) CONNECTED); [exact H|].
  destruct (armed_clearReconnectTimeout s H) as (Hin & Hrt & Hlt).
  unfold connect_resume. destruct (resolveCredentials _); cbn [fst].
  - unfold graceArmed. cbn.
    split; [apply in_or_app; now left|]. split; [exact Hrt | lia].
  - split; [exact Hin|]. split; [exact Hrt | exact Hlt].
Qed.

Lemma armed_disconnect (u d : bool) (s : MqttService) :
  graceArmed g topic s -> graceArmed g topic (disconnect u d s).
Proof.
  intros H.
  destruct (armed_clearReconnectTimeout (set_manualDisconnect true s) H)
    as (Hin & Hrt & Hlt).
  unfold disconnect. cbv zeta.
  set (s1 := clearReconnectTimeout (set_manualDisconnect true s)) in *.
  clearbody s1. unfold graceArmed. cbn.
  destruct (connection s1); cbn; [|now repeat split].
  destruct (negb (String.eqb (currentTopic s1) "")); cbn;
    destruct u, d; cbn; now repeat split.
Qed.

Lemma armed_runTask (task : TimerTask) (s : MqttService) :
  graceArmed g topic s -> graceArmed g topic (runTask task s).
Proof.
  intros H. destruct task as [t|t|t|t|t]; cbn [runTask].
  - apply armed_connect. destruct H as (Hin & _ & Hlt).
    split; [exact Hin|]. split; [discriminate | exact Hlt].
  - destruct (_ && _); [now apply armed_scheduleReconnect | exact H].
  - destruct (ConnectionStatus_eqb _ _); [|exact H].
    destruct H as (Hin & Hrt & Hlt). unfold graceArmed. cbn.
    split; [apply in_or_app; now left|]. split; [exact Hrt | lia].
  - unfold subscribeToTopic. destruct (connection s); exact H.
  - exact H.
Qed.

(** The grace timer is never cancelled: whatever reaches the service,
    it stays pending until it fires. *)
Lemma armed_step (s : MqttService) (i : Input) :
  i <> TimerFired g ->
  graceArmed g topic s -> graceArmed g topic (step s i).
Proof.
  intros Hi H. destruct i; cbn [step].
  - now apply armed_connect.
  - now apply armed_disconnect.
  - unfold onConnect, subscribeToTopic. cbn. destruct (connection s); exact H.
  - exact H.
  - exact H.
  - unfold onDisconnect. cbv zeta.
    destruct (negb _); [|exact H].
    destruct (Nat.eqb _ 0).
    + apply (armed_setTimeout (GraceTask topic0) 2000). exact H.
    + apply armed_scheduleReconnect. exact H.
  - unfold onError. cbv zeta.
    destruct (_ && _); [apply armed_scheduleReconnect|]; exact H.
  - unfold onConnectResolved, subscribeToTopic.
    destruct (negb _); [|exact H]. cbn. destruct (connection s); exact H.
  - exact H.
  - unfold subscribeSettled. destruct ok; [|exact H].
    now apply armed_setTimeout.
  - unfold fireTimer. destruct (List.find _ _); [|exact H].
    apply armed_runTask. apply armed_clearTimeout; [congruence | exact H].
Qed.

Lemma armed_run (inputs : list Input) :
  forall s : MqttService,
    ~ In (TimerFired g) inputs ->
    graceArmed g topic s -> graceArmed g topic (run s inputs).
Proof.
  induction inputs as [|i rest IH]; intros s Hnot H; [exact H|].
  unfold run. cbn [fold_left]. apply IH.
  - intros Hin. apply Hnot. now right.
  - apply armed_step; [|exact H]. intros ->. apply Hnot. now left.
Qed.

End GracePeriod.

Section GraceDecision.
Import MqttService.

Lemma run_app (s : MqttService) (first second : list Input) :
  run s (first ++ second) = run (run s first) second.
Proof. apply fold_left_app. Qed.

Lemma run_fresh (c : option Credentials) (inputs : list Input) :
  timersFresh (run (initialize c) inputs).
Proof.
  apply (kept_by_run timersFresh); try (intros; assumption).
  - intros. now apply fresh_new_handle.
  - intros. now apply fresh_setTimeout.
  - intros. now apply fresh_clearTimeout.
  - intros. now apply fresh_scheduleReconnect.
  - split; constructor.
Qed.

Lemma find_by_id (l : list Timer) (t : Timer) :
  List.NoDup (map timer_id l) ->
  In t l ->
  List.find (fun x => Nat.eqb (timer_id x) (timer_id t)) l = Some t.
Proof.
  induction l as [|x l IH]; intros Hnd Hin; [destruct Hin|].
  cbn in Hnd. inversion Hnd as [|y ys Hnotin Hnd']; subst.
  cbn [List.find]. destruct Hin as [->|Hin].
  - now rewrite Nat.eqb_refl.
  - destruct (Nat.eqb_spec (timer_id x) (timer_id t)) as [Heq|Hne].
    + elim Hnotin. rewrite Heq. now apply in_map.
    + now apply IH.
Qed.

(** The timer [reconnectTimeout] refers to was created earlier than any
    timer created from now on. *)
Lemma run_handle_older (c : option Credentials) (inputs : list Input) :
  forall id : nat,
    reconnectTimeout (run (initialize c) inputs) = Some id ->
    (id < nextId (run (initialize c) inputs))%nat.
Proof.
  apply (kept_by_run
           (fun s => forall id, reconnectTimeout s = Some id ->
                                (id < nextId s)%nat));
    try solve
      [ intros; cbn in *;
        first [ discriminate
              | match goal with
                | H : forall i, _ = Some i -> _, Hid : _ = Some _ |- _ =>
                    specialize (H _ Hid); lia
                end ] ].
  intros t s H id. unfold scheduleReconnect.
  destruct (maxReconnectAttempts <=? reconnectAttempts s)%nat;
    [cbn; apply H|].
  unfold clearReconnectTimeout.
  destruct (reconnectTimeout s); cbn; intros [= <-]; lia.
Qed.

(** C8, amended. On an unexpected drop (manual flag clear) in a state
    the service can reach, with the reconnect counter at zero, the
    handler schedules nothing: the status becomes [DISCONNECTED] and
    one timer of 2000 ms is armed, the counter and the reconnect timer
    staying as they were. That timer is never cancelled: whatever
    reaches the service in the meantime, it is still pending, and when
    it fires the reconnect is scheduled exactly if, at that moment,
    the manual flag is clear and the status is [DISCONNECTED];
    otherwise the timer is only forgotten. With the counter above zero
    the handler calls [scheduleReconnect] at once. *)
Theorem grace_period_checked_when_it_ends
    (c : option Credentials) (before interim : list Input) (topic : string) :
  let s := run (initialize c) before in
  let dropped := step s (DisconnectEvent topic) in
  let g := nextId s in
  let ended := run dropped interim in
  manualDisconnect s = false ->
  (reconnectAttempts s = 0%nat ->
   connectionStatus dropped = DISCONNECTED /\
   pendingTimers dropped
   = pendingTimers s ++ [mkTimer g 2000 (GraceTask topic)] /\
   reconnectTimeout dropped = reconnectTimeout s /\
   reconnectAttempts dropped = 0%nat /\
   (~ In (TimerFired g) interim ->
    In (mkTimer g 2000 (GraceTask topic)) (pendingTimers ended) /\
    step ended (TimerFired g)
    = if negb (manualDisconnect ended)
         && ConnectionStatus_eqb (connectionStatus ended) DISCONNECTED
      then scheduleReconnect topic (clearTimeout g ended)
      else clearTimeout g ended)) /\
  (reconnectAttempts s <> 0%nat ->
   dropped
   = scheduleReconnect topic
       (setConnectionStatus DISCONNECTED (set_isConnecting false s))).
Proof.
  intros s dropped g ended Hmanual. split.
  - intros Hzero.
    assert (Hdrop : dropped
                    = snd (setTimeout (GraceTask topic) 2000
                             (setConnectionStatus DISCONNECTED
                                (set_isConnecting false s)))).
    { unfold dropped. cbn [step]. unfold onDisconnect. cbn.
      now rewrite Hmanual, Hzero. }
    split; [now rewrite Hdrop|]. split; [now rewrite Hdrop|].
    split; [now rewrite Hdrop|]. split; [now rewrite Hdrop|].
    intros Hnot.
    assert (Harmed : graceArmed g topic dropped).
    { rewrite Hdrop. unfold graceArmed. cbn.
      split; [apply in_or_app; right; now left|]. split; [|unfold g; lia].
      intros Heq. apply (run_handle_older c before) in Heq.
      fold s in Heq. unfold g in Heq. lia. }
    destruct (armed_run g topic interim dropped Hnot Harmed) as (Hin & _).
    fold ended in Hin. split; [exact Hin|].
    assert (Hfresh : timersFresh ended).
    { unfold ended, dropped, s.
      change (step (run (initialize c) before) (DisconnectEvent topic))
        with (run (run (initialize c) before) [DisconnectEvent topic]).
      rewrite <- !run_app. apply run_fresh. }
    destruct Hfresh as [Hnd _].
    pose proof (find_by_id (pendingTimers ended) _ Hnd Hin) as Hfind.
    cbn [timer_id] in Hfind.
    cbn [step]. unfold fireTimer. rewrite Hfind. reflexivity.
  - intros Hpos. unfold dropped. cbn [step]. unfold onDisconnect. cbn.
    rewrite Hmanual. cbn.
    destruct (reconnectAttempts s) as [|n] eqn:Hn; [now elim Hpos|].
    reflexivity.
Qed.

(** A drop whose grace period ends with the flag clear and the status
    [DISCONNECTED] although the connection had resumed in between, and
    one whose grace period ends after a manual disconnect. *)
Lemma grace_period_checked_when_it_ends_witness :
  (reconnectAttempts (step resumedThenInterrupted (TimerFired 3)) = 1%nat /\
   reconnectTimers (step resumedThenInterrupted (TimerFired 3))
   = [mkTimer 4 5000 (ReconnectTask "t")]) /\
  (reconnectAttempts
     (step (run firstDrop [CallDisconnect true true]) (TimerFired 3)) = 0%nat /\
   pendingTimers
     (step (run firstDrop [CallDisconnect true true]) (TimerFired 3))
   = [mkTimer 2 3000 (WatchdogTask "t")]).
Proof.
  destruct (grace_period_checked_when_it_ends creds
              [CallConnect "t"; ConnectEvent "t"]
              [ResumeEvent; InterruptEvent] "t") as [Hfirst _];
    [reflexivity|].
  destruct Hfirst as (_ & _ & _ & _ & Hend); [reflexivity|].
  destruct Hend as [_ Hfire];
    [intros [H|[H|[]]]; discriminate H|].
  destruct (grace_period_checked_when_it_ends creds
              [CallConnect "t"; ConnectEvent "t"]
              [CallDisconnect true true] "t") as [Hmanual _];
    [reflexivity|].
  destruct Hmanual as (_ & _ & _ & _ & Hend); [reflexivity|].
  destruct Hend as [_ Hskip]; [intros [H|[]]; discriminate H|].
  split.
  - match type of Hfire with
    | ?l = _ =>
        assert (E : step resumedThenInterrupted (TimerFired 3) = l)
          by (vm_compute; reflexivity)
    end.
    rewrite E, Hfire. vm_compute. split; reflexivity.
  - match type of Hskip with
    | ?l = _ =>
        assert (E : step (run firstDrop [CallDisconnect true true])
                      (TimerFired 3) = l)
          by (vm_compute; reflexivity)
    end.
    rewrite E, Hskip. vm_compute. split; reflexivity.
Defined.

(** The claim as first stated fails: the status left [DISCONNECTED]
    during the grace period (the connection resumed and was
    interrupted again), or the user disconnected and connected again
    and the new connection dropped, and the grace timer of the first
    drop still schedules a reconnect. *)
Lemma grace_period_ignores_the_interim :
  (reconnectAttempts firstDrop = 0%nat /\
   pendingTimers firstDrop
   = [mkTimer 2 3000 (WatchdogTask "t"); mkTimer 3 2000 (GraceTask "t")] /\
   connectionStatus (step firstDrop ResumeEvent) = CONNECTED /\
   reconnectTimers resumedThenInterrupted = [] /\
   reconnectAttempts (step resumedThenInterrupted (TimerFired 3)) = 1%nat /\
   connectionStatus (step resumedThenInterrupted (TimerFired 3))
   = RECONNECTING /\
   reconnectTimers (step resumedThenInterrupted (TimerFired 3))
   = [mkTimer 4 5000 (ReconnectTask "t")]) /\
  (manualDisconnect (step firstDrop (CallDisconnect true true)) = true /\
   reconnectTimers reconnectedByHand = [] /\
   reconnectAttempts (step reconnectedByHand (TimerFired 3)) = 1%nat /\
   connectionStatus (step reconnectedByHand (TimerFired 3)) = RECONNECTING /\
   reconnectTimers (step reconnectedByHand (TimerFired 3))
   = [mkTimer 7 5000 (ReconnectTask "t")]).
Proof. vm_compute. repeat split. Qed.

End GraceDecision.
